(** * Rule-based source security scanner: verdict, histogram and matcher

    A shallow embedding of the audit scripts of the repository:
    - [QUANTUM_CERTIFICATE_SECURITY_AUDIT.py]  (module [Quantum]),
    - [SECURITY_PRODUCTION_READINESS_VALIDATOR.py] (module [Validator]),
    - [security_audit.py] (module [Audit]).

    Python [str] values are modelled as [string]; one [ascii] stands for one
    character whose code point is below 256.  Python [int] counters that only
    start at [0] and grow by [+= 1] or come from [len] are modelled as [nat].
    A [dict] keyed by strings is a [gmap string _].

    The files of a project are an input: the list of the paths [rglob]
    yields, each with what reading it gives.  The walk itself is done by
    [pathlib] and is not part of the scripts.  The modules above take a
    project all of whose paths can be examined; the calls of the first
    script that raise when a path cannot be, and the three ways in which it
    looks at the file system, are in module [QuantumIO], and
    [quantum_is_the_examinable_run] relates the two.  Regular expressions are
    embedded as syntax trees and run by a derivative matcher, which
    [search_spec] relates to the language of the pattern. *)

From Stdlib Require Import Ascii String ZArith Lia Bool.
From stdpp Require Import base gmap strings list fin_maps.

(** ** Python string operations used by the scripts *)
Module PyStr.

Definition code (c : ascii) : nat := nat_of_ascii c.

(** [str.isspace] on one character, for code points below 256:
    TAB..CR, FS..US, SPACE, NEL (0x85) and NBSP (0xA0). *)
Definition is_space (c : ascii) : bool :=
  let n := code c in
  ((9 <=? n) && (n <=? 13)) || ((28 <=? n) && (n <=? 32))
  || (n =? 133) || (n =? 160).

(** [str.isalnum() or c == '_'] for code points below 256: what the
    regular expression class [\w] accepts on [str] patterns. *)
Definition is_word (c : ascii) : bool :=
  let n := code c in
  ((48 <=? n) && (n <=? 57)) || ((65 <=? n) && (n <=? 90))
  || ((97 <=? n) && (n <=? 122)) || (n =? 95)
  || (n =? 170) || (n =? 178) || (n =? 179) || (n =? 181)
  || (n =? 185) || (n =? 186) || ((188 <=? n) && (n <=? 190))
  || ((192 <=? n) && (n <=? 214)) || ((216 <=? n) && (n <=? 246))
  || ((248 <=? n) && (n <=? 255)).

(** Lower-casing of the letters A..Z. *)
Definition lower_ascii (c : ascii) : ascii :=
  let n := code c in
  if (65 <=? n) && (n <=? 90) then ascii_of_nat (n + 32) else c.

(** [str.lower] for code points below 256 (A..Z and the Latin-1 capitals). *)
Definition lower_char (c : ascii) : ascii :=
  let n := code c in
  if ((65 <=? n) && (n <=? 90))
     || ((192 <=? n) && (n <=? 222) && negb (n =? 215))
  then ascii_of_nat (n + 32) else c.

Fixpoint lower (s : string) : string :=
  match s with
  | EmptyString => EmptyString
  | String c s' => String (lower_char c) (lower s')
  end.

(** [s.lstrip()] *)
Fixpoint lstrip (s : string) : string :=
  match s with
  | EmptyString => EmptyString
  | String c s' => if is_space c then lstrip s' else s
  end.

Definition is_empty (s : string) : bool :=
  match s with EmptyString => true | _ => false end.

(** [s.rstrip()] *)
Fixpoint rstrip (s : string) : string :=
  match s with
  | EmptyString => EmptyString
  | String c s' =>
      let r := rstrip s' in
      if is_space c && is_empty r then EmptyString else String c r
  end.

(** [s.strip()] *)
Definition strip (s : string) : string := rstrip (lstrip s).

(** Strings without any whitespace character (so without a newline). *)
Fixpoint has_no_space (s : string) : bool :=
  match s with
  | EmptyString => true
  | String c s' => negb (is_space c) && has_no_space s'
  end.

(** [len(s)] *)
Definition len (s : string) : nat := String.length s.

(** [s.startswith(p)] *)
Fixpoint startswith (p s : string) : bool :=
  match p, s with
  | EmptyString, _ => true
  | String a p', String b s' => if Ascii.eqb a b then startswith p' s' else false
  | String _ _, EmptyString => false
  end.

(** [sub in s] *)
Fixpoint contains (sub s : string) : bool :=
  if startswith sub s then true
  else match s with
       | EmptyString => false
       | String _ s' => contains sub s'
       end.

(** [s.find(sub)]: index of the first occurrence, [-1] when there is none. *)
Fixpoint find_from (sub s : string) (i : nat) : Z :=
  if startswith sub s then Z.of_nat i
  else match s with
       | EmptyString => (-1)%Z
       | String _ s' => find_from sub s' (S i)
       end.

Definition find (s sub : string) : Z := find_from sub s 0.

Fixpoint take (n : nat) (s : string) : string :=
  match n, s with
  | S n', String c s' => String c (take n' s')
  | _, _ => EmptyString
  end.

(** [s[:k]] with Python's treatment of a negative bound. *)
Definition slice_to (s : string) (k : Z) : string :=
  if (0 <=? k)%Z then take (Z.to_nat k) s
  else take (len s - Z.to_nat (- k)) s.

(** [s.endswith(suf)] *)
Definition endswith (suf s : string) : bool :=
  (len suf <=? len s) &&
  String.eqb (String.substring (len s - len suf) (len suf) s) suf.

(** [f.readlines()]: lines with their terminating newline kept. *)
Fixpoint readlines_aux (cur : string -> string) (s : string) : list string :=
  match s with
  | EmptyString =>
      if is_empty (cur EmptyString) then [] else [cur EmptyString]
  | String c s' =>
      if Ascii.eqb c "010"%char
      then cur (String c EmptyString) :: readlines_aux (fun t => t) s'
      else readlines_aux (fun t => cur (String c t)) s'
  end.

Definition readlines (content : string) : list string :=
  readlines_aux (fun t => t) content.

(** [content.split('\n')] *)
Fixpoint split_nl_aux (cur : string -> string) (s : string) : list string :=
  match s with
  | EmptyString => [cur EmptyString]
  | String c s' =>
      if Ascii.eqb c "010"%char
      then cur EmptyString :: split_nl_aux (fun t => t) s'
      else split_nl_aux (fun t => cur (String c t)) s'
  end.

Definition split_nl (content : string) : list string :=
  split_nl_aux (fun t => t) content.

End PyStr.

(** ** Regular expressions: the fragment of [re] the scripts use

    The patterns of the scripts use literals, [.], character sets, [\s], [\w],
    alternation, grouping and the repetitions [*], [+], [*?] and [{n,}]; none
    uses anchors, look-around or back-references, so [re.search] succeeds
    exactly when some substring belongs to the language of the pattern. *)
Module Re.

Inductive regex : Type :=
| Void : regex
| Eps : regex
| Sym : (ascii -> bool) -> regex
| Cat : regex -> regex -> regex
| Alt : regex -> regex -> regex
| Star : regex -> regex.

Fixpoint nullable (r : regex) : bool :=
  match r with
  | Void => false
  | Eps => true
  | Sym _ => false
  | Cat r1 r2 => nullable r1 && nullable r2
  | Alt r1 r2 => nullable r1 || nullable r2
  | Star _ => true
  end.

Fixpoint deriv (c : ascii) (r : regex) : regex :=
  match r with
  | Void => Void
  | Eps => Void
  | Sym p => if p c then Eps else Void
  | Cat r1 r2 =>
      if nullable r1 then Alt (Cat (deriv c r1) r2) (deriv c r2)
      else Cat (deriv c r1) r2
  | Alt r1 r2 => Alt (deriv c r1) (deriv c r2)
  | Star r1 => Cat (deriv c r1) (Star r1)
  end.

(** Does some prefix of [s] belong to the language of [r]? *)
Fixpoint prefix_match (s : string) (r : regex) : bool :=
  if nullable r then true
  else match s with
       | EmptyString => false
       | String c s' => prefix_match s' (deriv c r)
       end.

(** [re.search(r, s)] as a truth value. *)
Fixpoint search (r : regex) (s : string) : bool :=
  if prefix_match s r then true
  else match s with
       | EmptyString => false
       | String _ s' => search r s'
       end.

(** The language of a pattern: the strings it matches as a whole. *)
Inductive matches : regex -> string -> Prop :=
| matches_eps : matches Eps EmptyString
| matches_sym p c : p c = true -> matches (Sym p) (String c EmptyString)
| matches_cat r1 r2 s1 s2 :
    matches r1 s1 -> matches r2 s2 -> matches (Cat r1 r2) (s1 +:+ s2)
| matches_alt_l r1 r2 s : matches r1 s -> matches (Alt r1 r2) s
| matches_alt_r r1 r2 s : matches r2 s -> matches (Alt r1 r2) s
| matches_star_nil r : matches (Star r) EmptyString
| matches_star_app r s1 s2 :
    matches r s1 -> matches (Star r) s2 -> matches (Star r) (s1 +:+ s2).

(** Pattern constructors.  [ic] is the [re.IGNORECASE] flag. *)
Definition chr (ic : bool) (c : ascii) : regex :=
  Sym (fun x => if ic then Ascii.eqb (PyStr.lower_ascii x) (PyStr.lower_ascii c)
                else Ascii.eqb x c).

Fixpoint lit (ic : bool) (s : string) : regex :=
  match s with
  | EmptyString => Eps
  | String c s' => Cat (chr ic c) (lit ic s')
  end.

(** [.] (no DOTALL): anything but a newline. *)
Definition dot : regex := Sym (fun x => negb (Ascii.eqb x "010"%char)).
(** [\s] and [\w] *)
Definition space : regex := Sym PyStr.is_space.
Definition word : regex := Sym PyStr.is_word.

Fixpoint mem_char (c : ascii) (s : string) : bool :=
  match s with
  | EmptyString => false
  | String a s' => Ascii.eqb a c || mem_char c s'
  end.

(** [[abc]] and [[^abc]] over sets without letters. *)
Definition one_of (set : string) : regex := Sym (fun x => mem_char x set).
Definition none_of (set : string) : regex := Sym (fun x => negb (mem_char x set)).

Definition plus (r : regex) : regex := Cat r (Star r).

(** [r{n,}] *)
Fixpoint at_least (n : nat) (r : regex) : regex :=
  match n with
  | O => Star r
  | S n' => Cat r (at_least n' r)
  end.

Fixpoint alts (rs : list regex) : regex :=
  match rs with
  | [] => Void
  | [r] => r
  | r :: rs' => Alt r (alts rs')
  end.

Fixpoint cats (rs : list regex) : regex :=
  match rs with
  | [] => Eps
  | r :: rs' => Cat r (cats rs')
  end.

End Re.

(** ** Shared pieces of the three scripts *)

(** [d[k] += 1] on a dictionary of counters.  Every key the scripts increment
    is created by [__init__] (or by the histogram initialiser) and no key is
    ever removed, so the lookup cannot raise. *)
Definition dict_incr `{Countable K} (k : K) (d : gmap K nat) : gmap K nat :=
  <[k := d !!! k + 1]> d.

(** The tally loop [for x in xs: d[key(x)] += 1]. *)
Definition tally `{Countable K} {A} (key : A -> K) (d : gmap K nat)
    (xs : list A) : gmap K nat :=
  foldl (fun d x => dict_incr (key x) d) d xs.

(** [sum(d.values())] *)
Definition sum_values `{Countable K} (d : gmap K nat) : nat :=
  map_fold (fun _ v acc => v + acc) 0 d.

(** What [open(...)] followed by [read()] or [readlines()] gives: the decoded
    text, with line ends already turned into newlines as text mode does, or
    an exception (missing permission, a directory, bytes that are not
    UTF-8). *)
Inductive read_result : Type :=
| ReadOk (content : string)
| ReadFails (err : string).

Inductive node : Type :=
| Directory
| Regular (r : read_result).

(** One path below the project root, as [rglob] yields it. *)
Record DirEntry : Type := mkEntry {
  rel_path : string;
  entry_node : node
}.

Definition is_file (e : DirEntry) : bool :=
  match entry_node e with Regular _ => true | Directory => false end.

(** [open(path).read()] for an entry of the list; opening a directory
    raises [IsADirectoryError].  The text of a failed read names the
    exception; it is not the message Python prints for it, which holds the
    absolute path.  One reading serves every [open] of the scripts, so the
    encoding of the locale is taken to read as UTF-8 does.  [QuantumIO] takes
    the message and the reading in the locale's encoding as inputs of their
    own. *)
Definition read_entry (e : DirEntry) : read_result :=
  match entry_node e with
  | Regular r => r
  | Directory => ReadFails "IsADirectoryError"
  end.

(** [Path.name]: the final component of a path. *)
Fixpoint path_name (p : string) : string :=
  match p with
  | EmptyString => EmptyString
  | String c p' =>
      if Re.mem_char "/"%char p' then path_name p'
      else if Ascii.eqb c "/"%char then p' else p
  end.

Fixpoint from_last_dot (s : string) : option string :=
  match s with
  | EmptyString => None
  | String c s' =>
      match from_last_dot s' with
      | Some r => Some r
      | None => if Ascii.eqb c "."%char then Some s else None
      end
  end.

(** [Path.suffix]: [name[i:]] for the last dot [i] when [0 < i < len(name)-1],
    the empty string otherwise. *)
Definition path_suffix (p : string) : string :=
  match path_name p with
  | EmptyString => EmptyString
  | String _ rest =>
      match from_last_dot rest with
      | Some r => if PyStr.len r <=? 1 then EmptyString else r
      | None => EmptyString
      end
  end.

(** [{k: 0 for k in keys}] *)
Definition zero_counts `{Countable K} (keys : list K) : gmap K nat :=
  list_to_map ((fun k => (k, 0)) <$> keys).

(** [x in [a, b, ...]] on strings *)
Definition str_in (x : string) (l : list string) : bool :=
  existsb (String.eqb x) l.

(** [enumerate(lines, 1)] *)
Fixpoint enumerate_from {A : Type} (start : nat) (l : list A) : list (nat * A) :=
  match l with
  | [] => []
  | x :: l' => (start, x) :: enumerate_from (S start) l'
  end.

Definition enumerate1 {A : Type} (l : list A) : list (nat * A) :=
  enumerate_from 1 l.

(** ** QUANTUM_CERTIFICATE_SECURITY_AUDIT.py *)
Module Quantum.

Inductive SecuritySeverity : Type := CRITICAL | HIGH | MEDIUM | LOW | INFO.

Definition severity_value (s : SecuritySeverity) : string :=
  match s with
  | CRITICAL => "CRITICAL" | HIGH => "HIGH" | MEDIUM => "MEDIUM"
  | LOW => "LOW" | INFO => "INFO"
  end.

(** Iteration order of the [Enum] class. *)
Definition all_severities : list SecuritySeverity :=
  [CRITICAL; HIGH; MEDIUM; LOW; INFO].

Inductive SecurityCategory : Type :=
| QUANTUM_CRYPTO | CERTIFICATE_MGMT | CONSENSUS_PROOF
| API_SECURITY | CONFIG_SECURITY | PRODUCTION_READINESS.

Definition category_value (c : SecurityCategory) : string :=
  match c with
  | QUANTUM_CRYPTO => "quantum_cryptography"
  | CERTIFICATE_MGMT => "certificate_management"
  | CONSENSUS_PROOF => "consensus_proof_validation"
  | API_SECURITY => "api_security"
  | CONFIG_SECURITY => "configuration_security"
  | PRODUCTION_READINESS => "production_readiness"
  end.

Definition all_categories : list SecurityCategory :=
  [QUANTUM_CRYPTO; CERTIFICATE_MGMT; CONSENSUS_PROOF;
   API_SECURITY; CONFIG_SECURITY; PRODUCTION_READINESS].

Global Instance severity_eq_dec : EqDecision SecuritySeverity.
Proof. solve_decision. Defined.

Global Instance category_eq_dec : EqDecision SecurityCategory.
Proof. solve_decision. Defined.

Record SecurityFinding : Type := mkFinding {
  category : SecurityCategory;
  severity : SecuritySeverity;
  title : string;
  description : string;
  file_path : string;
  line_number : nat;
  evidence : string;
  impact : string;
  remediation : string;
  cve_reference : option string
}.

(** What the auditor prints while it reads files. *)
Inductive Printed : Type :=
| FileNotFound (relative_path : string)
| ErrorAuditing (relative_path err : string).

(** The mutable part of [QuantumCertificateSecurityAuditor], with the
    console output of the file readers. *)
Record Auditor : Type := mkAuditor {
  findings : list SecurityFinding;
  stats : gmap string nat;
  console : list Printed
}.

(** [__init__] *)
Definition init : Auditor :=
  {| findings := [];
     stats := <["files_scanned" := 0]>
                (<["lines_scanned" := 0]>
                   (<["vulnerabilities_found" := 0]> ∅));
     console := [] |}.

Definition add_finding (f : SecurityFinding) (st : Auditor) : Auditor :=
  {| findings := findings st ++ [f]; stats := stats st; console := console st |}.

Definition incr_stat (k : string) (st : Auditor) : Auditor :=
  {| findings := findings st; stats := dict_incr k (stats st);
     console := console st |}.

Definition add_stat (k : string) (n : nat) (st : Auditor) : Auditor :=
  {| findings := findings st; stats := <[k := stats st !!! k + n]> (stats st);
     console := console st |}.

Definition print (p : Printed) (st : Auditor) : Auditor :=
  {| findings := findings st; stats := stats st;
     console := console st ++ [p] |}.

(** A regular expression of the script: its source text and its parse. *)
Record Pattern : Type := mkPattern {
  pat_src : string;
  pat_rx : Re.regex
}.

(** *** [_scan_for_pattern] *)

Definition pattern_finding (pattern : Pattern) (cat : SecurityCategory)
    (sev : SecuritySeverity) (descr : string)
    (path : string) (line_num : nat) (line : string) : SecurityFinding :=
  {| category := cat;
     severity := sev;
     title := descr;
     description := "Pattern '" +:+ pat_src pattern +:+ "' found in code";
     file_path := path;
     line_number := line_num;
     evidence := PyStr.strip line;
     impact := "Potential security vulnerability";
     remediation := "Review and fix identified security issue";
     cve_reference := None |}.

(** The body of [for line_num, line in enumerate(lines, 1)]. *)
Definition scan_line (pattern : Pattern) (cat : SecurityCategory)
    (sev : SecuritySeverity) (descr : string) (path : string)
    (st : Auditor) (nl : nat * string) : Auditor :=
  if Re.search (pat_rx pattern) nl.2
  then incr_stat "vulnerabilities_found"
         (add_finding (pattern_finding pattern cat sev descr path nl.1 nl.2) st)
  else st.

Definition scanned_suffixes : list string := [".rs"; ".ts"; ".tsx"; ".js"; ".sol"].

(** [file_path.is_file() and file_path.suffix in [...]], for a path whose
    [stat] succeeds; [QuantumIO.scan_visit] has the call that raises. *)
Definition scannable (e : DirEntry) : bool :=
  is_file e && str_in (path_suffix (rel_path e)) scanned_suffixes.

(** The body of [for file_path in self.project_root.rglob("*")]: a file
    that cannot be read or decoded raises inside [try] before any line is
    looked at, and [except: pass] drops the exception. *)
Definition scan_entry (pattern : Pattern) (cat : SecurityCategory)
    (sev : SecuritySeverity) (descr : string)
    (st : Auditor) (e : DirEntry) : Auditor :=
  if scannable e then
    match read_entry e with
    | ReadOk content =>
        foldl (scan_line pattern cat sev descr (rel_path e)) st
              (enumerate1 (PyStr.readlines content))
    | ReadFails _ => st
    end
  else st.

Definition _scan_for_pattern (tree : list DirEntry) (pattern : Pattern)
    (cat : SecurityCategory) (sev : SecuritySeverity) (descr : string)
    (st : Auditor) : Auditor :=
  foldl (scan_entry pattern cat sev descr) st tree.

(** A rule: the four arguments of one call of [_scan_for_pattern]. *)
Record Rule : Type := mkRule {
  rule_pattern : Pattern;
  rule_category : SecurityCategory;
  rule_severity : SecuritySeverity;
  rule_description : string
}.

Definition scan_rule (tree : list DirEntry) (st : Auditor) (r : Rule) : Auditor :=
  _scan_for_pattern tree (rule_pattern r) (rule_category r)
                    (rule_severity r) (rule_description r) st.

(** [for pattern in patterns: await self._scan_for_pattern(...)] *)
Definition scan_rules (tree : list DirEntry) (rules : list Rule)
    (st : Auditor) : Auditor :=
  foldl (scan_rule tree) st rules.

(** The finding a rule makes of a numbered line of the file [path]. *)
Definition rule_finding (r : Rule) (path : string) (nl : nat * string)
    : SecurityFinding :=
  pattern_finding (rule_pattern r) (rule_category r) (rule_severity r)
                  (rule_description r) path nl.1 nl.2.

(** The findings one rule yields on one entry, in line order. *)
Definition entry_matches (r : Rule) (e : DirEntry) : list SecurityFinding :=
  if scannable e then
    match read_entry e with
    | ReadOk content =>
        rule_finding r (rel_path e)
        <$> List.filter (fun nl => Re.search (pat_rx (rule_pattern r)) nl.2)
                        (enumerate1 (PyStr.readlines content))
    | ReadFails _ => []
    end
  else [].

(** Does a finding point at line [n] of the file [p]? *)
Definition points_at (p : string) (n : nat) (f : SecurityFinding) : bool :=
  String.eqb (file_path f) p && (line_number f =? n).

(** Number of findings that point at line [n] of the file [p]. *)
Definition findings_at (p : string) (n : nat) (fs : list SecurityFinding) : nat :=
  length (List.filter (points_at p n) fs).

(** Number of rules whose pattern [re.search] finds in a line. *)
Definition matching_rules (rules : list Rule) (line : string) : nat :=
  length (List.filter (fun r => Re.search (pat_rx (rule_pattern r)) line) rules).

(** *** The pattern lists *)

Definition dq : string := String "034"%char EmptyString.
Definition quotes : string := "'" +:+ dq.

Definition plain (s src : string) : Pattern :=
  {| pat_src := src; pat_rx := Re.lit true s |}.

(** The four secret patterns: the key, [\s*=\s*], one quote character
    (single or double), one or more characters that are no quote, and a
    quote character again. *)
Definition secret_pattern (key : string) : Pattern :=
  {| pat_src := key +:+ "\s*=\s*['\" +:+ dq +:+ "][^'\" +:+ dq +:+ "]+['\" +:+ dq +:+ "]";
     pat_rx := Re.cats [Re.lit true key; Re.Star Re.space; Re.chr true "="%char;
                        Re.Star Re.space; Re.one_of quotes;
                        Re.plus (Re.none_of quotes); Re.one_of quotes] |}.

Definition secret_patterns : list Pattern :=
  [secret_pattern "password"; secret_pattern "secret";
   secret_pattern "api_key"; secret_pattern "private_key"].

Definition debug_patterns : list Pattern :=
  [plain "console.log(" "console\.log\(";
   plain "println!(" "println!\(";
   plain "debug!(" "debug!\(";
   plain "#[cfg(debug_assertions)]" "#\[cfg\(debug_assertions\)\]"].

Definition test_patterns : list Pattern :=
  [plain "test.example.com" "test\.example\.com";
   plain "localhost" "localhost";
   plain "test-ca" "test-ca";
   plain "development" "development"].

Definition mock_patterns : list Pattern :=
  [plain "mock_" "mock_"; plain "fake_" "fake_"; plain "dummy_" "dummy_";
   plain "placeholder" "placeholder";
   plain "todo!(" "todo!\(";
   plain "unimplemented!(" "unimplemented!\("].

Definition rules_of (ps : list Pattern) (cat : SecurityCategory)
    (sev : SecuritySeverity) (descr : string) : list Rule :=
  (fun p => mkRule p cat sev descr) <$> ps.

Definition _check_hardcoded_secrets (tree : list DirEntry) : Auditor -> Auditor :=
  scan_rules tree (rules_of secret_patterns CONFIG_SECURITY CRITICAL
                            "Hardcoded secret detected").

Definition _check_debug_code (tree : list DirEntry) : Auditor -> Auditor :=
  scan_rules tree (rules_of debug_patterns PRODUCTION_READINESS MEDIUM
                            "Debug code in production").

Definition _check_test_certificates (tree : list DirEntry) : Auditor -> Auditor :=
  scan_rules tree (rules_of test_patterns PRODUCTION_READINESS HIGH
                            "Test data in production code").

Definition _check_mock_implementations (tree : list DirEntry) : Auditor -> Auditor :=
  scan_rules tree (rules_of mock_patterns PRODUCTION_READINESS CRITICAL
                            "Mock/placeholder implementation").


(** *** [_audit_file] and the per-file checks *)

(** [self.project_root / relative_path], when it exists. *)
Definition lookup_entry (tree : list DirEntry) (relative_path : string)
    : option DirEntry :=
  List.find (fun e => String.eqb (rel_path e) relative_path) tree.

(** A check function: [(file_path, content, lines)] to an update of the
    auditor. *)
Definition Check : Type := string -> string -> list string -> Auditor -> Auditor.

(** [_audit_file], with [file_path.exists()] as the lookup in the list: a
    named path exists when the list holds it, and asking never raises;
    [QuantumIO._audit_file] has the three answers of the call. *)
Definition _audit_file (tree : list DirEntry) (relative_path : string)
    (check_function : Check) (st : Auditor) : Auditor :=
  match lookup_entry tree relative_path with
  | None => print (FileNotFound relative_path) st
  | Some e =>
      match read_entry e with
      | ReadOk content =>
          let lines := PyStr.split_nl content in
          let st1 := incr_stat "files_scanned" st in
          let st2 := add_stat "lines_scanned" (length lines) st1 in
          check_function relative_path content lines st2
      | ReadFails err => print (ErrorAuditing relative_path err) st
      end
  end.

(** [next((i for i, line in enumerate(lines, 1) if p(line)), 0)] *)
Fixpoint first_line_from (p : string -> bool) (i : nat) (lines : list string) : nat :=
  match lines with
  | [] => 0
  | l :: ls => if p l then i else first_line_from p (S i) ls
  end.

Definition first_line (p : string -> bool) (lines : list string) : nat :=
  first_line_from p 1 lines.

(** [lines[line_num-1]] when [line_num > 0], the empty string otherwise. *)
Definition line_at (lines : list string) (line_num : nat) : string :=
  if 0 <? line_num then nth (line_num - 1) lines EmptyString else EmptyString.

Definition _check_quantum_security : Check := fun path content lines st =>
  let st1 :=
    if PyStr.contains "NIST levels 1-5" content
       && PyStr.contains "nist_level: u8" content
    then
      let line_num := first_line (PyStr.contains "nist_level: u8") lines in
      add_finding
        {| category := QUANTUM_CRYPTO; severity := MEDIUM;
           title := "Insufficient NIST security level validation";
           description := "NIST security levels should be validated against minimum requirements";
           file_path := path; line_number := line_num;
           evidence := line_at lines line_num;
           impact := "May allow use of insufficient quantum security levels";
           remediation := "Implement minimum NIST level 3 requirement with validation";
           cve_reference := None |} st
    else st in
  let st2 :=
    if PyStr.contains "entropy_quality: f64" content then
      let line_num := first_line (PyStr.contains "entropy_quality: 0.95") lines in
      if line_num =? 0 then
        add_finding
          {| category := QUANTUM_CRYPTO; severity := HIGH;
             title := "Insufficient quantum entropy validation";
             description := "Quantum entropy quality not properly validated";
             file_path := path; line_number := 1;
             evidence := "Missing entropy quality validation";
             impact := "May compromise quantum random number generation security";
             remediation := "Implement continuous entropy quality monitoring with min threshold 0.95";
             cve_reference := None |} st1
      else st1
    else st1 in
  if PyStr.contains "simulate_falcon_validation" content then
    let line_num := first_line (PyStr.contains "simulate_falcon_validation") lines in
    add_finding
      {| category := QUANTUM_CRYPTO; severity := CRITICAL;
         title := "FALCON-1024 signature simulation in production";
         description := "FALCON-1024 signatures are being simulated rather than computed";
         file_path := path; line_number := line_num;
         evidence := line_at lines line_num;
         impact := "Complete cryptographic security bypass - signatures can be forged";
         remediation := "Implement real FALCON-1024 cryptographic library integration";
         cve_reference := None |} st2
  else st2.

Definition _check_certificate_security : Check := fun path content lines st =>
  let st1 :=
    if PyStr.contains "mock_public_key" content
       || PyStr.contains "mock_signature" content
    then
      let line_num := first_line (PyStr.contains "mock_") lines in
      add_finding
        {| category := CERTIFICATE_MGMT; severity := CRITICAL;
           title := "Mock cryptographic material in certificate generation";
           description := "Certificates are being generated with mock keys and signatures";
           file_path := path; line_number := line_num;
           evidence := line_at lines line_num;
           impact := "All certificates invalid - complete PKI security failure";
           remediation := "Implement real cryptographic key generation and signing";
           cve_reference := None |} st
    else st in
  let st2 :=
    if PyStr.contains "certificate_validation: 'permissive'" content then
      let line_num := first_line (PyStr.contains "permissive") lines in
      add_finding
        {| category := CERTIFICATE_MGMT; severity := HIGH;
           title := "Permissive certificate validation mode available";
           description := "System allows permissive certificate validation for development";
           file_path := path; line_number := line_num;
           evidence := line_at lines line_num;
           impact := "May allow invalid certificates in production";
           remediation := "Remove permissive mode and enforce strict validation only";
           cve_reference := None |} st1
    else st1 in
  if PyStr.contains "Ok(())" content && PyStr.contains "store_entry" content then
    let line_num :=
      first_line (fun line => PyStr.contains "Ok(())" line
                              && PyStr.contains "store_entry" line) lines in
    if 0 <? line_num then
      add_finding
        {| category := CERTIFICATE_MGMT; severity := HIGH;
           title := "Certificate transparency storage not implemented";
           description := "Certificate transparency logs are not being stored";
           file_path := path; line_number := line_num;
           evidence := nth (line_num - 1) lines EmptyString;
           impact := "No audit trail for certificate issuance - detection of malicious certificates impossible";
           remediation := "Implement encrypted S3 storage for certificate transparency logs";
           cve_reference := None |} st2
    else st2
  else st2.

Definition _check_consensus_security : Check := fun path content lines st =>
  let st1 :=
    if PyStr.contains "Ok(ConsensusResult::Valid)" content then
      let line_num := first_line (PyStr.contains "Ok(ConsensusResult::Valid)") lines in
      add_finding
        {| category := CONSENSUS_PROOF; severity := CRITICAL;
           title := "Automatic consensus validation approval";
           description := "All consensus validation requests are automatically approved";
           file_path := path; line_number := line_num;
           evidence := line_at lines line_num;
           impact := "Complete Byzantine fault tolerance bypass - unlimited certificate issuance";
           remediation := "Implement real four-proof validation (PoSpace+PoStake+PoWork+PoTime)";
           cve_reference := None |} st
    else st in
  if PyStr.contains "validate_certificate_request" content
     && PyStr.contains "Placeholder" content
  then
    let line_num := first_line (PyStr.contains "Placeholder") lines in
    add_finding
      {| category := CONSENSUS_PROOF; severity := CRITICAL;
         title := "Four-proof consensus validation not implemented";
         description := "Certificate requests not validated against consensus proofs";
         file_path := path; line_number := line_num;
         evidence := line_at lines line_num;
         impact := "No protection against Byzantine attackers - consensus security completely absent";
         remediation := "Implement complete four-proof validation algorithm";
         cve_reference := None |} st1
  else st1.

Definition _check_api_security : Check := fun path content lines st =>
  let st1 :=
    if PyStr.contains ".tsx" path && PyStr.contains "fetch(" content
       && negb (PyStr.contains "Authorization" content)
    then
      let line_num := first_line (PyStr.contains "fetch(") lines in
      add_finding
        {| category := API_SECURITY; severity := HIGH;
           title := "API calls without authentication headers";
           description := "API requests may not include proper authentication";
           file_path := path; line_number := line_num;
           evidence := line_at lines line_num;
           impact := "Unauthorized access to certificate and quantum security APIs";
           remediation := "Implement proper JWT or API key authentication";
           cve_reference := None |} st
    else st in
  if PyStr.contains "dangerouslySetInnerHTML" content then
    let line_num := first_line (PyStr.contains "dangerouslySetInnerHTML") lines in
    add_finding
      {| category := API_SECURITY; severity := HIGH;
         title := "Potential XSS vulnerability";
         description := "Use of dangerouslySetInnerHTML without proper sanitization";
         file_path := path; line_number := line_num;
         evidence := line_at lines line_num;
         impact := "Cross-site scripting attacks on security configuration interface";
         remediation := "Remove dangerouslySetInnerHTML or implement DOMPurify sanitization";
         cve_reference := None |} st1
  else st1.

(** [_check_falcon_1024_implementation]: every path named
    [quantum_security.rs] is read whole; unreadable ones are passed over.
    The paths and their reading are those of the one list, as for
    [_audit_file]; [QuantumIO] keeps apart what [rglob] collects, read in
    the encoding of the locale, and what [exists()] finds, read as UTF-8. *)
Definition falcon_entry (st : Auditor) (e : DirEntry) : Auditor :=
  if String.eqb (path_name (rel_path e)) "quantum_security.rs" then
    match read_entry e with
    | ReadOk content =>
        if PyStr.contains "simulate_falcon_validation" content then
          add_finding
            {| category := QUANTUM_CRYPTO; severity := CRITICAL;
               title := "FALCON-1024 signature simulation instead of real implementation";
               description := "FALCON-1024 signatures are simulated rather than computed";
               file_path := rel_path e; line_number := 1;
               evidence := "simulate_falcon_validation function usage";
               impact := "Complete digital signature security failure";
               remediation := "Integrate pq-crystals FALCON-1024 library";
               cve_reference := None |} st
        else st
    | ReadFails _ => st
    end
  else st.

Definition _check_falcon_1024_implementation (tree : list DirEntry)
    (st : Auditor) : Auditor :=
  foldl falcon_entry st tree.

Definition audit_files (tree : list DirEntry) (files : list string)
    (check : Check) (st : Auditor) : Auditor :=
  foldl (fun st p => _audit_file tree p check st) st files.

Definition quantum_files : list string :=
  ["hypermesh/src/consensus/src/detection/quantum_security.rs";
   "hypermesh/core/shared/src/crypto.rs";
   "trustchain/src/crypto/certificate.rs";
   "ui/frontend/components/trustchain/QuantumSecuritySettings.tsx"].

Definition cert_files : list string :=
  ["trustchain/src/ca/certificate_manager.rs";
   "trustchain/src/ca/certificate_authority.rs";
   "trustchain/src/ca/certificate_store.rs";
   "hypermesh/src/security/src/certificates.rs";
   "ui/frontend/components/trustchain/CertificateOverview.tsx"].

Definition consensus_files : list string :=
  ["hypermesh/core/consensus/src/consensus_manager.rs";
   "hypermesh/core/runtime/src/consensus_validation.rs";
   "caesar/caes-token/contracts/hypermesh/ConsensusProofEngine.sol"].

Definition api_files : list string :=
  ["ui/frontend/lib/api/hooks/useCertificates.ts";
   "ui/frontend/components/modules/trustchain/hooks/useQuantumSecurity.ts"].

(** The remaining [_check_*] methods of the script are [pass]. *)
Definition audit_quantum_cryptography (tree : list DirEntry) (st : Auditor) : Auditor :=
  _check_falcon_1024_implementation tree
    (audit_files tree quantum_files _check_quantum_security st).

Definition audit_certificate_management (tree : list DirEntry) (st : Auditor) : Auditor :=
  audit_files tree cert_files _check_certificate_security st.

Definition audit_consensus_proof_validation (tree : list DirEntry) (st : Auditor) : Auditor :=
  audit_files tree consensus_files _check_consensus_security st.

Definition audit_api_security (tree : list DirEntry) (st : Auditor) : Auditor :=
  audit_files tree api_files _check_api_security st.

Definition audit_configuration_security (tree : list DirEntry) (st : Auditor) : Auditor :=
  _check_hardcoded_secrets tree st.

Definition audit_production_readiness (tree : list DirEntry) (st : Auditor) : Auditor :=
  _check_mock_implementations tree
    (_check_test_certificates tree (_check_debug_code tree st)).

(** The six audits of [run_complete_audit], before the report is built. *)
Definition run_audits (tree : list DirEntry) (st : Auditor) : Auditor :=
  audit_production_readiness tree
    (audit_configuration_security tree
       (audit_api_security tree
          (audit_consensus_proof_validation tree
             (audit_certificate_management tree
                (audit_quantum_cryptography tree st))))).

(** *** [generate_security_report] *)

(** [severity_counts] after the tally loop. *)
Definition severity_counts (fs : list SecurityFinding) : gmap string nat :=
  tally (fun f => severity_value (severity f))
        (zero_counts (severity_value <$> all_severities)) fs.

(** [category_counts] after the tally loop. *)
Definition category_counts (fs : list SecurityFinding) : gmap string nat :=
  tally (fun f => category_value (category f))
        (zero_counts (category_value <$> all_categories)) fs.

Definition critical_count_of (sc : gmap string nat) : nat :=
  sc !!! severity_value CRITICAL.

Definition high_count_of (sc : gmap string nat) : nat :=
  sc !!! severity_value HIGH.

(** The [if]/[elif]/[else] on the two counts. *)
Definition security_status (critical_count high_count : nat) : string :=
  if 0 <? critical_count then "CRITICAL_VULNERABILITIES_FOUND"
  else if 0 <? high_count then "HIGH_RISK_VULNERABILITIES_FOUND"
  else "ACCEPTABLE_RISK_LEVEL".

(** [production_ready = (critical_count == 0 and high_count == 0)] *)
Definition production_ready_of (critical_count high_count : nat) : bool :=
  (critical_count =? 0) && (high_count =? 0).

Definition _get_deployment_recommendation (production_ready : bool)
    (critical high : nat) : string :=
  if 0 <? critical then
    "DEPLOYMENT BLOCKED - Critical security vulnerabilities must be resolved"
  else if 0 <? high then
    "DEPLOYMENT AT RISK - High severity vulnerabilities should be resolved"
  else if production_ready then
    "DEPLOYMENT APPROVED - Security requirements met"
  else
    "FURTHER REVIEW REQUIRED - Additional security analysis needed".

Record Priority : Type := mkPriority {
  priority : nat;
  priority_category : string;
  count : nat;
  timeline : string;
  priority_description : string
}.

Definition has_severity (s : SecuritySeverity) (f : SecurityFinding) : bool :=
  bool_decide (severity f = s).

(** Number of findings of one severity in a finding list. *)
Definition count_severity (s : SecuritySeverity) (fs : list SecurityFinding) : nat :=
  length (List.filter (has_severity s) fs).

Definition _get_remediation_priorities (fs : list SecurityFinding) : list Priority :=
  let critical_findings := List.filter (has_severity CRITICAL) fs in
  let high_findings := List.filter (has_severity HIGH) fs in
  let priorities :=
    match critical_findings with
    | [] => []
    | _ :: _ =>
        [ {| priority := 1;
             priority_category := "Critical Security Fixes";
             count := length critical_findings;
             timeline := "Immediate (0-24 hours)";
             priority_description :=
               "Address all critical security vulnerabilities before any deployment" |} ]
    end in
  match high_findings with
  | [] => priorities
  | _ :: _ =>
      priorities ++
      [ {| priority := 2;
           priority_category := "High Severity Fixes";
           count := length high_findings;
           timeline := "Urgent (1-7 days)";
           priority_description :=
             "Resolve high severity issues to reduce security risk" |} ]
  end.

Definition _assess_compliance : list (string * string) :=
  [("nist_post_quantum", "PARTIAL - Implementation incomplete");
   ("fips_140_2", "NON_COMPLIANT - HSM integration missing");
   ("common_criteria", "NON_COMPLIANT - Formal evaluation required");
   ("iso_27001", "PARTIAL - Security controls implemented but gaps exist")].

Record ExecutiveSummary : Type := mkSummary {
  summary_status : string;
  production_ready : bool;
  total_findings : nat;
  critical_findings : nat;
  high_findings : nat;
  recommendation : string
}.

Record Report : Type := mkReport {
  executive_summary : ExecutiveSummary;
  audit_statistics : gmap string nat;
  findings_by_severity : gmap string nat;
  findings_by_category : gmap string nat;
  detailed_findings : list SecurityFinding;
  remediation_priority : list Priority;
  compliance_assessment : list (string * string)
}.

(** The verdict part of the report, from a severity histogram. *)
Definition summarize (sc : gmap string nat) (total : nat) : ExecutiveSummary :=
  let critical_count := critical_count_of sc in
  let high_count := high_count_of sc in
  let status := security_status critical_count high_count in
  let ready := production_ready_of critical_count high_count in
  {| summary_status := status;
     production_ready := ready;
     total_findings := total;
     critical_findings := critical_count;
     high_findings := high_count;
     recommendation := _get_deployment_recommendation ready critical_count high_count |}.

Definition generate_security_report (st : Auditor) : Report :=
  let sc := severity_counts (findings st) in
  let cc := category_counts (findings st) in
  {| executive_summary := summarize sc (length (findings st));
     audit_statistics := stats st;
     findings_by_severity := sc;
     findings_by_category := cc;
     detailed_findings := findings st;
     remediation_priority := _get_remediation_priorities (findings st);
     compliance_assessment := _assess_compliance |}.

Definition run_complete_audit (tree : list DirEntry) : Report :=
  generate_security_report (run_audits tree init).

(** The end of [main]: [exit(0)] when the report is production ready,
    [exit(1)] otherwise. *)
Definition exit_status (audit_report : Report) : nat :=
  if production_ready (executive_summary audit_report) then 0 else 1.

Definition main (tree : list DirEntry) : nat :=
  exit_status (run_complete_audit tree).

End Quantum.

(** ** QUANTUM_CERTIFICATE_SECURITY_AUDIT.py: the calls that can raise

    [Quantum] is the run of the script on a project all of whose paths can
    be examined, seen through one list of entries and one way of reading.
    The script itself asks the file system in three ways, and two of its
    calls stand outside every [try]:
    - [_audit_file] asks [file_path.exists()] of a named path and opens it
      with [encoding='utf-8'];
    - [_scan_for_pattern] walks [rglob("*")], asks [file_path.is_file()] of
      every path it meets and opens the files with [encoding='utf-8'];
    - [_check_falcon_1024_implementation] collects
      [rglob("**/quantum_security.rs")] and opens the paths with
      [open(file_path, 'r')], that is in the encoding of the locale.
    [exists()] and [is_file()] answer [False] for a missing path and let
    every other error of [stat] through, a [PermissionError] for a path
    below a directory that cannot be searched; nothing above them catches
    it, so it ends the run.  [exists()] follows symbolic links where [rglob]
    does not descend into linked directories, so the three views need not
    agree.  Here each view is an input of its own, and a method returns or
    raises.  The file system is taken not to change while the script runs. *)
Module QuantumIO.
Import Quantum.

(** A call returns a value, or an exception leaves it. *)
Inductive result (A : Type) : Type :=
| Returns (a : A)
| Raises (exn : string).
Arguments Returns {A} a.
Arguments Raises {A} exn.

Global Instance result_ret : MRet result := fun A a => Returns a.

Global Instance result_bind : MBind result := fun A B f m =>
  match m with
  | Returns a => f a
  | Raises exn => Raises exn
  end.

(** A [for] loop whose body may raise: the exception ends the loop. *)
Fixpoint for_each {A S : Type} (body : S -> A -> result S) (s : S) (l : list A)
    : result S :=
  match l with
  | [] => Returns s
  | a :: l' => s' ← body s a; for_each body s' l'
  end.

(** [file_path.exists()] for a named path and, when it holds, what
    [open(file_path, 'r', encoding='utf-8')] and [f.read()] give.  [err] of
    a failed read is the text of the exception, as [print] shows it. *)
Inductive Exists : Type :=
| Found (r : read_result)
| NotFound
| ExistsRaises (exn : string).

(** One step of [for file_path in self.project_root.rglob("*")] with the
    answer of [file_path.is_file()]: a regular file, with what
    [open(file_path, 'r', encoding='utf-8')] and [f.readlines()] give; a
    path that is no regular file; or an exception, raised by [is_file()] or
    by the walk itself. *)
Inductive Visit : Type :=
| VFile (rel : string) (r : read_result)
| VOther (rel : string)
| VRaises (exn : string).

(** The three views of the project. *)
Record FileSystem : Type := mkFS {
  (** by relative path, for [_audit_file] *)
  fs_exists : string -> Exists;
  (** [rglob("*")], for [_scan_for_pattern] *)
  fs_walk : list Visit;
  (** [list(rglob("**/quantum_security.rs"))], each path with what
      [open(file_path, 'r')] and [f.read()] give in the encoding of the
      locale; collecting the list may raise *)
  fs_falcon_files : result (list (string * read_result))
}.

(** [_audit_file] *)
Definition _audit_file (file_exists : string -> Exists) (relative_path : string)
    (check_function : Check) (st : Auditor) : result Auditor :=
  match file_exists relative_path with
  | ExistsRaises exn => Raises exn
  | NotFound => Returns (print (FileNotFound relative_path) st)
  | Found (ReadOk content) =>
      let lines := PyStr.split_nl content in
      let st1 := incr_stat "files_scanned" st in
      let st2 := add_stat "lines_scanned" (length lines) st1 in
      Returns (check_function relative_path content lines st2)
  | Found (ReadFails err) =>
      Returns (print (ErrorAuditing relative_path err) st)
  end.

(** [for file_path in files: await self._audit_file(file_path, check)] *)
Definition audit_files (file_exists : string -> Exists) (files : list string)
    (check : Check) (st : Auditor) : result Auditor :=
  for_each (fun st p => _audit_file file_exists p check st) st files.

(** The body of the file loop of [_scan_for_pattern]: [is_file()] is asked
    first, of every path; the reading stands inside [try], and
    [except: pass] drops what it raises. *)
Definition scan_visit (pattern : Pattern) (cat : SecurityCategory)
    (sev : SecuritySeverity) (descr : string)
    (st : Auditor) (v : Visit) : result Auditor :=
  match v with
  | VRaises exn => Raises exn
  | VOther _ => Returns st
  | VFile rel r =>
      if str_in (path_suffix rel) scanned_suffixes then
        match r with
        | ReadOk content =>
            Returns (foldl (scan_line pattern cat sev descr rel) st
                           (enumerate1 (PyStr.readlines content)))
        | ReadFails _ => Returns st
        end
      else Returns st
  end.

Definition _scan_for_pattern (walk : list Visit) (pattern : Pattern)
    (cat : SecurityCategory) (sev : SecuritySeverity) (descr : string)
    (st : Auditor) : result Auditor :=
  for_each (scan_visit pattern cat sev descr) st walk.

(** [for pattern in patterns: await self._scan_for_pattern(...)] *)
Definition scan_rules (walk : list Visit) (rules : list Rule)
    (st : Auditor) : result Auditor :=
  for_each (fun st r => _scan_for_pattern walk (rule_pattern r) (rule_category r)
                                          (rule_severity r) (rule_description r) st)
           st rules.

(** The body of the loop of [_check_falcon_1024_implementation]; the bare
    [except: pass] drops a failed read. *)
Definition falcon_file (st : Auditor) (f : string * read_result) : Auditor :=
  match f.2 with
  | ReadOk content =>
      if PyStr.contains "simulate_falcon_validation" content then
        add_finding
          {| category := QUANTUM_CRYPTO; severity := CRITICAL;
             title := "FALCON-1024 signature simulation instead of real implementation";
             description := "FALCON-1024 signatures are simulated rather than computed";
             file_path := f.1; line_number := 1;
             evidence := "simulate_falcon_validation function usage";
             impact := "Complete digital signature security failure";
             remediation := "Integrate pq-crystals FALCON-1024 library";
             cve_reference := None |} st
      else st
  | ReadFails _ => st
  end.

Definition _check_falcon_1024_implementation
    (falcon_files : result (list (string * read_result))) (st : Auditor)
    : result Auditor :=
  files ← falcon_files; Returns (foldl falcon_file st files).

Definition _check_hardcoded_secrets (walk : list Visit) : Auditor -> result Auditor :=
  scan_rules walk (rules_of secret_patterns CONFIG_SECURITY CRITICAL
                            "Hardcoded secret detected").

Definition _check_debug_code (walk : list Visit) : Auditor -> result Auditor :=
  scan_rules walk (rules_of debug_patterns PRODUCTION_READINESS MEDIUM
                            "Debug code in production").

Definition _check_test_certificates (walk : list Visit) : Auditor -> result Auditor :=
  scan_rules walk (rules_of test_patterns PRODUCTION_READINESS HIGH
                            "Test data in production code").

Definition _check_mock_implementations (walk : list Visit) : Auditor -> result Auditor :=
  scan_rules walk (rules_of mock_patterns PRODUCTION_READINESS CRITICAL
                            "Mock/placeholder implementation").

(** The six audits; the [_check_*] methods left out are [pass]. *)
Definition audit_quantum_cryptography (fs : FileSystem) (st : Auditor)
    : result Auditor :=
  st1 ← audit_files (fs_exists fs) quantum_files _check_quantum_security st;
  _check_falcon_1024_implementation (fs_falcon_files fs) st1.

Definition audit_certificate_management (fs : FileSystem) (st : Auditor)
    : result Auditor :=
  audit_files (fs_exists fs) cert_files _check_certificate_security st.

Definition audit_consensus_proof_validation (fs : FileSystem) (st : Auditor)
    : result Auditor :=
  audit_files (fs_exists fs) consensus_files _check_consensus_security st.

Definition audit_api_security (fs : FileSystem) (st : Auditor) : result Auditor :=
  audit_files (fs_exists fs) api_files _check_api_security st.

Definition audit_configuration_security (fs : FileSystem) (st : Auditor)
    : result Auditor :=
  _check_hardcoded_secrets (fs_walk fs) st.

Definition audit_production_readiness (fs : FileSystem) (st : Auditor)
    : result Auditor :=
  st1 ← _check_debug_code (fs_walk fs) st;
  st2 ← _check_test_certificates (fs_walk fs) st1;
  _check_mock_implementations (fs_walk fs) st2.

Definition run_audits (fs : FileSystem) (st : Auditor) : result Auditor :=
  st1 ← audit_quantum_cryptography fs st;
  st2 ← audit_certificate_management fs st1;
  st3 ← audit_consensus_proof_validation fs st2;
  st4 ← audit_api_security fs st3;
  st5 ← audit_configuration_security fs st4;
  audit_production_readiness fs st5.

(** [run_complete_audit]: the report, when no audit raised. *)
Definition run_complete_audit (fs : FileSystem) : result Report :=
  st ← run_audits fs init; Returns (generate_security_report st).

(** *** The project of [Quantum] as a file system *)

Definition visit_of (e : DirEntry) : Visit :=
  match entry_node e with
  | Regular r => VFile (rel_path e) r
  | Directory => VOther (rel_path e)
  end.

(** The file system in which the three views are the one list [tree]:
    every path can be examined, a named path exists when it is in the list,
    and the locale reads as UTF-8 does. *)
Definition fs_of_tree (tree : list DirEntry) : FileSystem :=
  {| fs_exists := fun p =>
       match lookup_entry tree p with
       | Some e => Found (read_entry e)
       | None => NotFound
       end;
     fs_walk := visit_of <$> tree;
     fs_falcon_files :=
       Returns ((fun e => (rel_path e, read_entry e))
                <$> List.filter (fun e => String.eqb (path_name (rel_path e))
                                                     "quantum_security.rs") tree) |}.

(** Back again: the entry of a path of the walk that could be examined, and
    the project that holds a named path alone. *)
Definition entry_of (v : Visit) : DirEntry :=
  match v with
  | VFile rel r => mkEntry rel (Regular r)
  | VOther rel => mkEntry rel Directory
  | VRaises _ => mkEntry EmptyString Directory
  end.

Definition tree_of (relative_path : string) (x : Exists) : list DirEntry :=
  match x with
  | Found r => [mkEntry relative_path (Regular r)]
  | NotFound | ExistsRaises _ => []
  end.

(** The fourteen paths [_audit_file] is called with. *)
Definition audited_files : list string :=
  quantum_files ++ cert_files ++ consensus_files ++ api_files.

Definition is_raise (v : Visit) : bool :=
  match v with VRaises _ => true | _ => false end.

Definition exists_raises (x : Exists) : bool :=
  match x with ExistsRaises _ => true | _ => false end.

(** No call outside a [try] raises: every named path and every path of the
    walk can be examined, and the FALCON files can be collected. *)
Definition examinable (fs : FileSystem) : Prop :=
  (∀ p, p ∈ audited_files → exists_raises (fs_exists fs p) = false)
  ∧ forallb (fun v => negb (is_raise v)) (fs_walk fs) = true
  ∧ ∃ files, fs_falcon_files fs = Returns files.

End QuantumIO.

(** ** SECURITY_PRODUCTION_READINESS_VALIDATOR.py: the report *)
Module Validator.

Inductive SecurityLevel : Type := CRITICAL | HIGH | MEDIUM | LOW.

Definition level_value (s : SecurityLevel) : string :=
  match s with
  | CRITICAL => "CRITICAL" | HIGH => "HIGH" | MEDIUM => "MEDIUM" | LOW => "LOW"
  end.

Global Instance level_eq_dec : EqDecision SecurityLevel.
Proof. solve_decision. Defined.

Definition level_to_nat (s : SecurityLevel) : nat :=
  match s with CRITICAL => 0 | HIGH => 1 | MEDIUM => 2 | LOW => 3 end.

Definition level_of_nat (n : nat) : SecurityLevel :=
  match n with 0 => CRITICAL | 1 => HIGH | 2 => MEDIUM | _ => LOW end.

Global Instance level_countable : Countable SecurityLevel :=
  inj_countable' level_to_nat level_of_nat
    (fun s => match s with CRITICAL | HIGH | MEDIUM | LOW => eq_refl end).

Record SecurityViolation : Type := mkViolation {
  file_path : string;
  line_number : nat;
  violation_type : string;
  severity : SecurityLevel;
  description : string;
  evidence : string
}.

(** [severity_counts] after the tally loop; the keys are the enum members. *)
Definition severity_counts (vs : list SecurityViolation) : gmap SecurityLevel nat :=
  tally severity (zero_counts [CRITICAL; HIGH; MEDIUM; LOW]) vs.

Record Report : Type := mkReport {
  production_ready : bool;
  total_violations : nat;
  severity_breakdown : gmap string nat;
  violations : list SecurityViolation
}.

Definition generate_security_report (vs : list SecurityViolation) : Report :=
  let sc := severity_counts vs in
  {| production_ready := (sc !!! CRITICAL =? 0) && (sc !!! HIGH =? 0);
     total_violations := length vs;
     severity_breakdown :=
       <["critical" := sc !!! CRITICAL]>
         (<["high" := sc !!! HIGH]>
            (<["medium" := sc !!! MEDIUM]> (<["low" := sc !!! LOW]> ∅)));
     violations := vs |}.

(** The end of [main]. *)
Definition exit_status (security_report : Report) : nat :=
  if production_ready security_report then 0 else 1.

End Validator.

(** ** security_audit.py *)
Module Audit.

Record Violation : Type := mkViolation {
  v_file : string;
  v_line : nat;
  v_type : string;
  v_code : string;
  v_severity : string;
  v_description : string
}.

(** The four lists of [self.violations]; the keys ['critical'], ['high'],
    ['medium'] and ['low'] are fixed by [__init__]. *)
Record Violations : Type := mkViolations {
  critical : list Violation;
  high : list Violation;
  medium : list Violation;
  low : list Violation
}.

Inductive Bucket : Type := BCritical | BHigh | BMedium | BLow.

Inductive Printed : Type :=
| ErrorScanning (file_path err : string)
| RealCryptoFound (name : string).

Record Auditor : Type := mkAuditor {
  project_root : string;
  violations : Violations;
  stats : gmap string nat;
  console : list Printed
}.

Definition stat_keys : list string :=
  ["total_files"; "files_scanned"; "total_lines"; "mock_implementations";
   "test_bypasses"; "unwrap_calls"; "placeholder_code"; "missing_validation";
   "hardcoded_secrets"; "insecure_random"; "sql_injection";
   "command_injection"; "path_traversal"; "unsafe_deserialization"].

(** [__init__] *)
Definition init (root : string) : Auditor :=
  {| project_root := root;
     violations := mkViolations [] [] [] [];
     stats := zero_counts stat_keys;
     console := [] |}.

Definition append_to (b : Bucket) (v : Violation) (vs : Violations) : Violations :=
  match b with
  | BCritical => mkViolations (critical vs ++ [v]) (high vs) (medium vs) (low vs)
  | BHigh => mkViolations (critical vs) (high vs ++ [v]) (medium vs) (low vs)
  | BMedium => mkViolations (critical vs) (high vs) (medium vs ++ [v]) (low vs)
  | BLow => mkViolations (critical vs) (high vs) (medium vs) (low vs ++ [v])
  end.

Definition add_violation (b : Bucket) (v : Violation) (st : Auditor) : Auditor :=
  {| project_root := project_root st;
     violations := append_to b v (violations st);
     stats := stats st; console := console st |}.

Definition set_stats (d : gmap string nat) (st : Auditor) : Auditor :=
  {| project_root := project_root st; violations := violations st;
     stats := d; console := console st |}.

Definition incr_stat (k : string) (st : Auditor) : Auditor :=
  set_stats (dict_incr k (stats st)) st.

Definition print (p : Printed) (st : Auditor) : Auditor :=
  {| project_root := project_root st; violations := violations st;
     stats := stats st; console := console st ++ [p] |}.

(** [str(file_path)] for a path below the project root. *)
Definition abs_path (root rel : string) : string := root +:+ "/" +:+ rel.

(** [sum(len(v) for v in self.violations.values())] *)
Definition total_violations (vs : Violations) : nat :=
  length (critical vs) + length (high vs) + length (medium vs) + length (low vs).

(** *** The ten tests of the line loop of [scan_rust_file] *)

Definition dq : string := String "034"%char EmptyString.
Definition quotes : string := dq +:+ "'".

(** [(mock|Mock|MOCK).*?(crypto|Crypto|falcon|Falcon|certificate|Certificate)],
    IGNORECASE *)
Definition rx_mock_crypto : Re.regex :=
  Re.cats [Re.alts (Re.lit true <$> ["mock"; "Mock"; "MOCK"]);
           Re.Star Re.dot;
           Re.alts (Re.lit true <$> ["crypto"; "Crypto"; "falcon"; "Falcon";
                                     "certificate"; "Certificate"])].

(** [(TODO|FIXME|HACK|XXX).*?(security|Security|crypto|auth|Auth)], IGNORECASE *)
Definition rx_placeholder : Re.regex :=
  Re.cats [Re.alts (Re.lit true <$> ["TODO"; "FIXME"; "HACK"; "XXX"]);
           Re.Star Re.dot;
           Re.alts (Re.lit true <$> ["security"; "Security"; "crypto";
                                     "auth"; "Auth"])].

(** [(private_key|secret|password|api_key)\s*=\s*], a quote, [[\w]{8,}],
    a quote; IGNORECASE *)
Definition rx_secret : Re.regex :=
  Re.cats [Re.alts (Re.lit true <$> ["private_key"; "secret"; "password"; "api_key"]);
           Re.Star Re.space; Re.chr true "="%char; Re.Star Re.space;
           Re.one_of quotes; Re.at_least 8 Re.word; Re.one_of quotes].

(** [Command::new.*format!|Command::new.*\+], case sensitive *)
Definition rx_command : Re.regex :=
  Re.Alt (Re.cats [Re.lit false "Command::new"; Re.Star Re.dot; Re.lit false "format!"])
         (Re.cats [Re.lit false "Command::new"; Re.Star Re.dot; Re.chr false "+"%char]).

Record LineRule : Type := mkLineRule {
  (** the condition of the [if], on [str(file_path)], [content] and [line] *)
  applies : string -> string -> string -> bool;
  bucket : Bucket;
  rule_type : string;
  (** the ['code'] entry, from the line *)
  code_of : string -> string;
  rule_severity : string;
  rule_description : string;
  counter : string
}.

Definition line_rules : list LineRule :=
  [ mkLineRule (fun _ _ line => Re.search rx_mock_crypto line)
      BCritical "MOCK_CRYPTOGRAPHY" PyStr.strip "CRITICAL"
      "Mock cryptographic implementation detected" "mock_implementations";
    mkLineRule (fun path _ line =>
                  PyStr.contains "default_for_testing" line
                  && negb (PyStr.endswith "_test.rs" path))
      BCritical "TEST_BYPASS" PyStr.strip "CRITICAL"
      "Test bypass method in production code" "test_bypasses";
    mkLineRule (fun _ content line =>
                  PyStr.contains ".unwrap()" line
                  && negb (PyStr.contains "#[test]"
                             (PyStr.slice_to content (PyStr.find content line))))
      BHigh "UNWRAP_PANIC" PyStr.strip "HIGH"
      "Unwrap() can cause panic in production" "unwrap_calls";
    mkLineRule (fun _ _ line => Re.search rx_placeholder line)
      BCritical "PLACEHOLDER_SECURITY" PyStr.strip "CRITICAL"
      "Placeholder security implementation" "placeholder_code";
    mkLineRule (fun _ _ line =>
                  PyStr.contains "parse()" line
                  && negb (PyStr.contains "expect" line)
                  && negb (PyStr.contains "?" line))
      BHigh "MISSING_VALIDATION" PyStr.strip "HIGH"
      "Parse without error handling" "missing_validation";
    mkLineRule (fun _ _ line => Re.search rx_secret line)
      BCritical "HARDCODED_SECRET"
      (fun line => PyStr.take 50 (PyStr.strip line) +:+ "...") "CRITICAL"
      "Hardcoded secret or key detected" "hardcoded_secrets";
    mkLineRule (fun _ content line =>
                  PyStr.contains "rand::random" line
                  && existsb (fun x => PyStr.contains x content)
                             ["crypto"; "key"; "nonce"; "salt"])
      BHigh "INSECURE_RANDOM" PyStr.strip "HIGH"
      "Non-cryptographic random used for security" "insecure_random";
    mkLineRule (fun _ _ line => Re.search rx_command line)
      BCritical "COMMAND_INJECTION" PyStr.strip "CRITICAL"
      "Potential command injection vulnerability" "command_injection";
    mkLineRule (fun _ _ line =>
                  PyStr.contains "../" line || PyStr.contains "..\" line)
      BHigh "PATH_TRAVERSAL" PyStr.strip "HIGH"
      "Potential path traversal vulnerability" "path_traversal";
    mkLineRule (fun _ _ line =>
                  PyStr.contains "bincode::deserialize" line
                  && negb (PyStr.contains "untrusted" (PyStr.lower line)))
      BMedium "UNSAFE_DESERIALIZATION" PyStr.strip "MEDIUM"
      "Unsafe deserialization of untrusted data" "unsafe_deserialization" ].

(** One [if] of the loop body: when the condition holds, append the
    violation and count it. *)
Definition apply_rule (rel content : string) (nl : nat * string)
    (st : Auditor) (r : LineRule) : Auditor :=
  if applies r (abs_path (project_root st) rel) content nl.2 then
    incr_stat (counter r)
      (add_violation (bucket r)
         {| v_file := rel; v_line := nl.1; v_type := rule_type r;
            v_code := code_of r nl.2; v_severity := rule_severity r;
            v_description := rule_description r |} st)
  else st.

(** The loop body: the ten tests one after the other, none of them in an
    [elif]. *)
Definition scan_line (rel content : string) (st : Auditor)
    (nl : nat * string) : Auditor :=
  foldl (apply_rule rel content nl) st line_rules.

Definition scan_rust_file (st : Auditor) (e : DirEntry) : Auditor :=
  match read_entry e with
  | ReadOk content =>
      let lines := PyStr.split_nl content in
      let st1 := incr_stat "files_scanned" st in
      let st2 := set_stats (<["total_lines" := stats st1 !!! "total_lines"
                                               + length lines]> (stats st1)) st1 in
      foldl (scan_line (rel_path e) content) st2 (enumerate1 lines)
  | ReadFails err =>
      print (ErrorScanning (abs_path (project_root st) (rel_path e)) err) st
  end.

(** Number of tests of the loop body that hold for a line. *)
Definition matching_line_rules (rules : list LineRule)
    (path content line : string) : nat :=
  length (List.filter (fun r => applies r path content line) rules).

Definition all_violations (vs : Violations) : list Violation :=
  critical vs ++ high vs ++ medium vs ++ low vs.

(** [rglob("*.rs")]: every path whose name ends in [.rs]. *)
Definition is_rs (e : DirEntry) : bool :=
  PyStr.endswith ".rs" (path_name (rel_path e)).

Definition scan_project (tree : list DirEntry) (st : Auditor) : Auditor :=
  let rust_files := List.filter is_rs tree in
  let st1 := set_stats (<["total_files" := length rust_files]> (stats st)) st in
  let kept :=
    List.filter (fun f =>
        let p := abs_path (project_root st) (rel_path f) in
        negb (PyStr.contains "target" p)
        && negb (PyStr.contains "test" (path_name (rel_path f)))
        && negb (PyStr.contains ".security_backup" p)) rust_files in
  foldl scan_rust_file st1 kept.

(** [check_dependencies].  [cargo_outdated p] is the standard output of
    [cargo outdated --manifest-path p], or [None] when running it raises
    (the tool is missing, or the 30 s timeout expires). *)
Definition check_cargo (cargo_outdated : string -> option string)
    (st : Auditor) (e : DirEntry) : Auditor :=
  let p := abs_path (project_root st) (rel_path e) in
  if PyStr.contains "target" p then st
  else match cargo_outdated p with
       | Some stdout =>
           if PyStr.contains "outdated" (PyStr.lower stdout) then
             add_violation BMedium
               {| v_file := rel_path e; v_line := 0;
                  v_type := "OUTDATED_DEPENDENCIES";
                  v_code := "Multiple outdated dependencies detected";
                  v_severity := "MEDIUM";
                  v_description :=
                    "Outdated dependencies may contain security vulnerabilities" |} st
           else st
       | None => st
       end.

Definition check_dependencies (cargo_outdated : string -> option string)
    (tree : list DirEntry) (st : Auditor) : Auditor :=
  foldl (check_cargo cargo_outdated) st
        (List.filter (fun e => String.eqb (path_name (rel_path e)) "Cargo.toml") tree).

Definition deep_scan_crypto (st : Auditor) (e : DirEntry) : Auditor :=
  match read_entry e with
  | ReadOk content =>
      let name := path_name (rel_path e) in
      if PyStr.contains "pqcrypto" content || PyStr.contains "ring" content
         || PyStr.contains "rustls" content
      then print (RealCryptoFound name) st
      else if PyStr.contains "crypto" (PyStr.lower name)
              || PyStr.contains "falcon" (PyStr.lower name)
      then add_violation BCritical
             {| v_file := rel_path e; v_line := 0;
                v_type := "NO_CRYPTO_LIBRARY";
                v_code := "File contains crypto code but no real crypto library imports";
                v_severity := "CRITICAL";
                v_description := "Cryptographic implementation without proper library" |} st
      else st
  | ReadFails _ => st
  end.

(** The four paths of [analyze_crypto_implementations], as [Path] keeps
    them (no trailing slash). *)
Definition crypto_files : list string :=
  ["stoq/src/transport/falcon.rs"; "stoq/src/transport/certificates.rs";
   "trustchain/src/crypto"; "hypermesh/src/security"].

Definition analyze_path (tree : list DirEntry) (st : Auditor)
    (crypto_path : string) : Auditor :=
  match List.find (fun e => String.eqb (rel_path e) crypto_path) tree with
  | Some e =>
      match entry_node e with
      | Regular _ => deep_scan_crypto st e
      | Directory =>
          foldl deep_scan_crypto st
            (List.filter (fun f => PyStr.startswith (crypto_path +:+ "/") (rel_path f)
                                   && is_rs f) tree)
      end
  | None => st
  end.

Definition analyze_crypto_implementations (tree : list DirEntry)
    (st : Auditor) : Auditor :=
  foldl (analyze_path tree) st crypto_files.

(** [report['summary']] of [generate_report] *)
Record Summary : Type := mkSummary {
  s_total_violations : nat;
  s_critical : nat;
  s_high : nat;
  s_medium : nat;
  s_low : nat;
  s_files_scanned : nat;
  s_total_lines : nat
}.

Definition summary_of (st : Auditor) : Summary :=
  {| s_total_violations := total_violations (violations st);
     s_critical := length (critical (violations st));
     s_high := length (high (violations st));
     s_medium := length (medium (violations st));
     s_low := length (low (violations st));
     s_files_scanned := stats st !!! "files_scanned";
     s_total_lines := stats st !!! "total_lines" |}.

(** The status [main] returns, which [exit(main())] hands to the system:
    [1] when the summary counts a critical violation, [0] otherwise. *)
Definition exit_status (s : Summary) : nat :=
  if 0 <? s_critical s then 1 else 0.

Definition run (cargo_outdated : string -> option string)
    (tree : list DirEntry) (root : string) : Auditor :=
  analyze_crypto_implementations tree
    (check_dependencies cargo_outdated tree
       (scan_project tree (init root))).

Definition main (cargo_outdated : string -> option string)
    (tree : list DirEntry) : nat :=
  exit_status (summary_of (run cargo_outdated tree "/home/persist/repos/projects/web3")).

End Audit.

(** ** SECURITY_PRODUCTION_READINESS_VALIDATOR.py: the checks *)
Module ValidatorRun.

Inductive Printed : Type :=
| ScanError (rust_file err : string).

(** The mutable part of [TrustChainSecurityValidator], with what the
    scanner prints. *)
Record State : Type := mkState {
  project_root : string;
  violations : list Validator.SecurityViolation;
  console : list Printed
}.

Definition init (root : string) : State :=
  {| project_root := root; violations := []; console := [] |}.

Definition add_violation (v : Validator.SecurityViolation) (st : State) : State :=
  {| project_root := project_root st;
     violations := violations st ++ [v];
     console := console st |}.

Definition print (p : Printed) (st : State) : State :=
  {| project_root := project_root st;
     violations := violations st;
     console := console st ++ [p] |}.

(** The body of the line loop of [_scan_for_pattern]. *)
Definition scan_line (pattern : Quantum.Pattern) (sev : Validator.SecurityLevel)
    (descr : string) (path : string) (st : State) (nl : nat * string) : State :=
  if Re.search (Quantum.pat_rx pattern) nl.2 then
    add_violation
      {| Validator.file_path := path;
         Validator.line_number := nl.1;
         Validator.violation_type := Quantum.pat_src pattern;
         Validator.severity := sev;
         Validator.description := descr;
         Validator.evidence := PyStr.strip nl.2 |} st
  else st.

(** The body of the file loop: a file that cannot be read is reported on the
    console. *)
Definition scan_file (pattern : Quantum.Pattern) (sev : Validator.SecurityLevel)
    (descr : string) (st : State) (e : DirEntry) : State :=
  match read_entry e with
  | ReadOk content =>
      foldl (scan_line pattern sev descr (rel_path e)) st
            (enumerate1 (PyStr.readlines content))
  | ReadFails err =>
      print (ScanError (project_root st +:+ "/" +:+ rel_path e) err) st
  end.

(** [self.trustchain_src.rglob("*.rs")]: the paths below [trustchain/src]
    whose name ends in [.rs]. *)
Definition in_trustchain_src (e : DirEntry) : bool :=
  PyStr.startswith "trustchain/src/" (rel_path e)
  && PyStr.endswith ".rs" (path_name (rel_path e)).

Definition _scan_for_pattern (tree : list DirEntry) (pattern : Quantum.Pattern)
    (sev : Validator.SecurityLevel) (descr : string) (st : State) : State :=
  foldl (scan_file pattern sev descr) st (List.filter in_trustchain_src tree).

(** [for pattern in patterns: self._scan_for_pattern(pattern, sev, f"{prefix}{pattern}")] *)
Definition scan_each (tree : list DirEntry) (patterns : list Quantum.Pattern)
    (sev : Validator.SecurityLevel) (prefix : string) (st : State) : State :=
  foldl (fun st p => _scan_for_pattern tree p sev (prefix +:+ Quantum.pat_src p) st)
        st patterns.

Definition placeholder_patterns : list Quantum.Pattern :=
  [Quantum.plain "todo!(" "todo!\("; Quantum.plain "placeholder" "placeholder";
   Quantum.plain "stub" "stub"; Quantum.plain "mock" "mock";
   Quantum.plain "fake" "fake"; Quantum.plain "dummy" "dummy";
   Quantum.plain "// TODO" "// TODO"; Quantum.plain "// FIXME" "// FIXME"].

Definition weak_crypto_patterns : list Quantum.Pattern :=
  [Quantum.plain "MD5" "MD5"; Quantum.plain "SHA1" "SHA1";
   Quantum.plain "DES" "DES"; Quantum.plain "RC4" "RC4";
   Quantum.plain "RSA-1024" "RSA-1024"].

Definition test_patterns : list Quantum.Pattern :=
  [Quantum.plain "test.example.com" "test\.example\.com";
   Quantum.plain "localhost" "localhost";
   Quantum.plain "127.0.0.1" "127\.0\.0\.1";
   Quantum.plain "test-ca" "test-ca"; Quantum.plain "test-log" "test-log"].

Definition check_placeholder_implementations (tree : list DirEntry) : State -> State :=
  scan_each tree placeholder_patterns Validator.CRITICAL
            "Placeholder implementation detected: ".

Definition check_cryptographic_security (tree : list DirEntry) (st : State) : State :=
  scan_each tree weak_crypto_patterns Validator.HIGH
            "Weak cryptographic algorithm detected: "
    (_scan_for_pattern tree
       (Quantum.plain "Ok(vec![0u8; 64])" "Ok\(vec!\[0u8; 64\]\)")
       Validator.CRITICAL
       "Dummy cryptographic signature detected - complete security bypass" st).

Definition check_hsm_integration (tree : list DirEntry) (st : State) : State :=
  _scan_for_pattern tree
    (Quantum.plain "CloudHSM client implementation" "CloudHSM client implementation")
    Validator.CRITICAL "CloudHSM client not implemented"
    (_scan_for_pattern tree
       (Quantum.plain "HSM integration not yet implemented"
                      "HSM integration not yet implemented")
       Validator.CRITICAL
       "HSM integration missing - production security requirement" st).

Definition check_consensus_validation (tree : list DirEntry) (st : State) : State :=
  _scan_for_pattern tree
    (Quantum.plain "default_for_testing()" "default_for_testing\(\)")
    Validator.HIGH "Test consensus proofs in production code"
    (_scan_for_pattern tree
       (Quantum.plain "Ok(ConsensusResult::Valid)" "Ok\(ConsensusResult::Valid\)")
       Validator.CRITICAL "Automatic consensus approval - security bypass" st).

Definition check_transport_security (tree : list DirEntry) (st : State) : State :=
  _scan_for_pattern tree
    (Quantum.plain "STOQ DNS server connection" "STOQ DNS server connection")
    Validator.CRITICAL "STOQ DNS connection not implemented"
    (_scan_for_pattern tree
       (Quantum.plain "STOQ transport integration for DNS"
                      "STOQ transport integration for DNS")
       Validator.CRITICAL "STOQ transport not implemented" st).

Definition check_storage_security (tree : list DirEntry) (st : State) : State :=
  _scan_for_pattern tree (Quantum.plain "Placeholder for S3" "Placeholder for S3")
    Validator.CRITICAL "S3 storage implementation missing" st.

Definition check_test_data_usage (tree : list DirEntry) : State -> State :=
  scan_each tree test_patterns Validator.MEDIUM "Test data in production code: ".

(** What [cargo check --all-targets] does within its 120 s: it returns with
    a code and its error output, or the timeout expires.  Only
    [subprocess.TimeoutExpired] is caught: when [cargo] cannot be started the
    exception leaves [run_complete_security_audit] and no report is made, so
    that case is no outcome of a completed check. *)
Inductive CargoOutcome : Type :=
| CargoReturns (returncode : Z) (stderr : string)
| CargoTimeout.

Definition check_compilation_security (cargo : CargoOutcome) (st : State) : State :=
  match cargo with
  | CargoReturns returncode stderr =>
      if negb (returncode =? 0)%Z then
        add_violation
          {| Validator.file_path := "Cargo.toml";
             Validator.line_number := 1;
             Validator.violation_type := "COMPILATION_FAILURE";
             Validator.severity := Validator.CRITICAL;
             Validator.description :=
               "Code does not compile - production deployment impossible";
             Validator.evidence := PyStr.take 500 stderr |} st
      else st
  | CargoTimeout =>
      add_violation
        {| Validator.file_path := "build_system";
           Validator.line_number := 1;
           Validator.violation_type := "BUILD_TIMEOUT";
           Validator.severity := Validator.HIGH;
           Validator.description :=
             "Build process timeout - potential infinite loops or deadlocks";
           Validator.evidence := "Compilation timed out after 120 seconds" |} st
  end.

(** The eight checks of [run_complete_security_audit], in their order. *)
Definition run_checks (tree : list DirEntry) (cargo : CargoOutcome)
    (st : State) : State :=
  check_compilation_security cargo
    (check_test_data_usage tree
       (check_storage_security tree
          (check_transport_security tree
             (check_consensus_validation tree
                (check_hsm_integration tree
                   (check_cryptographic_security tree
                      (check_placeholder_implementations tree st))))))).

Definition run_complete_security_audit (tree : list DirEntry)
    (cargo : CargoOutcome) (root : string) : Validator.Report :=
  Validator.generate_security_report (violations (run_checks tree cargo (init root))).

(** [main]: the exit status of a run. *)
Definition main (tree : list DirEntry) (cargo : CargoOutcome) : nat :=
  Validator.exit_status
    (run_complete_security_audit tree cargo "/home/persist/repos/projects/web3").

End ValidatorRun.

(** ** Reading the outcome of a run *)
Module Outcome.

(** Number of findings of one category in a finding list. *)
Definition count_category (c : Quantum.SecurityCategory)
    (fs : list Quantum.SecurityFinding) : nat :=
  length (List.filter (fun f => bool_decide (Quantum.category f = c)) fs).

(** Number of violations of one level in a violation list. *)
Definition count_level (s : Validator.SecurityLevel)
    (vs : list Validator.SecurityViolation) : nat :=
  length (List.filter (fun v => bool_decide (Validator.severity v = s)) vs).

(** Can the named file of [_audit_file] be found and read? *)
Definition readable (tree : list DirEntry) (relative_path : string) : bool :=
  match Quantum.lookup_entry tree relative_path with
  | Some e => match read_entry e with ReadOk _ => true | ReadFails _ => false end
  | None => false
  end.

Definition count_readable (tree : list DirEntry) (files : list string) : nat :=
  length (List.filter (readable tree) files).

(** The four check functions [_audit_file] is called with. *)
Definition file_checks : list Quantum.Check :=
  [Quantum._check_quantum_security; Quantum._check_certificate_security;
   Quantum._check_consensus_security; Quantum._check_api_security].

(** Strings without a newline. *)
Fixpoint has_no_newline (s : string) : bool :=
  match s with
  | EmptyString => true
  | String c s' => negb (Ascii.eqb c "010"%char) && has_no_newline s'
  end.

(** The severity word each list of [self.violations] is meant to hold. *)
Definition bucket_severity (b : Audit.Bucket) : string :=
  match b with
  | Audit.BCritical => "CRITICAL" | Audit.BHigh => "HIGH"
  | Audit.BMedium => "MEDIUM" | Audit.BLow => "LOW"
  end.

(** Every violation of the four lists carries the severity word of its list. *)
Definition severities_agree (vs : Audit.Violations) : Prop :=
  Forall (fun v => Audit.v_severity v = "CRITICAL") (Audit.critical vs)
  ∧ Forall (fun v => Audit.v_severity v = "HIGH") (Audit.high vs)
  ∧ Forall (fun v => Audit.v_severity v = "MEDIUM") (Audit.medium vs)
  ∧ Audit.low vs = [].

(** A step of the auditor that only appends findings, each of them
    acceptable to [ok], and leaves statistics and console alone. *)
Definition check_adds (ok : Quantum.SecurityFinding -> Prop)
    (st st' : Quantum.Auditor) : Prop :=
  Quantum.stats st' = Quantum.stats st
  ∧ Quantum.console st' = Quantum.console st
  ∧ ∃ new, Quantum.findings st' = Quantum.findings st ++ new ∧ Forall ok new.

(** Was a finding made by [_scan_for_pattern]?  Those carry its fixed
    impact text. *)
Definition from_pattern_scan (f : Quantum.SecurityFinding) : bool :=
  String.eqb (Quantum.impact f) "Potential security vulnerability".

Definition count_pattern_findings (fs : list Quantum.SecurityFinding) : nat :=
  length (List.filter from_pattern_scan fs).

(** A finding of a file check: it names the checked file, a line of it, and
    does not carry the impact text of the pattern scans. *)
Definition check_finding_ok (path : string) (lines : list string)
    (f : Quantum.SecurityFinding) : Prop :=
  Quantum.file_path f = path
  ∧ 1 ≤ Quantum.line_number f ≤ length lines
  ∧ from_pattern_scan f = false.

(** A step of a run: findings are appended, and [vulnerabilities_found]
    grows by the number of appended findings that come from a pattern scan. *)
Definition run_step (st st' : Quantum.Auditor) : Prop :=
  ∃ new, Quantum.findings st' = Quantum.findings st ++ new
         ∧ Quantum.stats st' !!! "vulnerabilities_found"
           = Quantum.stats st !!! "vulnerabilities_found"
             + count_pattern_findings new.

(** The first of the [quantum_files], which the FALCON check can meet again
    through [rglob]. *)
Definition falcon_path : string :=
  "hypermesh/src/consensus/src/detection/quantum_security.rs".

(** A call that returns, having only appended findings and kept
    [vulnerabilities_found] in step with those of the pattern scans. *)
Definition returns_step (st : Quantum.Auditor)
    (m : QuantumIO.result Quantum.Auditor) : Prop :=
  ∃ st', m = QuantumIO.Returns st' ∧ run_step st st'.

(** Does reading an entry raise? *)
Definition unreadable (e : DirEntry) : bool :=
  match read_entry e with ReadOk _ => false | ReadFails _ => true end.

(** A violation as one call of the validator's [_scan_for_pattern] makes
    them. *)
Definition scan_violation_ok (pattern : Quantum.Pattern)
    (sev : Validator.SecurityLevel) (descr : string)
    (v : Validator.SecurityViolation) : Prop :=
  Validator.severity v = sev
  ∧ Validator.violation_type v = Quantum.pat_src pattern
  ∧ Validator.description v = descr
  ∧ PyStr.startswith "trustchain/src/" (Validator.file_path v) = true
  ∧ 1 ≤ Validator.line_number v.

(** Did [cargo check] fail: a non-zero return code, or the timeout? *)
Definition build_failed (cargo : ValidatorRun.CargoOutcome) : bool :=
  match cargo with
  | ValidatorRun.CargoReturns returncode _ => negb (returncode =? 0)%Z
  | ValidatorRun.CargoTimeout => true
  end.

(** The files the line loop of [security_audit.py] is run on. *)
Definition kept (root : string) (f : DirEntry) : bool :=
  Audit.is_rs f
  && negb (PyStr.contains "target" (Audit.abs_path root (rel_path f)))
  && negb (PyStr.contains "test" (path_name (rel_path f)))
  && negb (PyStr.contains ".security_backup" (Audit.abs_path root (rel_path f))).

(** The violation the line loop records when rule [r] holds for line
    [line_num] of the file [rel]. *)
Definition line_violation (r : Audit.LineRule) (rel : string) (line_num : nat)
    (line : string) : Audit.Violation :=
  {| Audit.v_file := rel; Audit.v_line := line_num;
     Audit.v_type := Audit.rule_type r;
     Audit.v_code := Audit.code_of r line;
     Audit.v_severity := Audit.rule_severity r;
     Audit.v_description := Audit.rule_description r |}.

(** [sum(stats[r.counter] for r in rules)] *)
Definition counters_sum (rules : list Audit.LineRule) (d : gmap string nat) : nat :=
  foldr (fun r acc => d !!! Audit.counter r + acc) 0 rules.

(** Number of lines [_audit_file] counts for a named file. *)
Definition lines_of (tree : list DirEntry) (relative_path : string) : nat :=
  match Quantum.lookup_entry tree relative_path with
  | Some e =>
      match read_entry e with
      | ReadOk content => length (PyStr.split_nl content)
      | ReadFails _ => 0
      end
  | None => 0
  end.

(** [sum(lines_of(p) for p in files)] *)
Definition total_lines_of (tree : list DirEntry) (files : list string) : nat :=
  foldr (fun p acc => lines_of tree p + acc) 0 files.

(** Number of recorded violations of one type, over the four lists. *)
Definition count_type (t : string) (vs : Audit.Violations) : nat :=
  length (List.filter (fun v => String.eqb (Audit.v_type v) t)
                      (Audit.all_violations vs)).

(** The counter [k] holds the number of recorded violations of type [t]. *)
Definition counts_type (k t : string) (st : Audit.Auditor) : Prop :=
  Audit.stats st !!! k = count_type t (Audit.violations st).

End Outcome.

(** ** security_audit.py: the recommendations of the report *)
Module AuditReport.

(** [if cond: recommendations.append(text)] *)
Definition when (cond : bool) (text : string) : list string :=
  if cond then [text] else [].

(** The ten recommendations every report ends with. *)
Definition fixed_recommendations : list string :=
  ["Implement comprehensive input validation framework";
   "Add rate limiting to all public endpoints";
   "Enable security headers (HSTS, CSP, X-Frame-Options)";
   "Implement proper authentication and authorization";
   "Add audit logging for security events";
   "Configure TLS 1.3 with strong cipher suites";
   "Implement certificate pinning for critical connections";
   "Add intrusion detection monitoring";
   "Perform regular dependency updates and security scanning";
   "Implement secure session management"].

(** [generate_recommendations]: six tests of the counters, each appending its
    text, then the ten fixed texts. *)
Definition generate_recommendations (st : Audit.Auditor) : list string :=
  let stats := Audit.stats st in
  when (0 <? stats !!! "mock_implementations")
    "CRITICAL: Replace all mock cryptographic implementations with real libraries (pqcrypto-falcon, ring, rustls)"
  ++ when (0 <? stats !!! "test_bypasses")
       "CRITICAL: Remove all default_for_testing() methods from production code paths"
  ++ when (100 <? stats !!! "unwrap_calls")
       "HIGH: Replace unwrap() calls with proper error handling using Result<T, E> and ?"
  ++ when (0 <? stats !!! "placeholder_code")
       "CRITICAL: Complete all TODO/FIXME security implementations before production"
  ++ when (0 <? stats !!! "hardcoded_secrets")
       "CRITICAL: Move all secrets to environment variables or secure key management"
  ++ when (0 <? stats !!! "missing_validation")
       "HIGH: Add input validation for all external data sources"
  ++ fixed_recommendations.

End AuditReport.

(** ** Sample inputs *)
Module Samples.

Definition newline : string := String "010"%char EmptyString.

(** A severity histogram with two HIGH and five MEDIUM findings. *)
Definition sample_histogram : gmap string nat :=
  <["HIGH" := 2]>
    (<["MEDIUM" := 5]>
       (zero_counts (Quantum.severity_value <$> Quantum.all_severities))).

(** Findings as [_scan_for_pattern] builds them, one per severity wanted. *)
Definition finding_of (sev : Quantum.SecuritySeverity) (line_num : nat)
    : Quantum.SecurityFinding :=
  Quantum.pattern_finding (Quantum.plain "localhost" "localhost")
    Quantum.PRODUCTION_READINESS sev "Test data in production code"
    "src/config.rs" line_num "    let host = localhost;".

Definition auditor_with (fs : list Quantum.SecurityFinding) : Quantum.Auditor :=
  Quantum.mkAuditor fs (Quantum.stats Quantum.init) [].

(** One HIGH finding among lower ones, no CRITICAL finding. *)
Definition high_only : list Quantum.SecurityFinding :=
  [finding_of Quantum.MEDIUM 3; finding_of Quantum.HIGH 7; finding_of Quantum.LOW 9].

Definition high_only_again : list Quantum.SecurityFinding :=
  [finding_of Quantum.HIGH 1; finding_of Quantum.INFO 2].

(** A project of one Rust file whose single line trips the path-traversal
    test of [security_audit.py] and no other test. *)
Definition traversal_tree : list DirEntry :=
  [ mkEntry "src" Directory;
    mkEntry "src/loader.rs"
      (Regular (ReadOk ("fn load() { read(../data) }" +:+ newline))) ].

Definition no_cargo : string -> option string := fun _ => None.

(** A project whose quantum security module simulates its signatures. *)
Definition falcon_text : string :=
  "pub fn verify(sig: &[u8]) -> bool {" +:+ newline
  +:+ "    simulate_falcon_validation(sig)" +:+ newline
  +:+ "}" +:+ newline.


(** Source lines as long as wanted that hold a test pattern:
    [localhost] followed by [n] letters. *)
Fixpoint padding (n : nat) : string :=
  match n with
  | O => EmptyString
  | S n' => String "x"%char (padding n')
  end.

Definition long_line (n : nat) : string :=
  String "l" (String "o" (String "c" (String "a" (String "l"
    (String "h" (String "o" (String "s" (String "t" (padding n))))))))).

Definition long_entry (n : nat) : DirEntry :=
  mkEntry "src/net.rs" (Regular (ReadOk (long_line n))).

Definition localhost_rule : Quantum.Rule :=
  Quantum.mkRule (Quantum.plain "localhost" "localhost")
                 Quantum.PRODUCTION_READINESS Quantum.HIGH
                 "Test data in production code".

(** A project whose only source file cannot be decoded. *)
Definition unreadable_entry : DirEntry :=
  mkEntry "src/key.rs" (Regular (ReadFails "UnicodeDecodeError")).

Definition unreadable_tree : list DirEntry := [unreadable_entry].

(** A readable file next to it; its second line holds two test patterns
    and one mock pattern of [QUANTUM_CERTIFICATE_SECURITY_AUDIT.py]. *)
Definition config_text : string :=
  "fn main() {" +:+ newline
  +:+ "    let host = localhost; // development mock_server" +:+ newline
  +:+ "}" +:+ newline.

Definition config_entry : DirEntry :=
  mkEntry "src/config.rs" (Regular (ReadOk config_text)).

Definition mixed_tree : list DirEntry :=
  [mkEntry "src" Directory; unreadable_entry; config_entry].













(** That project on disk: the three views agree on its one file. *)
Definition falcon_exists (p : string) : QuantumIO.Exists :=
  if String.eqb p Outcome.falcon_path then QuantumIO.Found (ReadOk falcon_text)
  else QuantumIO.NotFound.

Definition falcon_fs : QuantumIO.FileSystem :=
  QuantumIO.mkFS falcon_exists
    [QuantumIO.VOther "hypermesh";
     QuantumIO.VFile Outcome.falcon_path (ReadOk falcon_text)]
    (QuantumIO.Returns [(Outcome.falcon_path, ReadOk falcon_text)]).

Definition readiness_rules : list Quantum.Rule :=
  Quantum.rules_of Quantum.test_patterns Quantum.PRODUCTION_READINESS
                   Quantum.HIGH "Test data in production code"
  ++ Quantum.rules_of Quantum.mock_patterns Quantum.PRODUCTION_READINESS
                      Quantum.CRITICAL "Mock/placeholder implementation".

End Samples.

(** * Properties *)

(** ** The model on small inputs *)

Example strip_ex : PyStr.strip "    let x = 1;  " = "let x = 1;".
Proof. reflexivity. Qed.

Example readlines_ex :
  PyStr.readlines (String "a" (String "010" (String "b" EmptyString)))
  = [String "a" (String "010" EmptyString); "b"].
Proof. reflexivity. Qed.

Example split_nl_ex :
  PyStr.split_nl (String "a" (String "010" EmptyString)) = ["a"; EmptyString].
Proof. reflexivity. Qed.

Example search_ex1 : Re.search (Re.lit true "localhost") "let h = LocalHost:80;" = true.
Proof. vm_compute. reflexivity. Qed.

Example path_suffix_ex1 : path_suffix "src/ca/mod.rs" = ".rs".
Proof. reflexivity. Qed.

Example path_suffix_ex3 : path_suffix "ui/a.test.tsx" = ".tsx".
Proof. reflexivity. Qed.

Example path_suffix_ex2 : path_suffix "src/.hidden" = EmptyString.
Proof. reflexivity. Qed.

Example enumerate1_ex : enumerate1 ["a"; "b"] = [(1, "a"); (2, "b")].
Proof. reflexivity. Qed.


(** ** The matcher finds exactly the substrings of the language *)
Section Regex.
Import Re.
Implicit Types (r : regex) (s : string) (c : ascii).

Lemma app_nil_string s : s +:+ EmptyString = s.
Proof.
  induction s as [|c s IH]; [done|].
  change (String c s +:+ EmptyString) with (String c (s +:+ EmptyString)).
  by rewrite IH.
Qed.

Lemma app_nil_l_string s : EmptyString +:+ s = s.
Proof. reflexivity. Qed.

Lemma app_cons_string c s1 s2 : String c s1 +:+ s2 = String c (s1 +:+ s2).
Proof. reflexivity. Qed.

Lemma app_eq_nil_string s1 s2 :
  s1 +:+ s2 = EmptyString → s1 = EmptyString ∧ s2 = EmptyString.
Proof. destruct s1; [done|]. intros Heq. discriminate Heq. Qed.

Lemma nullable_matches r : nullable r = true ↔ matches r EmptyString.
Proof.
  split.
  - induction r as [| |p|r1 IH1 r2 IH2|r1 IH1 r2 IH2|r IH]; cbn; intros Hn;
      try discriminate.
    + constructor.
    + apply andb_true_iff in Hn as [H1 H2].
      apply (matches_cat r1 r2 EmptyString EmptyString); auto.
    + apply orb_true_iff in Hn as [H1|H2];
        [apply matches_alt_l | apply matches_alt_r]; auto.
    + constructor.
  - intros Hm. remember EmptyString as s eqn:Hs.
    induction Hm as [|p c Hp|r1 r2 s1 s2 H1 IH1 H2 IH2|r1 r2 s H IH|r1 r2 s H IH
                     |r|r s1 s2 H1 IH1 H2 IH2]; cbn; try done.
    + apply app_eq_nil_string in Hs as [-> ->]. by rewrite IH1, IH2.
    + by rewrite IH.
    + rewrite IH by done. apply orb_true_r.
Qed.

Lemma matches_star_cons r c s :
  matches (Star r) (String c s) →
  ∃ s1 s2, s = s1 +:+ s2 ∧ matches r (String c s1) ∧ matches (Star r) s2.
Proof.
  intros Hm. remember (Star r) as r' eqn:Hr. remember (String c s) as t eqn:Ht.
  revert c s Ht.
  induction Hm as [|p c' Hp|r1 r2 s1 s2 H1 IH1 H2 IH2|r1 r2 s' H IH|r1 r2 s' H IH
                   |r0|r0 s1 s2 H1 IH1 H2 IH2]; intros c s Ht; try discriminate.
  injection Hr as ->. destruct s1 as [|c1 s1].
  - apply IH2; done.
  - injection Ht as -> <-. exists s1, s2. done.
Qed.

Lemma deriv_matches r c s : matches (deriv c r) s ↔ matches r (String c s).
Proof.
  revert s. induction r as [| |p|r1 IH1 r2 IH2|r1 IH1 r2 IH2|r IH]; intros s; cbn.
  - split; inversion 1.
  - split; inversion 1.
  - destruct (p c) eqn:Hp; split; intros Hm.
    + inversion Hm; subst. by constructor.
    + inversion Hm; subst. constructor.
    + inversion Hm.
    + inversion Hm; subst. congruence.
  - assert (matches (Cat (deriv c r1) r2) s →
            matches (Cat r1 r2) (String c s)) as Hleft.
    { intros Hm. inversion Hm as [| |? ? s1 s2 H1 H2| | | |]; subst.
      apply IH1 in H1. apply (matches_cat r1 r2 (String c s1) s2 H1 H2). }
    assert (matches (Cat r1 r2) (String c s) →
            matches (Cat (deriv c r1) r2) s
            ∨ (matches r1 EmptyString ∧ matches r2 (String c s))) as Hsplit.
    { intros Hm. inversion Hm as [| |? ? s1 s2 H1 H2 [Hr1 Hr2] Hs| | | |]; subst.
      destruct s1 as [|c1 s1].
      - right. rewrite app_nil_l_string in Hs. subst s2. done.
      - rewrite app_cons_string in Hs. injection Hs as -> <-.
        left. apply matches_cat; [by apply IH1 | done]. }
    destruct (nullable r1) eqn:Hn; split; intros Hm.
    + inversion Hm; subst; [by apply Hleft|].
      apply (matches_cat r1 r2 EmptyString (String c s));
        [by apply nullable_matches | by apply IH2].
    + destruct (Hsplit Hm) as [H|[_ H]];
        [by apply matches_alt_l | apply matches_alt_r; by apply IH2].
    + by apply Hleft.
    + destruct (Hsplit Hm) as [H|[H _]]; [done|].
      apply nullable_matches in H. congruence.
  - split; intros Hm; inversion Hm; subst;
      first [ apply matches_alt_l; by apply IH1 | apply matches_alt_r; by apply IH2 ].
  - split; intros Hm.
    + inversion Hm as [| |? ? s1 s2 H1 H2| | | |]; subst.
      apply IH in H1. apply (matches_star_app r (String c s1) s2 H1 H2).
    + apply matches_star_cons in Hm as (s1 & s2 & -> & H1 & H2).
      apply matches_cat; [by apply IH | done].
Qed.

(** [prefix_match] holds exactly when a prefix of the string is in the
    language. *)
Lemma prefix_match_spec s r :
  prefix_match s r = true ↔ ∃ m rest, s = m +:+ rest ∧ matches r m.
Proof.
  revert r. induction s as [|c s IH]; intros r; cbn.
  - destruct (nullable r) eqn:Hn.
    + split; [|done]. intros _. exists EmptyString, EmptyString.
      split; [done | by apply nullable_matches].
    + split; [done|]. intros (m & rest & Hs & Hm). symmetry in Hs.
      apply app_eq_nil_string in Hs as [-> ->].
      apply nullable_matches in Hm. congruence.
  - destruct (nullable r) eqn:Hn.
    + split; [|done]. intros _. exists EmptyString, (String c s).
      split; [done | by apply nullable_matches].
    + rewrite IH. split.
      * intros (m & rest & -> & Hm). exists (String c m), rest.
        split; [done | by apply deriv_matches].
      * intros (m & rest & Hs & Hm). destruct m as [|c' m].
        -- apply nullable_matches in Hm. congruence.
        -- injection Hs as <- ->. exists m, rest. split; [done | by apply deriv_matches].
Qed.

(** [search] holds exactly when some substring is in the language: what
    [re.search] decides for patterns without anchors. *)
Lemma search_spec r s :
  search r s = true ↔ ∃ before m rest, s = before +:+ m +:+ rest ∧ matches r m.
Proof.
  assert (∀ t, prefix_match t r = true →
               ∃ before m rest, t = before +:+ m +:+ rest ∧ matches r m) as Hhere.
  { intros t Hp. apply prefix_match_spec in Hp as (m & rest & Hs & Hm).
    exists EmptyString, m, rest. split; [exact Hs | exact Hm]. }
  induction s as [|c s IH]; cbn [search].
  - destruct (prefix_match EmptyString r) eqn:Hp.
    + split; [|done]. intros _. by apply Hhere.
    + split; [done|]. intros (before & m & rest & Hs & Hm). symmetry in Hs.
      apply app_eq_nil_string in Hs as [-> Hs].
      assert (prefix_match EmptyString r = true) as Hp'; [|congruence].
      apply prefix_match_spec. exists m, rest. split; [by rewrite Hs | exact Hm].
  - destruct (prefix_match (String c s) r) eqn:Hp.
    + split; [|done]. intros _. by apply Hhere.
    + rewrite IH. split.
      * intros (before & m & rest & -> & Hm). exists (String c before), m, rest.
        split; [apply app_cons_string | exact Hm].
      * intros (before & m & rest & Hs & Hm). destruct before as [|c' before].
        -- assert (prefix_match (String c s) r = true) as Hp'; [|congruence].
           apply prefix_match_spec. exists m, rest. split; [exact Hs | exact Hm].
        -- rewrite app_cons_string in Hs. injection Hs as <- ->.
           exists before, m, rest. done.
Qed.

End Regex.

(** ** Counter dictionaries and tallies *)
Section Counters.
Context `{Countable K}.
Implicit Types (d : gmap K nat) (k : K).

Lemma sum_values_empty : sum_values (∅ : gmap K nat) = 0.
Proof. unfold sum_values. by rewrite map_fold_empty. Qed.

Lemma sum_values_insert_fresh d k v :
  d !! k = None → sum_values (<[k := v]> d) = v + sum_values d.
Proof.
  intros Hk. unfold sum_values.
  rewrite map_fold_insert_L; [done | intros; lia | done].
Qed.

Lemma sum_values_delete d k v :
  d !! k = Some v → sum_values d = v + sum_values (delete k d).
Proof.
  intros Hk. unfold sum_values.
  rewrite (map_fold_delete_L _ _ k v d); [done | intros; lia | done].
Qed.

Lemma sum_values_incr d k :
  is_Some (d !! k) → sum_values (dict_incr k d) = S (sum_values d).
Proof.
  intros [v Hv]. unfold dict_incr.
  rewrite (lookup_total_correct _ _ _ Hv).
  rewrite <- insert_delete_eq.
  rewrite sum_values_insert_fresh by apply lookup_delete_eq.
  rewrite (sum_values_delete d k v Hv). lia.
Qed.

Lemma dict_incr_is_Some d k j :
  is_Some (d !! j) → is_Some (dict_incr k d !! j).
Proof.
  intros Hj. unfold dict_incr.
  destruct (decide (k = j)) as [->|Hne].
  - rewrite lookup_insert_eq. eauto.
  - by rewrite lookup_insert_ne.
Qed.

Lemma dict_incr_lookup_eq d k : dict_incr k d !!! k = S (d !!! k).
Proof. unfold dict_incr. rewrite lookup_total_insert_eq. lia. Qed.

Lemma dict_incr_lookup_ne d k j : k ≠ j → dict_incr k d !!! j = d !!! j.
Proof. intros Hne. unfold dict_incr. by rewrite lookup_total_insert_ne. Qed.

Lemma zero_counts_lookup (keys : list K) k :
  k ∈ keys → zero_counts keys !! k = Some 0.
Proof.
  unfold zero_counts. induction keys as [|a keys IH]; intros Hin.
  - by apply elem_of_nil in Hin.
  - cbn. destruct (decide (a = k)) as [->|Hne].
    + by rewrite lookup_insert_eq.
    + rewrite lookup_insert_ne by done.
      apply IH. apply elem_of_cons in Hin as [->|]; [done | done].
Qed.

Lemma zero_counts_values (keys : list K) k v :
  zero_counts keys !! k = Some v → v = 0.
Proof.
  unfold zero_counts. induction keys as [|a keys IH]; cbn.
  - by rewrite lookup_empty.
  - destruct (decide (a = k)) as [->|Hne].
    + rewrite lookup_insert_eq. congruence.
    + by rewrite lookup_insert_ne.
Qed.

Lemma sum_values_all_zero d :
  (∀ k v, d !! k = Some v → v = 0) → sum_values d = 0.
Proof.
  induction d as [|k v d Hk IH] using map_ind; intros Hz.
  - apply sum_values_empty.
  - rewrite sum_values_insert_fresh by done.
    rewrite (Hz k v) by apply lookup_insert_eq.
    apply IH. intros j w Hj. apply (Hz j w).
    rewrite lookup_insert_ne; [done | congruence].
Qed.

Lemma sum_values_zero_counts (keys : list K) : sum_values (zero_counts keys) = 0.
Proof. apply sum_values_all_zero, zero_counts_values. Qed.

Lemma tally_cons {A} (key : A → K) d (x : A) (xs : list A) :
  tally key d (x :: xs) = tally key (dict_incr (key x) d) xs.
Proof. reflexivity. Qed.

Lemma tally_snoc {A} (key : A → K) d (xs : list A) (x : A) :
  tally key d (xs ++ [x]) = dict_incr (key x) (tally key d xs).
Proof. unfold tally. by rewrite foldl_snoc. Qed.

Lemma tally_is_Some {A} (key : A → K) d (xs : list A) j :
  is_Some (d !! j) → is_Some (tally key d xs !! j).
Proof.
  revert d. induction xs as [|x xs IH]; intros d Hj; [done|].
  rewrite tally_cons. apply IH. by apply dict_incr_is_Some.
Qed.

Lemma tally_sum {A} (key : A → K) d (xs : list A) :
  (∀ x, x ∈ xs → is_Some (d !! key x)) →
  sum_values (tally key d xs) = sum_values d + length xs.
Proof.
  revert d. induction xs as [|x xs IH]; intros d Hkeys.
  - cbn. lia.
  - rewrite tally_cons, IH.
    + rewrite sum_values_incr; [cbn; lia|]. apply Hkeys. left.
    + intros y Hy. apply dict_incr_is_Some. apply Hkeys. by right.
Qed.

Lemma tally_lookup {A} (key : A → K) d (xs : list A) k :
  tally key d xs !!! k
  = d !!! k + length (List.filter (fun x => bool_decide (key x = k)) xs).
Proof.
  revert d. induction xs as [|x xs IH]; intros d.
  - cbn. lia.
  - rewrite tally_cons, IH. cbn [List.filter].
    destruct (decide (key x = k)) as [Heq|Hne].
    + rewrite bool_decide_eq_true_2 by done. subst k.
      rewrite dict_incr_lookup_eq. cbn. lia.
    + rewrite bool_decide_eq_false_2 by done.
      by rewrite dict_incr_lookup_ne.
Qed.

End Counters.

(** ** The verdict of [generate_security_report] *)
Section QuantumVerdict.
Import Quantum Samples.
Implicit Types (sc : gmap string nat) (fs : list SecurityFinding) (st : Auditor).

Lemma severity_value_inj (s1 s2 : SecuritySeverity) :
  severity_value s1 = severity_value s2 → s1 = s2.
Proof. destruct s1, s2; cbn; intros Heq; congruence. Qed.

Lemma severity_value_key (s : SecuritySeverity) :
  severity_value s ∈ severity_value <$> all_severities.
Proof. apply list_elem_of_fmap. exists s. split; [done|]. destruct s; set_solver. Qed.

Lemma severity_counts_key fs (s : SecuritySeverity) :
  is_Some (severity_counts fs !! severity_value s).
Proof.
  apply tally_is_Some. rewrite zero_counts_lookup; [eauto|apply severity_value_key].
Qed.

Lemma severity_counts_lookup fs (s : SecuritySeverity) :
  severity_counts fs !!! severity_value s = count_severity s fs.
Proof.
  unfold severity_counts, count_severity. rewrite tally_lookup.
  rewrite (lookup_total_correct _ _ 0)
    by (apply zero_counts_lookup, severity_value_key).
  cbn. f_equal. apply List.filter_ext. intros f. unfold has_severity.
  apply bool_decide_ext. split; [apply severity_value_inj | by intros ->].
Qed.

Lemma severity_counts_snoc fs (f : SecurityFinding) :
  severity_counts (fs ++ [f])
  = dict_incr (severity_value (severity f)) (severity_counts fs).
Proof. apply (tally_snoc (fun g => severity_value (severity g))). Qed.

(** The three verdict fields of a report are functions of the numbers of
    CRITICAL and of HIGH findings. *)
Lemma summary_of_counts st :
  let s := executive_summary (generate_security_report st) in
  let c := count_severity CRITICAL (findings st) in
  let h := count_severity HIGH (findings st) in
  summary_status s = security_status c h
  ∧ production_ready s = production_ready_of c h
  ∧ recommendation s = _get_deployment_recommendation (production_ready_of c h) c h.
Proof.
  unfold generate_security_report, summarize, critical_count_of, high_count_of.
  cbn [executive_summary summary_status production_ready recommendation].
  by rewrite !severity_counts_lookup.
Qed.

Lemma ready_iff (c h : nat) : production_ready_of c h = true ↔ c = 0 ∧ h = 0.
Proof.
  unfold production_ready_of. rewrite andb_true_iff, !Nat.eqb_eq. tauto.
Qed.

Lemma count_severity_zero s fs :
  count_severity s fs = 0 ↔ ∀ f, f ∈ fs → severity f ≠ s.
Proof.
  unfold count_severity. induction fs as [|f fs IH]; cbn.
  - split; [|done]. intros _ f Hf. by apply elem_of_nil in Hf.
  - unfold has_severity at 1. case_bool_decide as Hs; cbn.
    + split; [lia|]. intros Hall. exfalso. apply (Hall f); [left | done].
    + rewrite IH. split.
      * intros Hall g Hg. apply elem_of_cons in Hg as [->|Hg]; [done|by apply Hall].
      * intros Hall g Hg. apply Hall. by right.
Qed.

Lemma count_severity_pos s fs :
  0 < count_severity s fs ↔ ∃ f, f ∈ fs ∧ severity f = s.
Proof.
  split.
  - intros Hpos. destruct (decide (Exists (fun f => severity f = s) fs)) as [Hex|Hno].
    + apply Exists_exists in Hex. done.
    + exfalso. assert (count_severity s fs = 0) as Hz; [|lia].
      apply count_severity_zero. intros f Hf Hs. apply Hno.
      apply Exists_exists. eauto.
  - intros (f & Hf & Hs).
    destruct (count_severity s fs) eqn:Hc; [|lia].
    exfalso. by apply (proj1 (count_severity_zero s fs) Hc f).
Qed.

(** C1.  For every severity histogram the verdict follows the fixed
    precedence: a positive CRITICAL count gives the status
    CRITICAL_VULNERABILITIES_FOUND and a report that is not production
    ready; otherwise a positive HIGH count gives
    HIGH_RISK_VULNERABILITIES_FOUND, not production ready; otherwise the
    status is ACCEPTABLE_RISK_LEVEL and the report is production ready. *)
Theorem verdict_precedence sc (total : nat) :
  let v := summarize sc total in
  let c := sc !!! "CRITICAL" in
  let h := sc !!! "HIGH" in
  (0 < c →
     summary_status v = "CRITICAL_VULNERABILITIES_FOUND"
     ∧ production_ready v = false)
  ∧ (c = 0 → 0 < h →
       summary_status v = "HIGH_RISK_VULNERABILITIES_FOUND"
       ∧ production_ready v = false)
  ∧ (c = 0 → h = 0 →
       summary_status v = "ACCEPTABLE_RISK_LEVEL"
       ∧ production_ready v = true).
Proof.
  cbn. unfold critical_count_of, high_count_of, security_status,
    production_ready_of. cbn [severity_value].
  destruct (sc !!! "CRITICAL") as [|c], (sc !!! "HIGH") as [|h]; cbn;
    repeat split; intros; first [done | lia].
Qed.

Lemma verdict_precedence_witness :
  summary_status (summarize sample_histogram 7) = "HIGH_RISK_VULNERABILITIES_FOUND"
  ∧ production_ready (summarize sample_histogram 7) = false.
Proof.
  apply (proj1 (proj2 (verdict_precedence sample_histogram 7))).
  - vm_compute. reflexivity.
  - vm_compute. lia.
Defined.

(** C9.  Raising the CRITICAL count of a histogram by one never turns a
    verdict that is not production ready into one that is. *)
Theorem one_more_critical_keeps_blocked sc (total total' : nat) :
  production_ready (summarize sc total) = false →
  production_ready (summarize (dict_incr "CRITICAL" sc) total') = false.
Proof.
  intros _. cbn. unfold critical_count_of, production_ready_of.
  cbn [severity_value]. by rewrite dict_incr_lookup_eq.
Qed.

Lemma one_more_critical_keeps_blocked_witness :
  production_ready (summarize (dict_incr "CRITICAL" sample_histogram) 8) = false.
Proof.
  apply (one_more_critical_keeps_blocked sample_histogram 7 8).
  vm_compute. reflexivity.
Defined.

(** C10.  Two audits with the same number of CRITICAL findings and the same
    number of HIGH findings get the same status, the same production-ready
    flag and the same recommendation. *)
Theorem verdict_depends_on_critical_and_high st1 st2 :
  count_severity CRITICAL (findings st1) = count_severity CRITICAL (findings st2) →
  count_severity HIGH (findings st1) = count_severity HIGH (findings st2) →
  let s1 := executive_summary (generate_security_report st1) in
  let s2 := executive_summary (generate_security_report st2) in
  summary_status s1 = summary_status s2
  ∧ production_ready s1 = production_ready s2
  ∧ recommendation s1 = recommendation s2.
Proof.
  intros Hc Hh.
  destruct (summary_of_counts st1) as (Hs1 & Hp1 & Hr1).
  destruct (summary_of_counts st2) as (Hs2 & Hp2 & Hr2).
  cbv zeta in *. rewrite Hs1, Hp1, Hr1, Hs2, Hp2, Hr2, Hc, Hh. done.
Qed.

(** Findings of the lower severities leave the verdict as it is. *)
Lemma lower_severities_do_not_matter fs extra (d1 d2 : gmap string nat) (p1 p2 : list Printed) :
  (∀ f, f ∈ extra → severity f ≠ CRITICAL ∧ severity f ≠ HIGH) →
  let s1 := executive_summary (generate_security_report (mkAuditor fs d1 p1)) in
  let s2 := executive_summary (generate_security_report (mkAuditor (fs ++ extra) d2 p2)) in
  summary_status s1 = summary_status s2
  ∧ production_ready s1 = production_ready s2
  ∧ recommendation s1 = recommendation s2.
Proof.
  intros Hlow.
  assert (∀ s, (s = CRITICAL ∨ s = HIGH) →
               count_severity s (fs ++ extra) = count_severity s fs) as Hcount.
  { intros s Hs. unfold count_severity. rewrite List.filter_app, length_app.
    fold (count_severity s extra).
    rewrite (proj2 (count_severity_zero s extra)); [lia|].
    intros f Hf. destruct (Hlow f Hf), Hs; by subst. }
  destruct (summary_of_counts (mkAuditor fs d1 p1)) as (Hs1 & Hp1 & Hr1).
  destruct (summary_of_counts (mkAuditor (fs ++ extra) d2 p2)) as (Hs2 & Hp2 & Hr2).
  cbv zeta in *. rewrite Hs1, Hp1, Hr1, Hs2, Hp2, Hr2. cbn [findings].
  rewrite !Hcount by auto. done.
Qed.

End QuantumVerdict.

(** ** Remediation priorities *)
Section QuantumPriorities.
Import Quantum Samples.

Lemma filter_nil_of_count s (fs : list SecurityFinding) :
  count_severity s fs = 0 → List.filter (has_severity s) fs = [].
Proof. unfold count_severity. by destruct (List.filter _ fs). Qed.

(** C7.  A finding list with at least one HIGH finding and no CRITICAL
    finding gets a remediation priority list of exactly one entry, whose
    timeline is the urgent one, [Urgent (1-7 days)]. *)
Theorem high_only_priority_list (fs : list SecurityFinding) :
  (∃ f, f ∈ fs ∧ severity f = HIGH) →
  (∀ f, f ∈ fs → severity f ≠ CRITICAL) →
  ∃ p, _get_remediation_priorities fs = [p]
       ∧ timeline p = "Urgent (1-7 days)"
       ∧ priority p = 2
       ∧ count p = count_severity HIGH fs.
Proof.
  intros Hhigh Hcrit.
  apply count_severity_pos in Hhigh. apply count_severity_zero in Hcrit.
  unfold _get_remediation_priorities.
  rewrite (filter_nil_of_count _ _ Hcrit).
  unfold count_severity in Hhigh |- *.
  destruct (List.filter (has_severity HIGH) fs) as [|f0 hs] eqn:Hf.
  - cbn in Hhigh. lia.
  - eexists. cbn. repeat split.
Qed.

Lemma high_only_priority_list_witness :
  ∃ p, _get_remediation_priorities high_only = [p]
       ∧ timeline p = "Urgent (1-7 days)"
       ∧ priority p = 2
       ∧ count p = count_severity HIGH high_only.
Proof.
  apply (high_only_priority_list high_only).
  - exists (finding_of HIGH 7). split; [|reflexivity].
    unfold high_only. apply elem_of_cons. right. apply elem_of_cons. by left.
  - intros f Hf. unfold high_only in Hf.
    repeat (apply elem_of_cons in Hf as [->|Hf]; [cbn; congruence|]).
    by apply elem_of_nil in Hf.
Defined.

Lemma verdict_depends_on_critical_and_high_witness :
  let s1 := executive_summary (generate_security_report (auditor_with high_only)) in
  let s2 := executive_summary (generate_security_report (auditor_with high_only_again)) in
  summary_status s1 = summary_status s2
  ∧ production_ready s1 = production_ready s2
  ∧ recommendation s1 = recommendation s2.
Proof.
  apply (verdict_depends_on_critical_and_high
           (auditor_with high_only) (auditor_with high_only_again)).
  - vm_compute. reflexivity.
  - vm_compute. reflexivity.
Defined.

End QuantumPriorities.

(** ** The severity histogram adds up *)
Section Histogram.

Lemma validator_key (s : Validator.SecurityLevel) :
  s ∈ [Validator.CRITICAL; Validator.HIGH; Validator.MEDIUM; Validator.LOW].
Proof. destruct s; set_solver. Qed.

Lemma validator_counts_sum (vs : list Validator.SecurityViolation) :
  sum_values (Validator.severity_counts vs) = length vs.
Proof.
  unfold Validator.severity_counts. rewrite tally_sum.
  - by rewrite sum_values_zero_counts.
  - intros v _. rewrite zero_counts_lookup; [eauto | apply validator_key].
Qed.

Lemma validator_partition (vs : list Validator.SecurityViolation) :
  let n s := length (List.filter (fun v => bool_decide (Validator.severity v = s)) vs) in
  n Validator.CRITICAL + (n Validator.HIGH + (n Validator.MEDIUM + (n Validator.LOW + 0)))
  = length vs.
Proof.
  cbv zeta. induction vs as [|v vs IH]; [done|].
  cbn [List.filter length].
  destruct (Validator.severity v);
    repeat case_bool_decide; try congruence; cbn [length]; lia.
Qed.

Lemma validator_breakdown_sum (vs : list Validator.SecurityViolation) :
  let r := Validator.generate_security_report vs in
  sum_values (Validator.severity_breakdown r) = Validator.total_violations r.
Proof.
  cbn. rewrite !sum_values_insert_fresh, sum_values_empty by by simplify_map_eq.
  unfold Validator.severity_counts. rewrite !tally_lookup.
  rewrite !(lookup_total_correct _ _ 0) by (apply zero_counts_lookup, validator_key).
  cbn [Nat.add]. apply validator_partition.
Qed.

(** C3.  The severity histogram of a report adds up to the number of
    findings: in [QUANTUM_CERTIFICATE_SECURITY_AUDIT.py] the values of
    [findings_by_severity] sum to [total_findings], the length of the
    finding list; in [SECURITY_PRODUCTION_READINESS_VALIDATOR.py] the
    values of [severity_counts], and those of the [severity_breakdown] of the
    report, sum to [total_violations], the length of the violation list. *)
Theorem histogram_sum_is_number_of_findings :
  (∀ st : Quantum.Auditor,
      let r := Quantum.generate_security_report st in
      sum_values (Quantum.findings_by_severity r) = length (Quantum.findings st)
      ∧ sum_values (Quantum.findings_by_severity r)
        = Quantum.total_findings (Quantum.executive_summary r))
  ∧ (∀ vs : list Validator.SecurityViolation,
      let r := Validator.generate_security_report vs in
      sum_values (Validator.severity_counts vs) = length vs
      ∧ sum_values (Validator.severity_breakdown r) = Validator.total_violations r).
Proof.
  split.
  - intros st. cbn.
    assert (sum_values (Quantum.severity_counts (Quantum.findings st))
            = length (Quantum.findings st)) as Hsum; [|by rewrite Hsum].
    unfold Quantum.severity_counts. rewrite tally_sum.
    + by rewrite sum_values_zero_counts.
    + intros f _. rewrite zero_counts_lookup; [eauto | apply severity_value_key].
  - intros vs. split; [apply validator_counts_sum | apply validator_breakdown_sum].
Qed.

End Histogram.

(** ** Exit status *)
Section ExitStatus.
Import Samples.

Lemma quantum_exit_zero_iff (r : Quantum.Report) :
  Quantum.exit_status r = 0
  ↔ Quantum.production_ready (Quantum.executive_summary r) = true.
Proof.
  unfold Quantum.exit_status.
  destruct (Quantum.production_ready _); split; intros; congruence.
Qed.

Lemma quantum_exit_one_iff (r : Quantum.Report) :
  Quantum.exit_status r = 1
  ↔ Quantum.production_ready (Quantum.executive_summary r) = false.
Proof.
  unfold Quantum.exit_status.
  destruct (Quantum.production_ready _); split; intros; congruence.
Qed.

Lemma audit_exit_zero_iff (st : Audit.Auditor) :
  Audit.exit_status (Audit.summary_of st) = 0
  ↔ Audit.critical (Audit.violations st) = [].
Proof.
  unfold Audit.exit_status, Audit.summary_of. cbn.
  destruct (Audit.critical (Audit.violations st)); cbn; split; intros; congruence.
Qed.

(** C2, as the scripts have it.  [QUANTUM_CERTIFICATE_SECURITY_AUDIT.py]
    exits with status 0 exactly when the report is production ready and
    with status 1 otherwise, so an audit with a HIGH finding exits with 1.
    [security_audit.py] has no readiness flag: it exits with status 0
    exactly when no critical violation was recorded and with status 1
    otherwise, whatever the number of high violations. *)
Theorem exit_status_contract :
  (∀ st : Quantum.Auditor,
      let r := Quantum.generate_security_report st in
      (Quantum.exit_status r = 0
       ↔ Quantum.production_ready (Quantum.executive_summary r) = true)
      ∧ (Quantum.exit_status r = 1
         ↔ Quantum.production_ready (Quantum.executive_summary r) = false)
      ∧ ((∃ f, f ∈ Quantum.findings st ∧ Quantum.severity f = Quantum.HIGH) →
         Quantum.exit_status r = 1))
  ∧ (∀ st : Audit.Auditor,
      let s := Audit.summary_of st in
      (Audit.exit_status s = 0 ↔ Audit.critical (Audit.violations st) = [])
      ∧ (Audit.exit_status s = 1 ↔ Audit.critical (Audit.violations st) ≠ [])).
Proof.
  split.
  - intros st r. split; [apply quantum_exit_zero_iff|].
    split; [apply quantum_exit_one_iff|].
    intros Hhigh. apply quantum_exit_one_iff.
    destruct (summary_of_counts st) as (_ & Hready & _). cbv zeta in Hready.
    subst r. rewrite Hready. apply count_severity_pos in Hhigh.
    unfold Quantum.production_ready_of.
    destruct (Quantum.count_severity Quantum.HIGH (Quantum.findings st));
      [lia | by rewrite andb_false_r].
  - intros st s. split; [apply audit_exit_zero_iff|].
    subst s. unfold Audit.exit_status, Audit.summary_of. cbn.
    destruct (Audit.critical (Audit.violations st)); cbn; split;
      intros; congruence.
Qed.

Lemma exit_status_contract_witness :
  Quantum.exit_status
    (Quantum.generate_security_report (auditor_with high_only)) = 1.
Proof.
  apply (proj1 exit_status_contract (auditor_with high_only)).
  exists (finding_of Quantum.HIGH 7). split; [|reflexivity].
  unfold auditor_with, high_only. cbn [Quantum.findings].
  apply elem_of_cons. right. apply elem_of_cons. by left.
Defined.

(** C2 fails for [security_audit.py]: a run that records one high
    violation and no critical one returns status 0. *)
Lemma audit_high_only_exits_zero :
  let st := Audit.run no_cargo traversal_tree "/home/persist/repos/projects/web3" in
  length (Audit.high (Audit.violations st)) = 1
  ∧ Audit.critical (Audit.violations st) = []
  ∧ Audit.main no_cargo traversal_tree = 0.
Proof. vm_compute. repeat split. Qed.

End ExitStatus.

(** ** What [_scan_for_pattern] adds to the auditor *)
Section QuantumScan.
Import Quantum.
Implicit Types (st : Auditor) (e : DirEntry) (r : Rule) (tree : list DirEntry).

Lemma scan_lines_findings r path st (nls : list (nat * string)) :
  findings (foldl (scan_line (rule_pattern r) (rule_category r) (rule_severity r)
                             (rule_description r) path) st nls)
  = findings st
    ++ (rule_finding r path
          <$> List.filter (fun nl => Re.search (pat_rx (rule_pattern r)) nl.2) nls).
Proof.
  revert st. induction nls as [|nl nls IH]; intros st.
  - cbn. by rewrite app_nil_r.
  - cbn [foldl List.filter]. rewrite IH. unfold scan_line.
    destruct (Re.search _ nl.2); [|done].
    cbn. by rewrite <- app_assoc.
Qed.

Lemma scan_lines_console r path st (nls : list (nat * string)) :
  console (foldl (scan_line (rule_pattern r) (rule_category r) (rule_severity r)
                            (rule_description r) path) st nls)
  = console st.
Proof.
  revert st. induction nls as [|nl nls IH]; intros st; [done|].
  cbn [foldl]. rewrite IH. unfold scan_line. by destruct (Re.search _ _).
Qed.

Lemma scan_entry_findings r st e :
  findings (scan_entry (rule_pattern r) (rule_category r) (rule_severity r)
                       (rule_description r) st e)
  = findings st ++ entry_matches r e.
Proof.
  unfold scan_entry, entry_matches.
  destruct (scannable e); [|by rewrite app_nil_r].
  destruct (read_entry e); [|by rewrite app_nil_r].
  apply scan_lines_findings.
Qed.

Lemma scan_rule_findings tree st r :
  findings (scan_rule tree st r) = findings st ++ (tree ≫= entry_matches r).
Proof.
  unfold scan_rule, _scan_for_pattern.
  revert st. induction tree as [|e tree IH]; intros st.
  - cbn. by rewrite app_nil_r.
  - cbn [foldl]. rewrite IH, scan_entry_findings. cbn. by rewrite <- app_assoc.
Qed.

Lemma scan_rules_findings tree (rules : list Rule) st :
  findings (scan_rules tree rules st)
  = findings st ++ (rules ≫= fun r => tree ≫= entry_matches r).
Proof.
  unfold scan_rules.
  revert st. induction rules as [|r rules IH]; intros st.
  - cbn. by rewrite app_nil_r.
  - cbn [foldl]. rewrite IH, scan_rule_findings. cbn. by rewrite <- app_assoc.
Qed.

(** Unreadable entries are passed over: the auditor is left as it was. *)
Lemma scan_entry_unreadable (p : Pattern) cat sev descr st e err :
  read_entry e = ReadFails err → scan_entry p cat sev descr st e = st.
Proof. intros Hr. unfold scan_entry. rewrite Hr. by destruct (scannable e). Qed.

End QuantumScan.

(** ** Files that cannot be read *)
Section FaultIsolation.
Import Quantum QuantumIO Samples.
Implicit Types (st : Auditor) (walk before after : list Visit) (v : Visit).

Lemma bind_returns {A B} (a : A) (f : A → result B) : (Returns a ≫= f) = f a.
Proof. reflexivity. Qed.

Lemma bind_raises {A B} (exn : string) (f : A → result B) :
  (Raises exn ≫= f) = Raises exn.
Proof. reflexivity. Qed.


Lemma for_each_returns {A S} (body : S → A → result S) (I : S → Prop)
    (s : S) (l : list A) :
  (∀ s a, a ∈ l → I s → ∃ s', body s a = Returns s' ∧ I s') →
  I s → ∃ s', for_each body s l = Returns s' ∧ I s'.
Proof.
  revert s. induction l as [|a l IH]; intros s Hbody Hs; [by exists s|].
  cbn [for_each]. destruct (Hbody s a) as (s1 & -> & Hs1); [left | done |].
  rewrite bind_returns. apply IH; [|done].
  intros s' a' Ha'. apply Hbody. by right.
Qed.











End FaultIsolation.

(** ** Every rule is tried on every line *)
Section NoEarlyExit.
Import Quantum Samples.
Implicit Types (st : Auditor) (e : DirEntry) (r : Rule) (tree : list DirEntry).

Lemma findings_at_app p n (fs1 fs2 : list SecurityFinding) :
  findings_at p n (fs1 ++ fs2) = findings_at p n fs1 + findings_at p n fs2.
Proof. unfold findings_at. by rewrite List.filter_app, length_app. Qed.

Lemma points_at_rule_finding r p q n nl :
  points_at p n (rule_finding r q nl) = String.eqb q p && (nl.1 =? n).
Proof. reflexivity. Qed.

Lemma findings_at_other_path r p q n (nls : list (nat * string)) :
  q ≠ p → findings_at p n (rule_finding r q <$> nls) = 0.
Proof.
  intros Hne. unfold findings_at. induction nls as [|nl nls IH]; [done|].
  cbn [fmap list_fmap List.filter]. rewrite points_at_rule_finding.
  by rewrite (proj2 (String.eqb_neq q p) Hne).
Qed.

Lemma findings_at_entry_other r e p n :
  rel_path e ≠ p → findings_at p n (entry_matches r e) = 0.
Proof.
  intros Hne. unfold entry_matches.
  destruct (scannable e); [|done]. destruct (read_entry e); [|done].
  by apply findings_at_other_path.
Qed.

Lemma findings_at_tree_other r tree p n :
  (∀ e, e ∈ tree → rel_path e ≠ p) →
  findings_at p n (tree ≫= entry_matches r) = 0.
Proof.
  induction tree as [|e tree IH]; intros Hall; [done|].
  rewrite bind_cons, findings_at_app, IH.
  - rewrite findings_at_entry_other; [done|]. apply Hall. left.
  - intros e' He'. apply Hall. by right.
Qed.

Lemma findings_at_tree r tree e n :
  NoDup (rel_path <$> tree) → e ∈ tree →
  findings_at (rel_path e) n (tree ≫= entry_matches r)
  = findings_at (rel_path e) n (entry_matches r e).
Proof.
  induction tree as [|e' tree IH]; intros Hnd Hin.
  - by apply elem_of_nil in Hin.
  - rewrite fmap_cons in Hnd. apply NoDup_cons in Hnd as [Hfresh Hnd].
    rewrite bind_cons, findings_at_app.
    apply elem_of_cons in Hin as [->|Hin].
    + rewrite findings_at_tree_other; [lia|].
      intros e'' He'' Heq. apply Hfresh. rewrite <- Heq.
      apply list_elem_of_fmap. eauto.
    + rewrite IH by done. rewrite findings_at_entry_other; [done|].
      intros Heq. apply Hfresh. rewrite Heq.
      apply list_elem_of_fmap. eauto.
Qed.

Lemma findings_at_below r p (srch : nat * string → bool) k m (lines : list string) :
  m < k →
  findings_at p m (rule_finding r p <$> List.filter srch (enumerate_from k lines)) = 0.
Proof.
  revert k. induction lines as [|l lines IH]; intros k Hlt; [done|].
  cbn [enumerate_from List.filter].
  destruct (srch (k, l)).
  - cbn [fmap list_fmap]. unfold findings_at. cbn [List.filter].
    rewrite points_at_rule_finding. cbn [fst].
    rewrite (proj2 (Nat.eqb_neq k m)) by lia. rewrite andb_false_r.
    apply IH. lia.
  - apply IH. lia.
Qed.

Lemma findings_at_line r p (srch : nat * string → bool) k i (lines : list string) line :
  (∀ a b, srch (a, line) = srch (b, line)) →
  lines !! i = Some line →
  findings_at p (k + i)
    (rule_finding r p <$> List.filter srch (enumerate_from k lines))
  = if srch (k + i, line) then 1 else 0.
Proof.
  intros Hsrch. revert k i. induction lines as [|l lines IH]; intros k i Hi.
  - by rewrite lookup_nil in Hi.
  - cbn [enumerate_from List.filter]. destruct i as [|i].
    + cbn in Hi. injection Hi as ->. rewrite Nat.add_0_r.
      destruct (srch (k, line)).
      * cbn [fmap list_fmap]. unfold findings_at. cbn [List.filter].
        rewrite points_at_rule_finding. cbn [fst].
        rewrite String.eqb_refl, Nat.eqb_refl. cbn [andb length].
        f_equal. apply (findings_at_below r p srch (S k) k lines). lia.
      * apply findings_at_below. lia.
    + cbn in Hi. replace (k + S i) with (S k + i) by lia.
      destruct (srch (k, l)).
      * cbn [fmap list_fmap]. unfold findings_at. cbn [List.filter].
        rewrite points_at_rule_finding. cbn [fst].
        rewrite (proj2 (Nat.eqb_neq k (S k + i))) by lia. rewrite andb_false_r.
        by apply IH.
      * by apply IH.
Qed.

Lemma findings_at_entry r e content i line :
  scannable e = true → read_entry e = ReadOk content →
  PyStr.readlines content !! i = Some line →
  findings_at (rel_path e) (S i) (entry_matches r e)
  = if Re.search (pat_rx (rule_pattern r)) line then 1 else 0.
Proof.
  intros Hscan Hread Hline. unfold entry_matches, enumerate1.
  rewrite Hscan, Hread.
  by rewrite (findings_at_line r (rel_path e) _ 1 i _ line).
Qed.

Lemma findings_at_rules tree (rules : list Rule) e content i line :
  NoDup (rel_path <$> tree) → e ∈ tree → scannable e = true →
  read_entry e = ReadOk content → PyStr.readlines content !! i = Some line →
  findings_at (rel_path e) (S i) (rules ≫= fun r => tree ≫= entry_matches r)
  = matching_rules rules line.
Proof.
  intros Hnd Hin Hscan Hread Hline. unfold matching_rules.
  induction rules as [|r rules IH]; [done|].
  rewrite bind_cons, findings_at_app, IH, findings_at_tree by done.
  cbn [List.filter].
  rewrite (findings_at_entry r e content i line) by done.
  by destruct (Re.search _ line).
Qed.

Lemma apply_rule_root rel content nl (st : Audit.Auditor) (r : Audit.LineRule) :
  Audit.project_root (Audit.apply_rule rel content nl st r) = Audit.project_root st.
Proof. unfold Audit.apply_rule. by destruct (Audit.applies r _ _ _). Qed.

Lemma apply_rule_total rel content nl (st : Audit.Auditor) (r : Audit.LineRule) :
  Audit.total_violations (Audit.violations (Audit.apply_rule rel content nl st r))
  = Audit.total_violations (Audit.violations st)
    + (if Audit.applies r (Audit.abs_path (Audit.project_root st) rel) content nl.2
       then 1 else 0).
Proof.
  unfold Audit.apply_rule. destruct (Audit.applies r _ _ _); [|lia].
  unfold Audit.total_violations. cbn.
  destruct (Audit.bucket r); cbn; rewrite length_app; cbn; lia.
Qed.

Lemma apply_rules_total rel content nl (rules : list Audit.LineRule) (st : Audit.Auditor) :
  Audit.total_violations
    (Audit.violations (foldl (Audit.apply_rule rel content nl) st rules))
  = Audit.total_violations (Audit.violations st)
    + Audit.matching_line_rules rules
        (Audit.abs_path (Audit.project_root st) rel) content nl.2.
Proof.
  unfold Audit.matching_line_rules.
  revert st. induction rules as [|r rules IH]; intros st.
  - cbn. lia.
  - cbn [foldl List.filter]. rewrite IH, apply_rule_total, apply_rule_root.
    destruct (Audit.applies r _ _ _); cbn; lia.
Qed.

(** C6.  No rule stops the others.  In
    [QUANTUM_CERTIFICATE_SECURITY_AUDIT.py], after the rules of a list have
    been scanned over a project, the findings that point at a line of a
    scanned file have grown by the number of rules whose pattern
    [re.search] finds in that line.  In [security_audit.py], one pass of the
    loop body over a line appends as many violations as tests of the body
    hold for the line. *)
Theorem every_matching_rule_reports :
  (∀ tree (rules : list Rule) st e (content : string) (i : nat) (line : string),
      NoDup (rel_path <$> tree) → e ∈ tree → scannable e = true →
      read_entry e = ReadOk content →
      PyStr.readlines content !! i = Some line →
      findings_at (rel_path e) (S i) (findings (scan_rules tree rules st))
      = findings_at (rel_path e) (S i) (findings st) + matching_rules rules line)
  ∧ (∀ (rel content : string) (st : Audit.Auditor) (n : nat) (line : string),
      Audit.total_violations
        (Audit.violations (Audit.scan_line rel content st (n, line)))
      = Audit.total_violations (Audit.violations st)
        + Audit.matching_line_rules Audit.line_rules
            (Audit.abs_path (Audit.project_root st) rel) content line).
Proof.
  split.
  - intros tree rules st e content i line Hnd Hin Hscan Hread Hline.
    rewrite scan_rules_findings, findings_at_app.
    by rewrite (findings_at_rules tree rules e content i line).
  - intros rel content st n line. unfold Audit.scan_line.
    by rewrite apply_rules_total.
Qed.

Lemma every_matching_rule_reports_witness :
  findings_at "src/config.rs" 2 (findings (scan_rules mixed_tree readiness_rules init))
  = 0 + 3.
Proof.
  apply (proj1 every_matching_rule_reports mixed_tree readiness_rules init
               config_entry config_text 1
               ("    let host = localhost; // development mock_server" +:+ newline)).
  - apply (bool_decide_unpack _). vm_compute. exact I.
  - unfold mixed_tree. apply elem_of_cons. right. apply elem_of_cons. right.
    apply elem_of_cons. by left.
  - reflexivity.
  - reflexivity.
  - reflexivity.
Defined.

End NoEarlyExit.

(** ** Evidence of a finding *)
Section Evidence.
Import Quantum Samples.

Lemma len_app (s1 s2 : string) :
  PyStr.len (s1 +:+ s2) = PyStr.len s1 + PyStr.len s2.
Proof.
  unfold PyStr.len. induction s1 as [|c s1 IH]; [done|].
  change (String c s1 +:+ s2) with (String c (s1 +:+ s2)). cbn. by rewrite IH.
Qed.

Lemma len_take (n : nat) (s : string) : PyStr.len (PyStr.take n s) ≤ n.
Proof.
  unfold PyStr.len. revert s. induction n as [|n IH]; intros [|c s]; cbn; try lia.
  specialize (IH s). lia.
Qed.

Lemma lstrip_no_space (s : string) :
  PyStr.has_no_space s = true → PyStr.lstrip s = s.
Proof.
  destruct s as [|c s]; [done|]. cbn. intros Hs.
  apply andb_true_iff in Hs as [Hc _]. apply negb_true_iff in Hc. by rewrite Hc.
Qed.

Lemma rstrip_no_space (s : string) :
  PyStr.has_no_space s = true → PyStr.rstrip s = s.
Proof.
  induction s as [|c s IH]; [done|]. cbn. intros Hs.
  apply andb_true_iff in Hs as [Hc Hs]. apply negb_true_iff in Hc.
  by rewrite Hc, IH.
Qed.

Lemma strip_no_space (s : string) :
  PyStr.has_no_space s = true → PyStr.strip s = s.
Proof.
  intros Hs. unfold PyStr.strip. rewrite lstrip_no_space by done.
  by apply rstrip_no_space.
Qed.

Lemma not_space_not_newline (c : ascii) :
  PyStr.is_space c = false → Ascii.eqb c "010"%char = false.
Proof.
  intros Hc. destruct (Ascii.eqb c "010"%char) eqn:Heq; [|done].
  apply Ascii.eqb_eq in Heq. subst c. by vm_compute in Hc.
Qed.

Lemma readlines_aux_no_space (cur : string → string) (s : string) :
  PyStr.has_no_space s = true →
  PyStr.readlines_aux cur s = if PyStr.is_empty (cur s) then [] else [cur s].
Proof.
  revert cur. induction s as [|c s IH]; intros cur Hs; [done|].
  cbn in Hs. apply andb_true_iff in Hs as [Hc Hs]. apply negb_true_iff in Hc.
  cbn [PyStr.readlines_aux]. rewrite (not_space_not_newline c Hc).
  by rewrite IH.
Qed.

Lemma padding_no_space (n : nat) : PyStr.has_no_space (padding n) = true.
Proof. induction n as [|n IH]; [done|]. cbn [padding PyStr.has_no_space]. by rewrite IH. Qed.

Lemma long_line_no_space (n : nat) : PyStr.has_no_space (long_line n) = true.
Proof. unfold long_line. cbn -[padding]. apply padding_no_space. Qed.

Lemma long_line_len (n : nat) : PyStr.len (long_line n) = 9 + n.
Proof.
  unfold long_line, PyStr.len. cbn -[padding]. do 9 f_equal.
  induction n as [|n IH]; [done|]. cbn. by rewrite IH.
Qed.

Lemma long_line_matches (n : nat) :
  Re.search (pat_rx (rule_pattern localhost_rule)) (long_line n) = true.
Proof. destruct n; reflexivity. Qed.

Lemma long_entry_matches (n : nat) :
  entry_matches localhost_rule (long_entry n)
  = [rule_finding localhost_rule "src/net.rs" (1, long_line n)].
Proof.
  unfold entry_matches.
  change (scannable (long_entry n)) with true.
  change (read_entry (long_entry n)) with (ReadOk (long_line n)).
  unfold PyStr.readlines. rewrite readlines_aux_no_space by apply long_line_no_space.
  change (PyStr.is_empty (long_line n)) with false.
  cbn [enumerate1 enumerate_from List.filter snd].
  by rewrite long_line_matches.
Qed.

End Evidence.

Section EvidenceOfFindings.
Import Quantum Samples.

Lemma enumerate_from_elem {A} (k : nat) (l : list A) (n : nat) (x : A) :
  (n, x) ∈ enumerate_from k l → ∃ i, n = k + i ∧ l !! i = Some x.
Proof.
  revert k. induction l as [|y l IH]; intros k Hin.
  - by apply elem_of_nil in Hin.
  - cbn in Hin. apply elem_of_cons in Hin as [Heq|Hin].
    + injection Heq as -> ->. exists 0. split; [lia | done].
    + destruct (IH (S k) Hin) as (i & -> & Hi). exists (S i). split; [lia | done].
Qed.

Lemma entry_matches_elem (r : Rule) (e : DirEntry) (f : SecurityFinding) :
  f ∈ entry_matches r e →
  ∃ content i line,
    scannable e = true ∧ read_entry e = ReadOk content
    ∧ PyStr.readlines content !! i = Some line
    ∧ Re.search (pat_rx (rule_pattern r)) line = true
    ∧ f = rule_finding r (rel_path e) (S i, line).
Proof.
  unfold entry_matches. intros Hin.
  destruct (scannable e); [|by apply elem_of_nil in Hin].
  destruct (read_entry e) as [content|err]; [|by apply elem_of_nil in Hin].
  apply list_elem_of_fmap in Hin as ([n line] & -> & Hnl).
  apply list_elem_of_In, List.filter_In in Hnl as [Hnl Hsearch].
  apply list_elem_of_In, enumerate_from_elem in Hnl as (i & -> & Hi).
  exists content, i, line. done.
Qed.

Lemma all_violations_append (b : Audit.Bucket) (x v : Audit.Violation)
    (vs : Audit.Violations) :
  v ∈ Audit.all_violations (Audit.append_to b x vs)
  ↔ v ∈ Audit.all_violations vs ∨ v = x.
Proof.
  unfold Audit.all_violations. destruct b; cbn;
    rewrite !elem_of_app, ?list_elem_of_singleton; tauto.
Qed.

Lemma apply_rules_elem rel content nl (rules : list Audit.LineRule)
    (st : Audit.Auditor) (v : Audit.Violation) :
  v ∈ Audit.all_violations
        (Audit.violations (foldl (Audit.apply_rule rel content nl) st rules)) →
  v ∈ Audit.all_violations (Audit.violations st)
  ∨ ∃ r, r ∈ rules
         ∧ Audit.v_type v = Audit.rule_type r
         ∧ Audit.v_code v = Audit.code_of r nl.2
         ∧ Audit.v_file v = rel ∧ Audit.v_line v = nl.1.
Proof.
  revert st. induction rules as [|r rules IH]; intros st Hin; [by left|].
  cbn [foldl] in Hin. apply IH in Hin as [Hin|(r' & Hr' & Hv)].
  - unfold Audit.apply_rule in Hin.
    destruct (Audit.applies r _ _ _); [|by left].
    cbn in Hin. apply all_violations_append in Hin as [Hin| ->]; [by left|].
    right. exists r. split; [left | done].
  - right. exists r'. split; [by right | done].
Qed.

Lemma line_rules_code (r : Audit.LineRule) :
  r ∈ Audit.line_rules →
  (Audit.rule_type r = "HARDCODED_SECRET"
   ∧ ∀ line, Audit.code_of r line = PyStr.take 50 (PyStr.strip line) +:+ "...")
  ∨ (Audit.rule_type r ≠ "HARDCODED_SECRET"
     ∧ ∀ line, Audit.code_of r line = PyStr.strip line).
Proof.
  unfold Audit.line_rules. intros Hin.
  repeat (apply elem_of_cons in Hin as [->|Hin];
          [first [ by left | right; split; [discriminate | done] ] |]).
  by apply elem_of_nil in Hin.
Qed.

(** C8, as the scripts have it.  The evidence of a finding of
    [_scan_for_pattern] is the matched line with the surrounding whitespace
    trimmed, whole: nothing cuts it.  In [security_audit.py] the ['code'] of
    a violation of the line loop is the trimmed line too, except for
    HARDCODED_SECRET, where it is the first 50 characters of the trimmed
    line followed by three dots, 53 characters at most. *)
Theorem evidence_is_trimmed_line :
  (∀ (tree : list DirEntry) (p : Pattern) cat sev descr (st : Auditor)
      (f : SecurityFinding),
      f ∈ findings (_scan_for_pattern tree p cat sev descr st) →
      f ∈ findings st
      ∨ ∃ e content i line,
          e ∈ tree ∧ read_entry e = ReadOk content
          ∧ PyStr.readlines content !! i = Some line
          ∧ Re.search (pat_rx p) line = true
          ∧ file_path f = rel_path e ∧ line_number f = S i
          ∧ evidence f = PyStr.strip line
          ∧ PyStr.len (evidence f) = PyStr.len (PyStr.strip line))
  ∧ (∀ (rel content : string) (st : Audit.Auditor) (n : nat) (line : string)
       (v : Audit.Violation),
      v ∈ Audit.all_violations
            (Audit.violations (Audit.scan_line rel content st (n, line))) →
      v ∈ Audit.all_violations (Audit.violations st)
      ∨ (Audit.v_type v ≠ "HARDCODED_SECRET"
         ∧ Audit.v_code v = PyStr.strip line)
      ∨ (Audit.v_type v = "HARDCODED_SECRET"
         ∧ Audit.v_code v = PyStr.take 50 (PyStr.strip line) +:+ "..."
         ∧ PyStr.len (Audit.v_code v) ≤ 53)).
Proof.
  split.
  - intros tree p cat sev descr st f Hin.
    change (_scan_for_pattern tree p cat sev descr st)
      with (scan_rule tree st (mkRule p cat sev descr)) in Hin.
    rewrite scan_rule_findings in Hin.
    apply elem_of_app in Hin as [Hin|Hin]; [by left|]. right.
    apply list_elem_of_bind in Hin as (e & Hf & He).
    apply entry_matches_elem in Hf as (content & i & line & _ & Hr & Hl & Hs & ->).
    exists e, content, i, line. cbn. done.
  - intros rel content st n line v Hin. unfold Audit.scan_line in Hin.
    apply apply_rules_elem in Hin as [Hin|(r & Hr & Hty & Hcode & _)]; [by left|].
    right. cbn in Hcode.
    destruct (line_rules_code r Hr) as [[Hsec Hc]|[Hother Hc]].
    + right. rewrite Hty, Hcode, Hc. split; [done|]. split; [done|].
      rewrite len_app. pose proof (len_take 50 (PyStr.strip line)).
      change (PyStr.len "...") with 3. lia.
    + left. rewrite Hty, Hcode, Hc. done.
Qed.

Lemma evidence_is_trimmed_line_witness :
  let f := rule_finding localhost_rule "src/config.rs"
             (2, "    let host = localhost; // development mock_server" +:+ newline) in
  f ∈ findings init
  ∨ ∃ e content i line,
      e ∈ mixed_tree ∧ read_entry e = ReadOk content
      ∧ PyStr.readlines content !! i = Some line
      ∧ Re.search (Re.lit true "localhost") line = true
      ∧ file_path f = rel_path e ∧ line_number f = S i
      ∧ evidence f = PyStr.strip line
      ∧ PyStr.len (evidence f) = PyStr.len (PyStr.strip line).
Proof.
  apply (proj1 evidence_is_trimmed_line mixed_tree (plain "localhost" "localhost")
               PRODUCTION_READINESS HIGH "Test data in production code" init).
  vm_compute. apply list_elem_of_singleton. reflexivity.
Defined.

(** C8 fails as stated: no length bounds the evidence of the findings of
    [_scan_for_pattern].  For every bound a source line that holds
    [localhost] and is longer than the bound gives a finding whose
    evidence is the whole line. *)
Lemma evidence_is_not_bounded :
  ¬ ∃ bound : nat,
      ∀ (tree : list DirEntry) (f : SecurityFinding),
        f ∈ findings (_scan_for_pattern tree (plain "localhost" "localhost")
                        PRODUCTION_READINESS HIGH
                        "Test data in production code" init) →
        PyStr.len (evidence f) ≤ bound.
Proof.
  intros [bound Hbound].
  pose (f := rule_finding localhost_rule "src/net.rs" (1, long_line bound)).
  assert (PyStr.len (evidence f) ≤ bound) as Hle.
  { apply (Hbound [long_entry bound]).
    change (_scan_for_pattern [long_entry bound] (plain "localhost" "localhost")
              PRODUCTION_READINESS HIGH "Test data in production code" init)
      with (scan_rule [long_entry bound] init localhost_rule).
    rewrite scan_rule_findings. cbn [findings init app].
    rewrite bind_cons, long_entry_matches. cbn. by left. }
  subst f. cbn [evidence rule_finding pattern_finding snd] in Hle.
  rewrite strip_no_space, long_line_len in Hle by apply long_line_no_space.
  lia.
Qed.

End EvidenceOfFindings.

(** * Further properties of the scripts *)

(** ** The report of [QUANTUM_CERTIFICATE_SECURITY_AUDIT.py] *)
Section QuantumReport.
Import Quantum Outcome.
Implicit Types (st : Auditor) (fs : list SecurityFinding).

Lemma count_key_zero {A K} `{EqDecision K} (key : A → K) (k : K) (l : list A) :
  length (List.filter (fun x => bool_decide (key x = k)) l) = 0
  ↔ ∀ x, x ∈ l → key x ≠ k.
Proof.
  induction l as [|x l IH]; cbn.
  - split; [|done]. intros _ y Hy. by apply elem_of_nil in Hy.
  - case_bool_decide as Hk; cbn.
    + split; [lia|]. intros Hall. exfalso. apply (Hall x); [left | done].
    + rewrite IH. split.
      * intros Hall y Hy. apply elem_of_cons in Hy as [->|Hy]; [done | by apply Hall].
      * intros Hall y Hy. apply Hall. by right.
Qed.

Lemma category_value_inj (c1 c2 : SecurityCategory) :
  category_value c1 = category_value c2 → c1 = c2.
Proof. destruct c1, c2; cbn; intros Heq; congruence. Qed.

Lemma category_value_key (c : SecurityCategory) :
  category_value c ∈ category_value <$> all_categories.
Proof. apply list_elem_of_fmap. exists c. split; [done|]. destruct c; set_solver. Qed.

(** The severity histogram of a report holds, under each severity, the
    number of findings of that severity; the two counts of the executive
    summary are its CRITICAL and HIGH entries; no other key is present. *)
Theorem severity_histogram_entries st :
  let r := generate_security_report st in
  (∀ s, findings_by_severity r !! severity_value s
        = Some (count_severity s (findings st)))
  ∧ critical_findings (executive_summary r) = count_severity CRITICAL (findings st)
  ∧ high_findings (executive_summary r) = count_severity HIGH (findings st)
  ∧ (∀ k, is_Some (findings_by_severity r !! k) → ∃ s, k = severity_value s).
Proof.
  cbv zeta. unfold generate_security_report.
  cbn [findings_by_severity executive_summary summarize critical_findings high_findings].
  unfold critical_count_of, high_count_of. rewrite !severity_counts_lookup.
  split; [|split; [done|split; [done|]]].
  - intros s. destruct (severity_counts_key (findings st) s) as [n Hn].
    rewrite Hn. f_equal. rewrite <- severity_counts_lookup.
    by rewrite (lookup_total_correct _ _ _ Hn).
  - intros k Hk. unfold severity_counts in Hk.
    destruct (decide (k ∈ severity_value <$> all_severities)) as [Hin|Hout].
    + apply list_elem_of_fmap in Hin as (s & -> & _). by exists s.
    + exfalso. revert Hk. generalize (findings st). intros fs.
      assert (∀ d : gmap string nat, d !! k = None →
                tally (fun f => severity_value (severity f)) d fs !! k = None) as Hnone.
      { induction fs as [|f fs IH]; intros d Hd; [done|].
        rewrite tally_cons. apply IH. unfold dict_incr.
        rewrite lookup_insert_ne; [done|]. intros <-. apply Hout, severity_value_key. }
      intros [n Hn]. rewrite Hnone in Hn; [done|].
      unfold zero_counts. apply not_elem_of_list_to_map.
      rewrite <- list_fmap_compose. intros Hin. apply Hout.
      apply list_elem_of_fmap in Hin as (s & -> & Hs). exact Hs.
Qed.

(** The category histogram of a report holds, under each category, the
    number of findings of that category, and its values add up to the number
    of findings. *)
Theorem category_histogram_counts st :
  let r := generate_security_report st in
  (∀ c, findings_by_category r !! category_value c
        = Some (count_category c (findings st)))
  ∧ sum_values (findings_by_category r) = total_findings (executive_summary r).
Proof.
  cbv zeta. unfold generate_security_report.
  cbn [findings_by_category executive_summary summarize total_findings].
  unfold category_counts. split.
  - intros c.
    destruct (tally_is_Some (fun f => category_value (category f))
                (zero_counts (category_value <$> all_categories)) (findings st)
                (category_value c)) as [n Hn].
    { rewrite zero_counts_lookup; [eauto | apply category_value_key]. }
    rewrite Hn. f_equal. rewrite <- (lookup_total_correct _ _ _ Hn).
    rewrite tally_lookup.
    rewrite (lookup_total_correct _ _ 0)
      by (apply zero_counts_lookup, category_value_key).
    cbn. unfold count_category. f_equal. apply List.filter_ext. intros f.
    apply bool_decide_ext. split; [apply category_value_inj | by intros ->].
  - rewrite tally_sum.
    + by rewrite sum_values_zero_counts.
    + intros f _. rewrite zero_counts_lookup; [eauto | apply category_value_key].
Qed.

(** The recommendation of a report is fixed by its status, and the fourth
    answer of [_get_deployment_recommendation], FURTHER REVIEW REQUIRED, is
    never given: the flag passed in is false only when a count is positive. *)
Theorem recommendation_follows_status st :
  let s := executive_summary (generate_security_report st) in
  ((summary_status s = "CRITICAL_VULNERABILITIES_FOUND"
    ∧ recommendation s
      = "DEPLOYMENT BLOCKED - Critical security vulnerabilities must be resolved")
   ∨ (summary_status s = "HIGH_RISK_VULNERABILITIES_FOUND"
      ∧ recommendation s
        = "DEPLOYMENT AT RISK - High severity vulnerabilities should be resolved")
   ∨ (summary_status s = "ACCEPTABLE_RISK_LEVEL"
      ∧ production_ready s = true
      ∧ recommendation s = "DEPLOYMENT APPROVED - Security requirements met"))
  ∧ recommendation s
    ≠ "FURTHER REVIEW REQUIRED - Additional security analysis needed".
Proof.
  destruct (summary_of_counts st) as (Hs & Hp & Hr). cbv zeta in *.
  rewrite Hs, Hp, Hr.
  unfold security_status, production_ready_of, _get_deployment_recommendation.
  destruct (count_severity CRITICAL (findings st)) as [|c],
           (count_severity HIGH (findings st)) as [|h]; cbn;
    (split; [ first [ left; done | right; left; done | right; right; done ]
            | discriminate ]).
Qed.

(** The remediation list mirrors the verdict: it is empty exactly when the
    report is production ready, it names priority 1 exactly when there are
    CRITICAL findings and priority 2 exactly when there are HIGH findings, in
    that order, and its counts add up to the two counts of the summary. *)
Theorem priorities_mirror_verdict st :
  let r := generate_security_report st in
  let c := critical_findings (executive_summary r) in
  let h := high_findings (executive_summary r) in
  priority <$> remediation_priority r
  = (if 0 <? c then [1] else []) ++ (if 0 <? h then [2] else [])
  ∧ count <$> remediation_priority r
    = (if 0 <? c then [c] else []) ++ (if 0 <? h then [h] else [])
  ∧ (remediation_priority r = [] ↔ production_ready (executive_summary r) = true).
Proof.
  cbv zeta. unfold generate_security_report.
  cbn [remediation_priority executive_summary summarize critical_findings
       high_findings production_ready].
  unfold critical_count_of, high_count_of. rewrite !severity_counts_lookup.
  unfold _get_remediation_priorities, count_severity, production_ready_of.
  destruct (List.filter (has_severity CRITICAL) (findings st)) as [|f1 l1],
           (List.filter (has_severity HIGH) (findings st)) as [|f2 l2];
    cbn; repeat split; intros; done.
Qed.

End QuantumReport.

(** ** Substrings and lines *)
Section Lines.
Import Outcome.
Implicit Types (s sub : string) (c : ascii).

Lemma split_nl_aux_cur (cur : string → string) s :
  PyStr.split_nl_aux cur s
  = match PyStr.split_nl_aux (fun t => t) s with
    | l :: ls => cur l :: ls
    | [] => []
    end.
Proof.
  revert cur. induction s as [|c s IH]; intros cur; [done|].
  cbn [PyStr.split_nl_aux]. destruct (Ascii.eqb c "010"); [done|].
  rewrite (IH (fun t => cur (String c t))), (IH (fun t => String c t)).
  by destruct (PyStr.split_nl_aux (fun t => t) s).
Qed.

Lemma split_nl_cons c s :
  PyStr.split_nl (String c s)
  = if Ascii.eqb c "010" then EmptyString :: PyStr.split_nl s
    else match PyStr.split_nl s with
         | l :: ls => String c l :: ls
         | [] => []
         end.
Proof.
  unfold PyStr.split_nl. cbn [PyStr.split_nl_aux].
  destruct (Ascii.eqb c "010"); [done|]. apply split_nl_aux_cur.
Qed.

Lemma split_nl_nonempty s : ∃ l ls, PyStr.split_nl s = l :: ls.
Proof.
  induction s as [|c s (l & ls & IH)]; [by exists EmptyString, []|].
  rewrite split_nl_cons, IH. destruct (Ascii.eqb c "010"); eauto.
Qed.

Lemma split_nl_length s : 1 ≤ length (PyStr.split_nl s).
Proof. destruct (split_nl_nonempty s) as (l & ls & ->). cbn. lia. Qed.

Lemma startswith_contains sub s :
  PyStr.startswith sub s = true → PyStr.contains sub s = true.
Proof. intros H. destruct s; cbn; by rewrite H. Qed.

Lemma contains_cons sub c s :
  PyStr.contains sub s = true → PyStr.contains sub (String c s) = true.
Proof. intros H. cbn. rewrite H. by destruct (PyStr.startswith sub (String c s)). Qed.

Lemma startswith_trans s1 s2 s3 :
  PyStr.startswith s1 s2 = true → PyStr.startswith s2 s3 = true →
  PyStr.startswith s1 s3 = true.
Proof.
  revert s2 s3. induction s1 as [|a s1 IH]; intros [|b s2] [|c s3]; cbn; try done.
  destruct (Ascii.eqb a b) eqn:Hab; [|done].
  destruct (Ascii.eqb b c) eqn:Hbc; [|done].
  apply Ascii.eqb_eq in Hab, Hbc. subst. rewrite Ascii.eqb_refl. apply IH.
Qed.

Lemma contains_of_prefix sub s2 s3 :
  PyStr.contains sub s2 = true → PyStr.startswith s2 s3 = true →
  PyStr.contains sub s3 = true.
Proof.
  revert s3. induction s2 as [|b s2 IH]; intros s3 Hc Hp.
  - cbn in Hc. destruct sub; [|done]. by destruct s3.
  - cbn [PyStr.contains] in Hc.
    destruct (PyStr.startswith sub (String b s2)) eqn:Hs.
    + apply startswith_contains. by apply (startswith_trans _ (String b s2)).
    + destruct s3 as [|c s3]; [done|]. cbn in Hp.
      destruct (Ascii.eqb b c); [|done].
      apply contains_cons. by apply IH.
Qed.

(** [a in b] and [b in s] give [a in s]. *)
Lemma contains_trans sub s2 s3 :
  PyStr.contains sub s2 = true → PyStr.contains s2 s3 = true →
  PyStr.contains sub s3 = true.
Proof.
  intros Ha. induction s3 as [|c s3 IH]; intros Hb; cbn [PyStr.contains] in Hb.
  - destruct (PyStr.startswith s2 EmptyString) eqn:Hs; [|done].
    by apply (contains_of_prefix sub s2).
  - destruct (PyStr.startswith s2 (String c s3)) eqn:Hs.
    + by apply (contains_of_prefix sub s2).
    + apply contains_cons. by apply IH.
Qed.

Lemma startswith_first_line sub s :
  has_no_newline sub = true → PyStr.startswith sub s = true →
  ∃ l ls, PyStr.split_nl s = l :: ls ∧ PyStr.startswith sub l = true.
Proof.
  revert s. induction sub as [|a sub IH]; intros s Hnl Hp.
  - destruct (split_nl_nonempty s) as (l & ls & ->). by exists l, ls.
  - destruct s as [|b s]; [done|]. cbn in Hp, Hnl.
    destruct (Ascii.eqb a b) eqn:Hab; [|done]. apply Ascii.eqb_eq in Hab. subst b.
    apply andb_true_iff in Hnl as [Ha Hnl]. apply negb_true_iff in Ha.
    destruct (IH s Hnl Hp) as (l & ls & Hsplit & Hl).
    rewrite split_nl_cons, Ha, Hsplit. exists (String a l), ls.
    split; [done|]. cbn. by rewrite Ascii.eqb_refl.
Qed.

(** A text that holds a marker without newline holds it within one of its
    lines. *)
Lemma contains_in_a_line sub s :
  has_no_newline sub = true → PyStr.contains sub s = true →
  ∃ l, l ∈ PyStr.split_nl s ∧ PyStr.contains sub l = true.
Proof.
  intros Hnl. induction s as [|c s IH]; cbn [PyStr.contains]; intros Hc.
  - destruct (PyStr.startswith sub EmptyString) eqn:Hs; [|done].
    destruct (startswith_first_line sub EmptyString Hnl Hs) as (l & ls & Hsplit & Hl).
    exists l. rewrite Hsplit. split; [left | by apply startswith_contains].
  - destruct (PyStr.startswith sub (String c s)) eqn:Hs.
    + destruct (startswith_first_line sub _ Hnl Hs) as (l & ls & Hsplit & Hl).
      exists l. rewrite Hsplit. split; [left | by apply startswith_contains].
    + destruct (IH Hc) as (l & Hin & Hl). rewrite split_nl_cons.
      destruct (Ascii.eqb c "010").
      * exists l. split; [by right | done].
      * destruct (PyStr.split_nl s) as [|l0 ls]; [by apply elem_of_nil in Hin|].
        apply elem_of_cons in Hin as [->|Hin].
        -- exists (String c l0). split; [left | by apply contains_cons].
        -- exists l. split; [by right | done].
Qed.

Lemma first_line_from_range (p : string → bool) (k : nat) (lines : list string) :
  let n := Quantum.first_line_from p k lines in
  1 ≤ k → n = 0 ∨ (k ≤ n < k + length lines
                   ∧ ∃ l, lines !! (n - k) = Some l ∧ p l = true).
Proof.
  cbv zeta. revert k. induction lines as [|l lines IH]; intros k Hk; [by left|].
  cbn [Quantum.first_line_from]. destruct (p l) eqn:Hp.
  - right. split; [cbn; lia|]. exists l. by rewrite Nat.sub_diag.
  - destruct (IH (S k)) as [H0|(Hr & l' & Hl' & Hpl)]; [lia | by left |].
    right. split; [cbn; lia|]. exists l'. split; [|done].
    replace (Quantum.first_line_from p (S k) lines - k)
      with (S (Quantum.first_line_from p (S k) lines - S k)) by lia.
    done.
Qed.

Lemma first_line_from_found (p : string → bool) (k : nat) (lines : list string) l :
  l ∈ lines → p l = true → 1 ≤ k → Quantum.first_line_from p k lines ≠ 0.
Proof.
  revert k. induction lines as [|l0 lines IH]; intros k Hin Hp Hk.
  - by apply elem_of_nil in Hin.
  - cbn [Quantum.first_line_from]. destruct (p l0) eqn:Hp0; [lia|].
    apply elem_of_cons in Hin as [->|Hin]; [congruence|].
    apply IH; [done | done | lia].
Qed.

(** The idiom [next((i for i, line in enumerate(lines, 1) if p(line)), 0)]
    gives 0 exactly when no line satisfies [p], and otherwise the number of
    a line that does. *)
Lemma first_line_range (p : string → bool) (lines : list string) :
  let n := Quantum.first_line p lines in
  n = 0 ∨ (1 ≤ n ≤ length lines
           ∧ ∃ l, lines !! (n - 1) = Some l ∧ p l = true).
Proof.
  cbv zeta. unfold Quantum.first_line.
  destruct (first_line_from_range p 1 lines) as [H|(Hr & Hl)]; [lia | by left |].
  right. split; [lia | done].
Qed.

Lemma first_line_of_marker (marker content : string) :
  has_no_newline marker = true → PyStr.contains marker content = true →
  let lines := PyStr.split_nl content in
  let n := Quantum.first_line (PyStr.contains marker) lines in
  1 ≤ n ≤ length lines
  ∧ PyStr.contains marker (Quantum.line_at lines n) = true.
Proof.
  intros Hnl Hc. cbv zeta.
  destruct (contains_in_a_line marker content Hnl Hc) as (l & Hin & Hl).
  destruct (first_line_range (PyStr.contains marker) (PyStr.split_nl content))
    as [H0|(Hr & l' & Hl' & Hp)].
  - exfalso. revert H0. unfold Quantum.first_line.
    by apply (first_line_from_found _ _ _ l).
  - split; [done|]. unfold Quantum.line_at.
    rewrite (proj2 (Nat.ltb_lt 0 _)) by lia.
    by rewrite (nth_lookup_Some _ _ _ _ Hl').
Qed.

End Lines.

(** ** The statistics of the pattern scans *)
Section ScanStatistics.
Import Quantum Outcome.
Implicit Types (st : Auditor) (e : DirEntry) (r : Rule) (tree : list DirEntry).

Lemma scan_line_stats (p : Pattern) cat sev descr path st (nl : nat * string) :
  let st' := scan_line p cat sev descr path st nl in
  stats st' !!! "vulnerabilities_found"
  = stats st !!! "vulnerabilities_found"
    + (if Re.search (pat_rx p) nl.2 then 1 else 0)
  ∧ ∀ k, k ≠ "vulnerabilities_found" → stats st' !! k = stats st !! k.
Proof.
  cbv zeta. unfold scan_line. destruct (Re.search _ nl.2).
  - cbn [stats incr_stat add_finding]. rewrite dict_incr_lookup_eq.
    split; [lia|]. intros k Hne. unfold dict_incr. by rewrite lookup_insert_ne.
  - split; [lia | done].
Qed.

Lemma scan_lines_stats r path st (nls : list (nat * string)) :
  let st' := foldl (scan_line (rule_pattern r) (rule_category r) (rule_severity r)
                              (rule_description r) path) st nls in
  stats st' !!! "vulnerabilities_found"
  = stats st !!! "vulnerabilities_found"
    + length (List.filter (fun nl => Re.search (pat_rx (rule_pattern r)) nl.2) nls)
  ∧ ∀ k, k ≠ "vulnerabilities_found" → stats st' !! k = stats st !! k.
Proof.
  cbv zeta. revert st. induction nls as [|nl nls IH]; intros st.
  - cbn. split; [lia | done].
  - cbn [foldl List.filter].
    destruct (IH (scan_line (rule_pattern r) (rule_category r)
        (rule_severity r) (rule_description r) path st nl)) as [Hf Hk].
    destruct (scan_line_stats (rule_pattern r) (rule_category r)
        (rule_severity r) (rule_description r) path st nl) as [Hf1 Hk1].
    rewrite Hf, Hf1. split.
    + destruct (Re.search _ nl.2); cbn [length]; lia.
    + intros k Hne. by rewrite Hk, Hk1.
Qed.

Lemma scan_entry_stats r st e :
  let st' := scan_entry (rule_pattern r) (rule_category r) (rule_severity r)
                        (rule_description r) st e in
  stats st' !!! "vulnerabilities_found" = stats st !!! "vulnerabilities_found" + length (entry_matches r e)
  ∧ (∀ k, k ≠ "vulnerabilities_found" → stats st' !! k = stats st !! k)
  ∧ console st' = console st.
Proof.
  cbv zeta. unfold scan_entry, entry_matches.
  destruct (scannable e); [|cbn; split; [lia | done]].
  destruct (read_entry e); [|cbn; split; [lia | done]].
  rewrite length_fmap, scan_lines_console.
  destruct (scan_lines_stats r (rel_path e) st
              (enumerate1 (PyStr.readlines content))) as [Hf Hk].
  done.
Qed.

Lemma scan_rule_stats tree st r :
  let st' := scan_rule tree st r in
  stats st' !!! "vulnerabilities_found" = stats st !!! "vulnerabilities_found" + length (tree ≫= entry_matches r)
  ∧ (∀ k, k ≠ "vulnerabilities_found" → stats st' !! k = stats st !! k)
  ∧ console st' = console st.
Proof.
  cbv zeta. unfold scan_rule, _scan_for_pattern.
  revert st. induction tree as [|e tree IH]; intros st.
  - cbn. split; [lia | done].
  - cbn [foldl]. rewrite bind_cons, length_app.
    destruct (IH (scan_entry (rule_pattern r) (rule_category r) (rule_severity r)
                             (rule_description r) st e)) as (Hf & Hk & Hc).
    destruct (scan_entry_stats r st e) as (Hf' & Hk' & Hc').
    rewrite Hf, Hf', Hc, Hc'. split; [lia|]. split; [|done].
    intros k Hne. by rewrite Hk, Hk'.
Qed.

Lemma scan_rules_stats tree (rules : list Rule) st :
  let st' := scan_rules tree rules st in
  stats st' !!! "vulnerabilities_found"
  = stats st !!! "vulnerabilities_found" + length (rules ≫= fun r => tree ≫= entry_matches r)
  ∧ (∀ k, k ≠ "vulnerabilities_found" → stats st' !! k = stats st !! k)
  ∧ console st' = console st.
Proof.
  cbv zeta. unfold scan_rules.
  revert st. induction rules as [|r rules IH]; intros st.
  - cbn. split; [lia | done].
  - cbn [foldl]. rewrite bind_cons, length_app.
    destruct (IH (scan_rule tree st r)) as (Hf & Hk & Hc).
    destruct (scan_rule_stats tree st r) as (Hf' & Hk' & Hc').
    rewrite Hf, Hf', Hc, Hc'. split; [lia|]. split; [|done].
    intros k Hne. by rewrite Hk, Hk'.
Qed.

Lemma entry_matches_from_scan r e :
  Forall (fun f => from_pattern_scan f = true) (entry_matches r e).
Proof.
  apply Forall_forall. intros f Hf.
  apply entry_matches_elem in Hf as (content & i & line & _ & _ & _ & _ & ->).
  reflexivity.
Qed.

Lemma scan_rules_new_from_scan tree (rules : list Rule) :
  Forall (fun f => from_pattern_scan f = true)
         (rules ≫= fun r => tree ≫= entry_matches r).
Proof.
  apply Forall_forall. intros f Hf.
  apply list_elem_of_bind in Hf as (r & Hf & _).
  apply list_elem_of_bind in Hf as (e & Hf & _).
  by apply (proj1 (Forall_forall _ _) (entry_matches_from_scan r e)).
Qed.

(** A pattern scan keeps its counter in step with the findings: the
    [vulnerabilities_found] statistic grows by exactly the number of findings
    the scan appends; the findings there were stay in place, no other
    statistic moves and nothing is printed. *)
Theorem scan_counts_what_it_finds tree (rules : list Rule) st :
  let st' := scan_rules tree rules st in
  (∃ new, findings st' = findings st ++ new
          ∧ stats st' !!! "vulnerabilities_found" = stats st !!! "vulnerabilities_found" + length new)
  ∧ (∀ k, k ≠ "vulnerabilities_found" → stats st' !! k = stats st !! k)
  ∧ console st' = console st.
Proof.
  cbv zeta. destruct (scan_rules_stats tree rules st) as (Hf & Hk & Hc).
  split; [|done].
  exists (rules ≫= fun r => tree ≫= entry_matches r).
  split; [apply scan_rules_findings | done].
Qed.

(** Every finding a pattern scan appends is a copy of its rule: it carries
    the category, the severity and the title of the rule, the fixed impact
    and remediation texts, and it points at a line of a regular file with
    one of the five scanned suffixes. *)
Theorem scan_findings_copy_their_rule tree (rules : list Rule) st
    (f : SecurityFinding) :
  f ∈ findings (scan_rules tree rules st) →
  f ∈ findings st
  ∨ ∃ r e content,
      r ∈ rules ∧ e ∈ tree
      ∧ is_file e = true
      ∧ path_suffix (rel_path e) ∈ scanned_suffixes
      ∧ read_entry e = ReadOk content
      ∧ file_path f = rel_path e
      ∧ 1 ≤ line_number f ≤ length (PyStr.readlines content)
      ∧ category f = rule_category r
      ∧ severity f = rule_severity r
      ∧ title f = rule_description r
      ∧ impact f = "Potential security vulnerability"
      ∧ remediation f = "Review and fix identified security issue"
      ∧ cve_reference f = None.
Proof.
  rewrite scan_rules_findings. intros Hin.
  apply elem_of_app in Hin as [Hin|Hin]; [by left|]. right.
  apply list_elem_of_bind in Hin as (r & Hin & Hr).
  apply list_elem_of_bind in Hin as (e & Hin & He).
  apply entry_matches_elem in Hin as (content & i & line & Hscan & Hread & Hline & _ & ->).
  exists r, e, content. unfold scannable in Hscan.
  apply andb_true_iff in Hscan as [Hfile Hsuf].
  apply lookup_lt_Some in Hline.
  repeat split; try done; cbn; try lia.
  unfold str_in in Hsuf. apply existsb_exists in Hsuf as (x & Hx & Heq).
  apply String.eqb_eq in Heq. subst x. by apply list_elem_of_In.
Qed.

Lemma scan_findings_copy_their_rule_witness :
  let f := rule_finding Samples.localhost_rule "src/config.rs"
             (2, "    let host = localhost; // development mock_server" +:+ Samples.newline) in
  f ∈ findings init
  ∨ ∃ r e content,
      r ∈ [Samples.localhost_rule] ∧ e ∈ Samples.mixed_tree
      ∧ is_file e = true
      ∧ path_suffix (rel_path e) ∈ scanned_suffixes
      ∧ read_entry e = ReadOk content
      ∧ file_path f = rel_path e
      ∧ 1 ≤ line_number f ≤ length (PyStr.readlines content)
      ∧ category f = rule_category r
      ∧ severity f = rule_severity r
      ∧ title f = rule_description r
      ∧ impact f = "Potential security vulnerability"
      ∧ remediation f = "Review and fix identified security issue"
      ∧ cve_reference f = None.
Proof.
  apply (scan_findings_copy_their_rule Samples.mixed_tree [Samples.localhost_rule] init).
  vm_compute. apply list_elem_of_singleton. reflexivity.
Defined.

End ScanStatistics.

(** ** The file checks of [_audit_file] *)
Section FileChecks.
Import Quantum Outcome.
Implicit Types (st : Auditor) (f : SecurityFinding) (tree : list DirEntry).

Lemma check_adds_refl ok st : check_adds ok st st.
Proof. repeat split. exists []. by rewrite app_nil_r. Qed.

Lemma check_adds_trans ok st1 st2 st3 :
  check_adds ok st1 st2 → check_adds ok st2 st3 → check_adds ok st1 st3.
Proof.
  intros (Hs1 & Hc1 & n1 & Hf1 & Ho1) (Hs2 & Hc2 & n2 & Hf2 & Ho2).
  split; [congruence|]. split; [congruence|].
  exists (n1 ++ n2). split; [by rewrite Hf2, Hf1, app_assoc | by apply Forall_app].
Qed.

Lemma check_adds_if (ok : SecurityFinding → Prop) st st1 (c : bool) f :
  check_adds ok st st1 → (c = true → ok f) →
  check_adds ok st (if c then add_finding f st1 else st1).
Proof.
  intros H1 Hok. destruct c; [|done].
  apply (check_adds_trans ok st st1); [done|].
  repeat split. exists [f]. split; [done|]. constructor; [by apply Hok | constructor].
Qed.

Lemma ok_of_marker path content marker f :
  has_no_newline marker = true → PyStr.contains marker content = true →
  file_path f = path →
  line_number f = first_line (PyStr.contains marker) (PyStr.split_nl content) →
  from_pattern_scan f = false →
  check_finding_ok path (PyStr.split_nl content) f.
Proof.
  intros Hnl Hc Hp Hn Hs. split; [done|]. split; [|done]. rewrite Hn.
  apply (first_line_of_marker marker content Hnl Hc).
Qed.

Lemma quantum_check_adds path content st :
  check_adds (check_finding_ok path (PyStr.split_nl content)) st
    (_check_quantum_security path content (PyStr.split_nl content) st).
Proof.
  unfold _check_quantum_security. cbv zeta.
  apply check_adds_if; [|intros Hc; by apply (ok_of_marker _ _ "simulate_falcon_validation")].
  match goal with
  | |- check_adds _ _ (if ?c then (if ?d then add_finding ?f ?s1 else _) else _) =>
      apply (check_adds_trans _ _ s1)
  end.
  - apply check_adds_if; [apply check_adds_refl|]. intros Hc.
    apply andb_true_iff in Hc as [_ Hc].
    by apply (ok_of_marker _ _ "nist_level: u8").
  - destruct (PyStr.contains "entropy_quality: f64" content); [|apply check_adds_refl].
    apply check_adds_if; [apply check_adds_refl|]. intros _.
    split; [done|]. split; [|done]. cbn. pose proof (split_nl_length content). lia.
Qed.

Lemma certificate_check_adds path content st :
  check_adds (check_finding_ok path (PyStr.split_nl content)) st
    (_check_certificate_security path content (PyStr.split_nl content) st).
Proof.
  unfold _check_certificate_security. cbv zeta.
  match goal with
  | |- check_adds _ _ (if ?c then (if ?d then add_finding ?f ?s2 else _) else _) =>
      apply (check_adds_trans _ _ s2)
  end.
  - apply check_adds_if.
    + apply check_adds_if; [apply check_adds_refl|]. intros Hc.
      apply (ok_of_marker _ _ "mock_"); try done.
      apply orb_true_iff in Hc as [Hc|Hc];
        [apply (contains_trans _ "mock_public_key") | apply (contains_trans _ "mock_signature")];
        done.
    + intros Hc. apply (ok_of_marker _ _ "permissive"); try done.
      by apply (contains_trans _ "certificate_validation: 'permissive'").
  - destruct (PyStr.contains "Ok(())" content && PyStr.contains "store_entry" content);
      [|apply check_adds_refl].
    apply check_adds_if; [apply check_adds_refl|]. intros Hpos.
    apply Nat.ltb_lt in Hpos. split; [done|]. split; [|done]. cbn [line_number].
    match goal with
    | |- _ ≤ first_line ?p ?l ≤ _ =>
        destruct (first_line_range p l) as [H0|[Hr _]]; [lia | exact Hr]
    end.
Qed.

Lemma consensus_check_adds path content st :
  check_adds (check_finding_ok path (PyStr.split_nl content)) st
    (_check_consensus_security path content (PyStr.split_nl content) st).
Proof.
  unfold _check_consensus_security. cbv zeta.
  apply check_adds_if.
  - apply check_adds_if; [apply check_adds_refl|]. intros Hc.
    by apply (ok_of_marker _ _ "Ok(ConsensusResult::Valid)").
  - intros Hc. apply andb_true_iff in Hc as [_ Hc].
    by apply (ok_of_marker _ _ "Placeholder").
Qed.

Lemma api_check_adds path content st :
  check_adds (check_finding_ok path (PyStr.split_nl content)) st
    (_check_api_security path content (PyStr.split_nl content) st).
Proof.
  unfold _check_api_security. cbv zeta.
  apply check_adds_if.
  - apply check_adds_if; [apply check_adds_refl|]. intros Hc.
    apply andb_true_iff in Hc as [Hc _]. apply andb_true_iff in Hc as [_ Hc].
    by apply (ok_of_marker _ _ "fetch(").
  - intros Hc. by apply (ok_of_marker _ _ "dangerouslySetInnerHTML").
Qed.

Lemma file_checks_add (check : Check) path content st :
  check ∈ file_checks →
  check_adds (check_finding_ok path (PyStr.split_nl content)) st
    (check path content (PyStr.split_nl content) st).
Proof.
  unfold file_checks. intros Hin.
  repeat (apply elem_of_cons in Hin as [->|Hin];
          [first [ apply quantum_check_adds | apply certificate_check_adds
                 | apply consensus_check_adds | apply api_check_adds ] |]).
  by apply elem_of_nil in Hin.
Qed.

(** The four checks [_audit_file] runs only append findings; every such
    finding names the checked file and a line of it, from 1
    to the number of lines: the line number 0 and the empty evidence that the
    code provides for a marker found in the text but in no line never occur.
    Statistics and console are left alone. *)
Theorem file_checks_point_into_the_file :
  Forall (fun check : Check =>
    ∀ (path content : string) st,
      let lines := PyStr.split_nl content in
      let st' := check path content lines st in
      stats st' = stats st ∧ console st' = console st
      ∧ ∃ new, findings st' = findings st ++ new
               ∧ Forall (fun f => file_path f = path
                                  ∧ 1 ≤ line_number f ≤ length lines) new)
    file_checks.
Proof.
  apply Forall_forall. intros check Hin path content st. cbv zeta.
  destruct (file_checks_add check path content st Hin) as (Hs & Hc & new & Hf & Hok).
  split; [done|]. split; [done|]. exists new. split; [done|].
  eapply Forall_impl; [exact Hok|]. intros f (Hp & Hn & _). done.
Qed.

End FileChecks.

(** ** A whole run of [QUANTUM_CERTIFICATE_SECURITY_AUDIT.py] *)
Section QuantumRun.
Import Quantum Outcome.
Implicit Types (st : Auditor) (f : SecurityFinding) (tree : list DirEntry).

Lemma audit_file_step tree (p : string) (check : Check) st :
  check ∈ file_checks →
  let st' := _audit_file tree p check st in
  stats st' !!! "files_scanned"
  = stats st !!! "files_scanned" + (if readable tree p then 1 else 0)
  ∧ stats st' !!! "lines_scanned" = stats st !!! "lines_scanned" + lines_of tree p
  ∧ stats st' !!! "vulnerabilities_found" = stats st !!! "vulnerabilities_found"
  ∧ length (console st')
    = length (console st) + (if readable tree p then 0 else 1)
  ∧ ∃ new, findings st' = findings st ++ new
           ∧ Forall (fun f => from_pattern_scan f = false) new.
Proof.
  intros Hcheck. cbv zeta. unfold _audit_file, readable, lines_of.
  destruct (lookup_entry tree p) as [e|].
  - destruct (read_entry e) as [content|err].
    + cbv zeta.
      match goal with
      | |- context [check p content (PyStr.split_nl content) ?s2] =>
          destruct (file_checks_add check p content s2 Hcheck)
            as (Hs & Hc & new & Hf & Hok)
      end.
      rewrite Hs, Hc, Hf. cbn [stats console findings add_stat incr_stat].
      rewrite lookup_total_insert_ne by done.
      rewrite lookup_total_insert_eq.
      rewrite lookup_total_insert_ne by done.
      rewrite dict_incr_lookup_eq, !dict_incr_lookup_ne by done.
      repeat split; try lia. exists new. split; [done|].
      eapply Forall_impl; [exact Hok|]. by intros f (_ & _ & H).
    + cbn. rewrite length_app. cbn. repeat split; try lia.
      exists []. by rewrite app_nil_r.
  - cbn. rewrite length_app. cbn. repeat split; try lia.
    exists []. by rewrite app_nil_r.
Qed.

(** [_audit_file] keeps its books: over a list of named files,
    [files_scanned] grows by the number of files that exist and can be
    read, [lines_scanned] by the number of their lines (newlines plus one
    each), the console gets exactly one line for every other named file, and
    [vulnerabilities_found] does not move. *)
Theorem audit_files_keep_the_books :
  Forall (fun check : Check =>
    ∀ tree (files : list string) st,
      let st' := audit_files tree files check st in
      stats st' !!! "files_scanned"
      = stats st !!! "files_scanned" + count_readable tree files
      ∧ stats st' !!! "lines_scanned"
        = stats st !!! "lines_scanned" + total_lines_of tree files
      ∧ stats st' !!! "vulnerabilities_found" = stats st !!! "vulnerabilities_found"
      ∧ length (console st')
        = length (console st) + (length files - count_readable tree files))
    file_checks.
Proof.
  apply Forall_forall. intros check Hcheck tree files. unfold audit_files, count_readable.
  induction files as [|p files IH]; intros st.
  - cbn. repeat split; lia.
  - cbn [foldl List.filter length].
    change (total_lines_of tree (p :: files))
      with (lines_of tree p + total_lines_of tree files).
    destruct (IH (_audit_file tree p check st)) as (H1 & H2 & H3 & H4).
    destruct (audit_file_step tree p check st Hcheck) as (S1 & S2 & S3 & S4 & _).
    cbv zeta in *. rewrite H1, H2, H3, H4, S1, S2, S3, S4.
    pose proof (List.filter_length_le (readable tree) files).
    destruct (readable tree p); cbn [length]; repeat split; lia.
Qed.

Lemma run_step_refl st : run_step st st.
Proof. exists []. rewrite app_nil_r. cbn. split; [done | lia]. Qed.

Lemma count_pattern_app (fs1 fs2 : list SecurityFinding) :
  count_pattern_findings (fs1 ++ fs2)
  = count_pattern_findings fs1 + count_pattern_findings fs2.
Proof. unfold count_pattern_findings. by rewrite List.filter_app, length_app. Qed.

Lemma run_step_trans st1 st2 st3 :
  run_step st1 st2 → run_step st2 st3 → run_step st1 st3.
Proof.
  intros (n1 & Hf1 & Hs1) (n2 & Hf2 & Hs2). exists (n1 ++ n2).
  split; [by rewrite Hf2, Hf1, app_assoc|]. rewrite count_pattern_app. lia.
Qed.

Lemma count_pattern_none (fs : list SecurityFinding) :
  Forall (fun f => from_pattern_scan f = false) fs → count_pattern_findings fs = 0.
Proof.
  unfold count_pattern_findings. induction 1 as [|f fs Hf _ IH]; [done|].
  cbn. by rewrite Hf.
Qed.

Lemma count_pattern_all (fs : list SecurityFinding) :
  Forall (fun f => from_pattern_scan f = true) fs →
  count_pattern_findings fs = length fs.
Proof.
  unfold count_pattern_findings. induction 1 as [|f fs Hf _ IH]; [done|].
  cbn. rewrite Hf. cbn. by rewrite IH.
Qed.

Lemma foldl_run_step {A} (step : Auditor → A → Auditor) (l : list A) st :
  (∀ s a, run_step s (step s a)) → run_step st (foldl step st l).
Proof.
  intros Hstep. revert st. induction l as [|a l IH]; intros st; [apply run_step_refl|].
  cbn. eapply run_step_trans; [apply Hstep | apply IH].
Qed.

Lemma audit_files_run_step tree (files : list string) (check : Check) st :
  check ∈ file_checks → run_step st (audit_files tree files check st).
Proof.
  intros Hcheck. apply foldl_run_step. intros s p.
  destruct (audit_file_step tree p check s Hcheck) as (_ & _ & Hv & _ & new & Hf & Hok).
  exists new. split; [done|]. cbv zeta in Hv. rewrite Hv, count_pattern_none by done. lia.
Qed.

Lemma falcon_run_step tree st : run_step st (_check_falcon_1024_implementation tree st).
Proof.
  apply foldl_run_step. intros s e. unfold falcon_entry.
  destruct (String.eqb _ _); [|apply run_step_refl].
  destruct (read_entry e); [|apply run_step_refl].
  destruct (PyStr.contains _ _); [|apply run_step_refl].
  eexists [_]. split; [reflexivity|]. cbn. lia.
Qed.

Lemma scan_rules_run_step tree (rules : list Rule) st :
  run_step st (scan_rules tree rules st).
Proof.
  destruct (scan_rules_stats tree rules st) as (Hf & _).
  exists (rules ≫= fun r => tree ≫= entry_matches r).
  split; [apply scan_rules_findings|].
  cbv zeta in Hf. rewrite Hf, count_pattern_all; [done|].
  apply scan_rules_new_from_scan.
Qed.

Lemma run_audits_step tree st : run_step st (run_audits tree st).
Proof.
  unfold run_audits, audit_production_readiness, audit_configuration_security,
    audit_api_security, audit_consensus_proof_validation,
    audit_certificate_management, audit_quantum_cryptography,
    _check_mock_implementations, _check_test_certificates, _check_debug_code,
    _check_hardcoded_secrets.
  repeat first
    [ apply run_step_refl
    | eapply run_step_trans; [|apply scan_rules_run_step]
    | eapply run_step_trans; [|apply falcon_run_step]
    | eapply run_step_trans;
        [|apply audit_files_run_step; unfold file_checks; set_solver] ].
Qed.

(** Over a whole audit the findings only grow, and the statistic
    [vulnerabilities_found] of the report counts the findings of the pattern
    scans alone: the findings of the file checks and of the FALCON check are
    not counted, so the statistic can stay below [total_findings]. *)
Theorem vulnerabilities_found_counts_pattern_findings tree :
  (∀ st, findings st `prefix_of` findings (run_audits tree st))
  ∧ let r := run_complete_audit tree in
    audit_statistics r !!! "vulnerabilities_found"
    = count_pattern_findings (detailed_findings r)
    ∧ audit_statistics r !!! "vulnerabilities_found"
      ≤ total_findings (executive_summary r).
Proof.
  split.
  - intros st. destruct (run_audits_step tree st) as (new & Hf & _).
    rewrite Hf. by apply prefix_app_r.
  - cbv zeta. unfold run_complete_audit, generate_security_report.
    cbn [audit_statistics detailed_findings executive_summary summarize total_findings].
    destruct (run_audits_step tree init) as (new & Hf & Hs).
    rewrite Hs, Hf. cbn [findings init app].
    assert ((stats init : gmap string nat) !!! "vulnerabilities_found" = 0) as ->
      by reflexivity.
    split; [done|]. unfold count_pattern_findings. cbn [Nat.add].
    apply List.filter_length_le.
Qed.

End QuantumRun.

(** ** The validator *)
Section ValidatorFacts.
Import Outcome.
Implicit Types (vs : list Validator.SecurityViolation) (st : ValidatorRun.State).

Lemma validator_counts_lookup vs (s : Validator.SecurityLevel) :
  Validator.severity_counts vs !!! s = count_level s vs.
Proof.
  unfold Validator.severity_counts. rewrite tally_lookup.
  by rewrite (lookup_total_correct _ _ 0) by (apply zero_counts_lookup, validator_key).
Qed.

Lemma validator_ready_iff vs :
  Validator.production_ready (Validator.generate_security_report vs) = true
  ↔ ∀ v, v ∈ vs →
         Validator.severity v = Validator.MEDIUM ∨ Validator.severity v = Validator.LOW.
Proof.
  cbn [Validator.generate_security_report Validator.production_ready].
  rewrite !validator_counts_lookup, andb_true_iff, !Nat.eqb_eq.
  unfold count_level. rewrite !count_key_zero. split.
  - intros [Hc Hh] v Hv. specialize (Hc v Hv). specialize (Hh v Hv).
    destruct (Validator.severity v); tauto.
  - intros Hall. split; intros v Hv Heq; destruct (Hall v Hv); congruence.
Qed.

(** The validator blocks exactly on CRITICAL and HIGH: its exit status is 0
    when every violation is MEDIUM or LOW (or there is none) and 1 as soon
    as one violation is CRITICAL or HIGH; the four numbers of the breakdown
    are the numbers of violations of each level. *)
Theorem validator_exit_status vs :
  let r := Validator.generate_security_report vs in
  (Validator.exit_status r = 0
   ↔ ∀ v, v ∈ vs →
          Validator.severity v = Validator.MEDIUM ∨ Validator.severity v = Validator.LOW)
  ∧ (Validator.exit_status r = 1
     ↔ ∃ v, v ∈ vs ∧ (Validator.severity v = Validator.CRITICAL
                      ∨ Validator.severity v = Validator.HIGH))
  ∧ Validator.severity_breakdown r !! "critical" = Some (count_level Validator.CRITICAL vs)
  ∧ Validator.severity_breakdown r !! "high" = Some (count_level Validator.HIGH vs)
  ∧ Validator.severity_breakdown r !! "medium" = Some (count_level Validator.MEDIUM vs)
  ∧ Validator.severity_breakdown r !! "low" = Some (count_level Validator.LOW vs).
Proof.
  cbv zeta. pose proof (validator_ready_iff vs) as Hready.
  unfold Validator.exit_status.
  split; [|split].
  - destruct (Validator.production_ready _); split; intros H; try done.
    + by apply Hready.
    + apply Hready in H. done.
  - destruct (Validator.production_ready _) eqn:Hp; split; intros H; try done.
    + destruct H as (v & Hv & Hsev). destruct (proj1 Hready eq_refl v Hv); destruct Hsev; congruence.
    + destruct (decide (Exists (fun v => Validator.severity v = Validator.CRITICAL
                                   ∨ Validator.severity v = Validator.HIGH) vs)) as [Hex|Hno].
      * apply Exists_exists in Hex. done.
      * exfalso. assert (false = true); [|done]. apply Hready. intros v Hv.
        destruct (Validator.severity v) eqn:Hs; auto;
          exfalso; apply Hno, Exists_exists; exists v; rewrite Hs; auto.
  - cbn [Validator.generate_security_report Validator.severity_breakdown].
    rewrite !validator_counts_lookup. by simplify_map_eq.
Qed.

Lemma vscan_line_adds (p : Quantum.Pattern) sev descr path st (nl : nat * string) :
  PyStr.startswith "trustchain/src/" path = true → 1 ≤ nl.1 →
  let st' := ValidatorRun.scan_line p sev descr path st nl in
  ValidatorRun.console st' = ValidatorRun.console st
  ∧ ValidatorRun.project_root st' = ValidatorRun.project_root st
  ∧ ∃ new, ValidatorRun.violations st' = ValidatorRun.violations st ++ new
           ∧ Forall (scan_violation_ok p sev descr) new.
Proof.
  intros Hpath Hn. cbv zeta. unfold ValidatorRun.scan_line.
  destruct (Re.search _ nl.2).
  - cbn. repeat split. eexists [_]. split; [done|]. repeat constructor; done.
  - repeat split. exists []. by rewrite app_nil_r.
Qed.

Lemma vscan_lines_adds (p : Quantum.Pattern) sev descr path st (k : nat)
    (lines : list string) :
  PyStr.startswith "trustchain/src/" path = true → 1 ≤ k →
  let st' := foldl (ValidatorRun.scan_line p sev descr path) st (enumerate_from k lines) in
  ValidatorRun.console st' = ValidatorRun.console st
  ∧ ValidatorRun.project_root st' = ValidatorRun.project_root st
  ∧ ∃ new, ValidatorRun.violations st' = ValidatorRun.violations st ++ new
           ∧ Forall (scan_violation_ok p sev descr) new.
Proof.
  intros Hpath. cbv zeta. revert st k. induction lines as [|l lines IH]; intros st k Hk.
  - repeat split. exists []. by rewrite app_nil_r.
  - cbn [enumerate_from foldl].
    destruct (IH (ValidatorRun.scan_line p sev descr path st (k, l)) (S k))
      as (Hc & Hr & n2 & Hv & Hok); [lia|].
    destruct (vscan_line_adds p sev descr path st (k, l) Hpath Hk)
      as (Hc1 & Hr1 & n1 & Hv1 & Hok1).
    cbv zeta in *. rewrite Hc, Hc1, Hr, Hr1, Hv, Hv1. repeat split.
    exists (n1 ++ n2). split; [by rewrite app_assoc | by apply Forall_app].
Qed.

(** One pattern scan of the validator: a file below [trustchain/src] that
    cannot be read does not stop it and is reported by exactly one console
    line; every violation the scan appends carries the severity and the
    description the scan was called with, has the pattern text as its type,
    and points at a line (1 or more) of a file below [trustchain/src]. *)
Theorem validator_scan_reports (tree : list DirEntry) (p : Quantum.Pattern)
    (sev : Validator.SecurityLevel) (descr : string) st :
  let st' := ValidatorRun._scan_for_pattern tree p sev descr st in
  length (ValidatorRun.console st')
  = length (ValidatorRun.console st)
    + length (List.filter unreadable
                (List.filter ValidatorRun.in_trustchain_src tree))
  ∧ ∃ new, ValidatorRun.violations st' = ValidatorRun.violations st ++ new
           ∧ Forall (scan_violation_ok p sev descr) new.
Proof.
  cbv zeta. unfold ValidatorRun._scan_for_pattern.
  assert (Forall (fun e => ValidatorRun.in_trustchain_src e = true)
                 (List.filter ValidatorRun.in_trustchain_src tree)) as Hsrc.
  { apply Forall_forall. intros e He.
    by apply list_elem_of_In, List.filter_In in He as [_ He]. }
  revert st Hsrc. generalize (List.filter ValidatorRun.in_trustchain_src tree).
  intros files. induction files as [|e files IH]; intros st Hsrc.
  - cbn. split; [lia|]. exists []. by rewrite app_nil_r.
  - apply Forall_cons in Hsrc as [He Hsrc].
    cbn [foldl List.filter].
    destruct (IH (ValidatorRun.scan_file p sev descr st e) Hsrc) as (Hc & n2 & Hv & Hok).
    rewrite Hc, Hv. unfold ValidatorRun.scan_file, unreadable.
    destruct (read_entry e) as [content|err].
    + unfold ValidatorRun.in_trustchain_src in He.
      apply andb_true_iff in He as [He _].
      destruct (vscan_lines_adds p sev descr (rel_path e) st 1
                  (PyStr.readlines content) He) as (Hc1 & _ & n1 & Hv1 & Hok1); [lia|].
      cbv zeta in *. unfold enumerate1. rewrite Hc1, Hv1. split; [lia|].
      exists (n1 ++ n2). split; [by rewrite app_assoc | by apply Forall_app].
    + cbn. rewrite length_app. cbn. split; [lia|]. by exists n2.
Qed.

Lemma run_checks_last (tree : list DirEntry) (cargo : ValidatorRun.CargoOutcome) st :
  ValidatorRun.run_checks tree cargo st
  = ValidatorRun.check_compilation_security cargo
      (ValidatorRun.run_checks tree (ValidatorRun.CargoReturns 0 EmptyString) st).
Proof. reflexivity. Qed.

(** A build that fails or runs out of time blocks the deployment whatever the
    sources hold: the run records a CRITICAL violation for a non-zero return
    code, with at most the first 500 characters of the error output as
    evidence, or a HIGH violation for a timeout, and it exits with 1. *)
Theorem failed_build_blocks (tree : list DirEntry) (cargo : ValidatorRun.CargoOutcome)
    (root : string) :
  build_failed cargo = true →
  let r := ValidatorRun.run_complete_security_audit tree cargo root in
  Validator.exit_status r = 1
  ∧ ∃ v, last (Validator.violations r) = Some v
         ∧ (Validator.severity v = Validator.CRITICAL
            ∨ Validator.severity v = Validator.HIGH)
         ∧ PyStr.len (Validator.evidence v) ≤ 500.
Proof.
  intros Hfail. cbv zeta. unfold ValidatorRun.run_complete_security_audit.
  rewrite run_checks_last.
  set (st := ValidatorRun.run_checks tree _ (ValidatorRun.init root)).
  assert (∃ v, ValidatorRun.violations (ValidatorRun.check_compilation_security cargo st)
               = ValidatorRun.violations st ++ [v]
               ∧ (Validator.severity v = Validator.CRITICAL
                  ∨ Validator.severity v = Validator.HIGH)
               ∧ PyStr.len (Validator.evidence v) ≤ 500) as (v & Hv & Hsev & Hlen).
  { unfold ValidatorRun.check_compilation_security.
    destruct cargo as [rc stderr|]; cbn [build_failed] in Hfail.
    - rewrite Hfail. eexists. split; [reflexivity|]. split; [by left|].
      cbn [Validator.evidence]. apply len_take.
    - eexists. split; [reflexivity|]. split; [by right|].
      cbn [Validator.evidence]. unfold PyStr.len. cbn [String.length]. lia. }
  rewrite Hv. split.
  - pose proof (validator_ready_iff (ValidatorRun.violations st ++ [v])) as Hready.
    unfold Validator.exit_status.
    destruct (Validator.production_ready _); [|done].
    destruct (proj1 Hready eq_refl v) as [Hm|Hm];
      [apply elem_of_app; right; by left | |]; destruct Hsev; congruence.
  - exists v. cbn [Validator.generate_security_report Validator.violations].
    by rewrite last_snoc.
Qed.

Lemma failed_build_blocks_witness :
  Validator.exit_status
    (ValidatorRun.run_complete_security_audit []
       (ValidatorRun.CargoReturns 101 "error[E0432]: unresolved import")
       "/home/persist/repos/projects/web3") = 1.
Proof.
  apply (failed_build_blocks []
           (ValidatorRun.CargoReturns 101 "error[E0432]: unresolved import")
           "/home/persist/repos/projects/web3").
  reflexivity.
Defined.

End ValidatorFacts.

(** ** A run of [security_audit.py] *)
Section AuditRun.
Import Outcome.
Implicit Types (st : Audit.Auditor) (r : Audit.LineRule) (e : DirEntry)
  (tree : list DirEntry).

Lemma foldl_invariant {S A} (I : S → Prop) (step : S → A → S) (l : list A) (s : S) :
  (∀ s a, a ∈ l → I s → I (step s a)) → I s → I (foldl step s l).
Proof.
  revert s. induction l as [|a l IH]; intros s Hstep Hs; [done|].
  cbn. apply IH.
  - intros s' a' Ha'. apply Hstep. by right.
  - apply Hstep; [left | done].
Qed.

Lemma severities_agree_append (b : Audit.Bucket) (v : Audit.Violation)
    (vs : Audit.Violations) :
  b ≠ Audit.BLow → Audit.v_severity v = bucket_severity b →
  severities_agree vs → severities_agree (Audit.append_to b v vs).
Proof.
  intros Hb Hv (Hc & Hh & Hm & Hl). unfold severities_agree.
  destruct b; cbn; try done; repeat split; try done;
    apply Forall_app; split; try done; by constructor.
Qed.

Lemma line_rules_bucket r :
  r ∈ Audit.line_rules →
  Audit.bucket r ≠ Audit.BLow
  ∧ Audit.rule_severity r = bucket_severity (Audit.bucket r).
Proof.
  unfold Audit.line_rules. intros Hin.
  repeat (apply elem_of_cons in Hin as [->|Hin]; [by split|]).
  by apply elem_of_nil in Hin.
Qed.

Lemma apply_rule_agree rel content nl st r :
  r ∈ Audit.line_rules →
  severities_agree (Audit.violations st) →
  severities_agree (Audit.violations (Audit.apply_rule rel content nl st r)).
Proof.
  intros Hr Hst. unfold Audit.apply_rule.
  destruct (Audit.applies r _ _ _); [|done]. cbn.
  destruct (line_rules_bucket r Hr) as [Hb Hs].
  by apply severities_agree_append.
Qed.

Lemma scan_rust_file_agree st e :
  severities_agree (Audit.violations st) →
  severities_agree (Audit.violations (Audit.scan_rust_file st e)).
Proof.
  intros Hst. unfold Audit.scan_rust_file.
  destruct (read_entry e); [|done].
  apply (foldl_invariant (fun s => severities_agree (Audit.violations s))); [|done].
  intros s nl _ Hs. unfold Audit.scan_line.
  apply (foldl_invariant (fun s => severities_agree (Audit.violations s))); [|done].
  intros s' r Hr Hs'. by apply apply_rule_agree.
Qed.

Lemma run_agree (cargo_outdated : string → option string) tree (root : string) :
  severities_agree (Audit.violations (Audit.run cargo_outdated tree root)).
Proof.
  unfold Audit.run, Audit.analyze_crypto_implementations, Audit.check_dependencies,
    Audit.scan_project.
  apply (foldl_invariant (fun s => severities_agree (Audit.violations s))).
  { intros s p _ Hs. unfold Audit.analyze_path.
    assert (∀ s e, severities_agree (Audit.violations s) →
                   severities_agree (Audit.violations (Audit.deep_scan_crypto s e)))
      as Hdeep.
    { intros s' e Hs'. unfold Audit.deep_scan_crypto.
      destruct (read_entry e); [|done].
      destruct (_ || _); [done|]. destruct (_ || _); [|done].
      cbn [Audit.violations Audit.add_violation].
      by apply (severities_agree_append Audit.BCritical). }
    destruct (List.find _ tree) as [e|]; [|done].
    destruct (entry_node e); [|by apply Hdeep].
    apply (foldl_invariant (fun s => severities_agree (Audit.violations s))); [|done].
    intros s' e' _. apply Hdeep. }
  apply (foldl_invariant (fun s => severities_agree (Audit.violations s))).
  { intros s e _ Hs. unfold Audit.check_cargo.
    destruct (PyStr.contains _ _); [done|].
    destruct (cargo_outdated _); [|done].
    destruct (PyStr.contains _ _); [|done].
    cbn [Audit.violations Audit.add_violation].
    by apply (severities_agree_append Audit.BMedium). }
  apply (foldl_invariant (fun s => severities_agree (Audit.violations s))).
  { intros s e _. apply scan_rust_file_agree. }
  cbn. repeat split; constructor.
Qed.

(** Over a whole run each list of violations holds only violations of its
    own severity word, and the ['low'] list stays empty: the LOW count of the
    summary is always 0 and the total is the sum of the three other counts. *)
Theorem violations_sit_in_their_list (cargo_outdated : string → option string)
    tree (root : string) :
  let st := Audit.run cargo_outdated tree root in
  let s := Audit.summary_of st in
  Forall (fun v => Audit.v_severity v = "CRITICAL") (Audit.critical (Audit.violations st))
  ∧ Forall (fun v => Audit.v_severity v = "HIGH") (Audit.high (Audit.violations st))
  ∧ Forall (fun v => Audit.v_severity v = "MEDIUM") (Audit.medium (Audit.violations st))
  ∧ Audit.s_low s = 0
  ∧ Audit.s_total_violations s = Audit.s_critical s + Audit.s_high s + Audit.s_medium s.
Proof.
  cbv zeta. destruct (run_agree cargo_outdated tree root) as (Hc & Hh & Hm & Hl).
  revert Hc Hh Hm Hl. generalize (Audit.run cargo_outdated tree root). intros st.
  intros Hc Hh Hm Hl. unfold Audit.summary_of, Audit.total_violations.
  cbn [Audit.s_low Audit.s_total_violations Audit.s_critical Audit.s_high
       Audit.s_medium].
  rewrite Hl. cbn [length]. repeat split; try done; lia.
Qed.

End AuditRun.

(** ** The statistics of [security_audit.py] *)
Section AuditStatistics.
Import Outcome.
Implicit Types (st : Audit.Auditor) (r : Audit.LineRule) (e : DirEntry)
  (tree : list DirEntry) (k : string).

Lemma foldl_rel {S A} (R : S → S → Prop) (step : S → A → S) (l : list A) (s : S) :
  (∀ s, R s s) → (∀ a b c, R a b → R b c → R a c) →
  (∀ s a, a ∈ l → R s (step s a)) → R s (foldl step s l).
Proof.
  intros Hrefl Htrans. revert s. induction l as [|a l IH]; intros s Hstep; [apply Hrefl|].
  cbn. apply (Htrans _ (step s a)).
  - apply Hstep. left.
  - apply IH. intros s' a' Ha'. apply Hstep. by right.
Qed.

Lemma lookup_total_of_lookup (d1 d2 : gmap string nat) k :
  d1 !! k = d2 !! k → d1 !!! k = d2 !!! k.
Proof. intros Heq. by rewrite !lookup_total_alt, Heq. Qed.

Lemma apply_rule_stats_other rel content nl st r k :
  k ≠ Audit.counter r →
  Audit.stats (Audit.apply_rule rel content nl st r) !! k = Audit.stats st !! k.
Proof.
  intros Hne. unfold Audit.apply_rule. destruct (Audit.applies r _ _ _); [|done].
  cbn. unfold dict_incr. by rewrite lookup_insert_ne.
Qed.

Lemma scan_line_stats_other rel content st nl k :
  k ∉ Audit.counter <$> Audit.line_rules →
  Audit.stats (Audit.scan_line rel content st nl) !! k = Audit.stats st !! k.
Proof.
  intros Hk. unfold Audit.scan_line.
  apply (foldl_rel (fun s s' => Audit.stats s' !! k = Audit.stats s !! k)).
  - done.
  - intros a b c H1 H2. by rewrite H2.
  - intros s r Hr. apply apply_rule_stats_other. intros ->. apply Hk.
    apply list_elem_of_fmap. eauto.
Qed.

Lemma scan_rust_file_stats_other st e k :
  k ∉ Audit.counter <$> Audit.line_rules →
  k ≠ "files_scanned" → k ≠ "total_lines" →
  Audit.stats (Audit.scan_rust_file st e) !! k = Audit.stats st !! k.
Proof.
  intros Hk Hf Hl. unfold Audit.scan_rust_file.
  destruct (read_entry e) as [content|err]; [|done].
  match goal with
  | |- Audit.stats (foldl _ ?s2 _) !! _ = _ =>
      transitivity (Audit.stats s2 !! k)
  end.
  - apply (foldl_rel (fun s s' => Audit.stats s' !! k = Audit.stats s !! k)).
    + done.
    + intros a b c H1 H2. by rewrite H2.
    + intros s nl _. by apply scan_line_stats_other.
  - cbn. rewrite lookup_insert_ne by done. unfold dict_incr.
    by rewrite lookup_insert_ne.
Qed.

Lemma files_scanned_no_counter : "files_scanned" ∉ Audit.counter <$> Audit.line_rules.
Proof. apply (bool_decide_unpack _). by vm_compute. Qed.

Lemma sql_injection_no_counter : "sql_injection" ∉ Audit.counter <$> Audit.line_rules.
Proof. apply (bool_decide_unpack _). by vm_compute. Qed.

Lemma total_files_no_counter : "total_files" ∉ Audit.counter <$> Audit.line_rules.
Proof. apply (bool_decide_unpack _). by vm_compute. Qed.

Lemma scan_rust_file_files_scanned st e :
  Audit.stats (Audit.scan_rust_file st e) !!! "files_scanned"
  = Audit.stats st !!! "files_scanned" + (if unreadable e then 0 else 1).
Proof.
  unfold Audit.scan_rust_file, unreadable.
  destruct (read_entry e) as [content|err]; [|cbn; lia].
  match goal with
  | |- Audit.stats (foldl _ ?s2 _) !!! _ = _ =>
      transitivity (Audit.stats s2 !!! "files_scanned")
  end.
  - apply lookup_total_of_lookup.
    apply (foldl_rel (fun s s' => Audit.stats s' !! "files_scanned"
                                  = Audit.stats s !! "files_scanned")).
    + done.
    + intros a b c H1 H2. by rewrite H2.
    + intros s nl _. apply scan_line_stats_other, files_scanned_no_counter.
  - cbn. rewrite lookup_total_insert_ne by done. rewrite dict_incr_lookup_eq. lia.
Qed.

Lemma scan_files_files_scanned (files : list DirEntry) st :
  Audit.stats (foldl Audit.scan_rust_file st files) !!! "files_scanned"
  = Audit.stats st !!! "files_scanned"
    + length (List.filter (fun e => negb (unreadable e)) files).
Proof.
  revert st. induction files as [|e files IH]; intros st; [cbn; lia|].
  cbn [foldl List.filter]. rewrite IH, scan_rust_file_files_scanned.
  destruct (unreadable e); cbn [negb length]; lia.
Qed.

Lemma scan_files_stats_other (files : list DirEntry) st k :
  k ∉ Audit.counter <$> Audit.line_rules →
  k ≠ "files_scanned" → k ≠ "total_lines" →
  Audit.stats (foldl Audit.scan_rust_file st files) !! k = Audit.stats st !! k.
Proof.
  intros Hk Hf Hl.
  apply (foldl_rel (fun s s' => Audit.stats s' !! k = Audit.stats s !! k)).
  - done.
  - intros a b c H1 H2. by rewrite H2.
  - intros s e _. by apply scan_rust_file_stats_other.
Qed.

Lemma scan_rust_file_root st e :
  Audit.project_root (Audit.scan_rust_file st e) = Audit.project_root st.
Proof.
  unfold Audit.scan_rust_file. destruct (read_entry e); [|done].
  match goal with
  | |- Audit.project_root (foldl _ ?s2 _) = _ =>
      transitivity (Audit.project_root s2); [|done]
  end.
  apply (foldl_rel (fun s s' => Audit.project_root s' = Audit.project_root s)).
  - done.
  - intros a b c H1 H2. by rewrite H2.
  - intros s nl _. unfold Audit.scan_line.
    apply (foldl_rel (fun s s' => Audit.project_root s' = Audit.project_root s)).
    + done.
    + intros a b c H1 H2. by rewrite H2.
    + intros s' r _. apply apply_rule_root.
Qed.

Lemma later_phases_keep_stats (cargo_outdated : string → option string) tree st :
  Audit.stats (Audit.analyze_crypto_implementations tree
                 (Audit.check_dependencies cargo_outdated tree st))
  = Audit.stats st.
Proof.
  unfold Audit.analyze_crypto_implementations, Audit.check_dependencies.
  match goal with
  | |- Audit.stats (foldl _ ?s2 _) = _ => transitivity (Audit.stats s2)
  end.
  - apply (foldl_rel (fun s s' => Audit.stats s' = Audit.stats s)).
    + done.
    + intros a b c H1 H2. by rewrite H2.
    + intros s p _. unfold Audit.analyze_path.
      assert (∀ s e, Audit.stats (Audit.deep_scan_crypto s e) = Audit.stats s) as Hdeep.
      { intros s' e. unfold Audit.deep_scan_crypto. destruct (read_entry e); [|done].
        destruct (_ || _); [done|]. by destruct (_ || _). }
      destruct (List.find _ tree) as [e|]; [|done].
      destruct (entry_node e); [|apply Hdeep].
      apply (foldl_rel (fun s s' => Audit.stats s' = Audit.stats s)).
      * done.
      * intros a b c H1 H2. by rewrite H2.
      * intros s' e' _. apply Hdeep.
  - apply (foldl_rel (fun s s' => Audit.stats s' = Audit.stats s)).
    + done.
    + intros a b c H1 H2. by rewrite H2.
    + intros s e _. unfold Audit.check_cargo.
      destruct (PyStr.contains _ _); [done|]. destruct (cargo_outdated _); [|done].
      by destruct (PyStr.contains _ _).
Qed.

Lemma kept_filter (root : string) tree :
  List.filter
    (fun f => negb (PyStr.contains "target" (Audit.abs_path root (rel_path f)))
              && negb (PyStr.contains "test" (path_name (rel_path f)))
              && negb (PyStr.contains ".security_backup"
                         (Audit.abs_path root (rel_path f))))
    (List.filter Audit.is_rs tree)
  = List.filter (kept root) tree.
Proof.
  induction tree as [|e tree IH]; [done|]. cbn [List.filter].
  destruct (Audit.is_rs e) eqn:Hrs.
  - cbn [List.filter]. rewrite IH.
    assert (kept root e
            = negb (PyStr.contains "target" (Audit.abs_path root (rel_path e)))
              && negb (PyStr.contains "test" (path_name (rel_path e)))
              && negb (PyStr.contains ".security_backup"
                         (Audit.abs_path root (rel_path e)))) as ->; [|done].
    unfold kept. by rewrite Hrs.
  - rewrite IH. assert (kept root e = false) as ->; [|done].
    unfold kept. by rewrite Hrs.
Qed.

(** The statistics of a whole run: [total_files] is the number of paths
    ending in [.rs], excluded ones included; [files_scanned] is the number of
    those that are kept (no [target] or [.security_backup] in the path, no
    [test] in the name) and can be read, so it never exceeds [total_files];
    the [sql_injection] counter, which no test of the line loop feeds, is
    still 0 at the end. *)
Theorem audit_run_statistics (cargo_outdated : string → option string)
    tree (root : string) :
  let st := Audit.run cargo_outdated tree root in
  Audit.stats st !!! "total_files" = length (List.filter Audit.is_rs tree)
  ∧ Audit.stats st !!! "files_scanned"
    = length (List.filter (fun e => negb (unreadable e)) (List.filter (kept root) tree))
  ∧ Audit.stats st !!! "files_scanned" ≤ Audit.stats st !!! "total_files"
  ∧ Audit.stats st !!! "sql_injection" = 0.
Proof.
  cbv zeta. unfold Audit.run. rewrite later_phases_keep_stats.
  unfold Audit.scan_project. cbn [Audit.project_root Audit.init].
  rewrite kept_filter.
  assert (Audit.stats (foldl Audit.scan_rust_file
            (Audit.set_stats (<["total_files" := length (List.filter Audit.is_rs tree)]>
                                (Audit.stats (Audit.init root))) (Audit.init root))
            (List.filter (kept root) tree)) !!! "total_files"
          = length (List.filter Audit.is_rs tree)) as Htotal.
  { rewrite (lookup_total_of_lookup _ _ _
               (scan_files_stats_other _ _ "total_files" total_files_no_counter
                  ltac:(done) ltac:(done))).
    cbn. apply lookup_total_insert_eq. }
  assert (Audit.stats (foldl Audit.scan_rust_file
            (Audit.set_stats (<["total_files" := length (List.filter Audit.is_rs tree)]>
                                (Audit.stats (Audit.init root))) (Audit.init root))
            (List.filter (kept root) tree)) !!! "files_scanned"
          = length (List.filter (fun e => negb (unreadable e))
                                (List.filter (kept root) tree))) as Hscanned.
  { rewrite scan_files_files_scanned. cbn [Audit.stats Audit.set_stats Audit.init].
    rewrite lookup_total_insert_ne by done.
    assert (zero_counts Audit.stat_keys !!! "files_scanned" = 0) as -> by reflexivity.
    done. }
  rewrite Htotal, Hscanned. repeat split.
  - etransitivity; [apply List.filter_length_le|].
    rewrite <- kept_filter.
    etransitivity; [apply List.filter_length_le | done].
  - rewrite (lookup_total_of_lookup _ _ _
               (scan_files_stats_other _ _ "sql_injection" sql_injection_no_counter
                  ltac:(done) ltac:(done))).
    cbn [Audit.stats Audit.set_stats Audit.init].
    rewrite lookup_total_insert_ne by done. reflexivity.
Qed.

End AuditStatistics.

(** ** Which files the line loop of [security_audit.py] looks at *)
Section AuditFiles.
Import Outcome.
Implicit Types (st : Audit.Auditor) (r : Audit.LineRule) (e : DirEntry)
  (tree : list DirEntry) (v : Audit.Violation).

Lemma counters_sum_cons r (rules : list Audit.LineRule) (d : gmap string nat) :
  counters_sum (r :: rules) d = d !!! Audit.counter r + counters_sum rules d.
Proof. reflexivity. Qed.

Lemma counters_sum_insert_other (rules : list Audit.LineRule) (d : gmap string nat)
    (k : string) (n : nat) :
  k ∉ Audit.counter <$> rules →
  counters_sum rules (<[k := n]> d) = counters_sum rules d.
Proof.
  induction rules as [|r rules IH]; intros Hk; [done|].
  rewrite !counters_sum_cons. rewrite fmap_cons in Hk.
  apply not_elem_of_cons in Hk as [Hne Hk].
  rewrite lookup_total_insert_ne by done.
  f_equal. by apply IH.
Qed.

Lemma counters_sum_incr (rules : list Audit.LineRule) (d : gmap string nat) r :
  NoDup (Audit.counter <$> rules) → r ∈ rules →
  counters_sum rules (dict_incr (Audit.counter r) d) = S (counters_sum rules d).
Proof.
  induction rules as [|r0 rules IH]; intros Hnd Hin; [by apply elem_of_nil in Hin|].
  rewrite fmap_cons in Hnd. apply NoDup_cons in Hnd as [Hfresh Hnd].
  rewrite !counters_sum_cons.
  destruct (decide (Audit.counter r = Audit.counter r0)) as [Heq|Hne].
  - rewrite Heq, dict_incr_lookup_eq. unfold dict_incr.
    rewrite counters_sum_insert_other by done. lia.
  - rewrite dict_incr_lookup_ne by done.
    apply elem_of_cons in Hin as [->|Hin]; [done|].
    rewrite IH by done. lia.
Qed.

Lemma line_rules_counters_nodup : NoDup (Audit.counter <$> Audit.line_rules).
Proof. apply (bool_decide_unpack _). by vm_compute. Qed.

Lemma total_lines_no_counter : "total_lines" ∉ Audit.counter <$> Audit.line_rules.
Proof. apply (bool_decide_unpack _). by vm_compute. Qed.

Lemma in_step_trans (a1 b1 a2 b2 a3 b3 : nat) :
  a2 + b1 = a1 + b2 → a3 + b2 = a2 + b3 → a3 + b1 = a1 + b3.
Proof. lia. Qed.

Lemma scan_rust_file_in_step st e :
  Audit.total_violations (Audit.violations (Audit.scan_rust_file st e))
  + counters_sum Audit.line_rules (Audit.stats st)
  = Audit.total_violations (Audit.violations st)
    + counters_sum Audit.line_rules (Audit.stats (Audit.scan_rust_file st e)).
Proof.
  unfold Audit.scan_rust_file. destruct (read_entry e) as [content|err]; [|done].
  match goal with
  | |- context [foldl ?step ?s2 ?l] =>
      assert (Audit.total_violations (Audit.violations (foldl step s2 l))
              + counters_sum Audit.line_rules (Audit.stats s2)
              = Audit.total_violations (Audit.violations s2)
                + counters_sum Audit.line_rules (Audit.stats (foldl step s2 l))) as Hfold
  end.
  { apply (foldl_rel (fun s s' =>
        Audit.total_violations (Audit.violations s')
        + counters_sum Audit.line_rules (Audit.stats s)
        = Audit.total_violations (Audit.violations s)
          + counters_sum Audit.line_rules (Audit.stats s'))).
    - done.
    - intros a b c. apply in_step_trans.
    - intros s nl _. unfold Audit.scan_line.
      apply (foldl_rel (fun s s' =>
        Audit.total_violations (Audit.violations s')
        + counters_sum Audit.line_rules (Audit.stats s)
        = Audit.total_violations (Audit.violations s)
          + counters_sum Audit.line_rules (Audit.stats s'))).
      + done.
      + intros a b c. apply in_step_trans.
      + intros s' r Hr. rewrite apply_rule_total. unfold Audit.apply_rule.
        destruct (Audit.applies r _ _ _); [|lia].
        cbn [Audit.stats Audit.incr_stat Audit.set_stats Audit.add_violation].
        rewrite counters_sum_incr by (done || apply line_rules_counters_nodup). lia. }
  cbn [Audit.stats Audit.violations Audit.set_stats Audit.incr_stat] in Hfold.
  rewrite counters_sum_insert_other in Hfold by apply total_lines_no_counter.
  unfold dict_incr in Hfold.
  rewrite counters_sum_insert_other in Hfold by apply files_scanned_no_counter.
  exact Hfold.
Qed.

(** The ten counters of the line loop stay in step with the violations: over
    [scan_project] the number of violations grows by exactly as much as the
    sum of the counters, so after a scan from a fresh auditor the counters of
    [violation_types] add up to the number of violations of the scan. *)
Theorem counters_in_step_with_violations tree :
  (∀ st, let st' := Audit.scan_project tree st in
         Audit.total_violations (Audit.violations st')
         + counters_sum Audit.line_rules (Audit.stats st)
         = Audit.total_violations (Audit.violations st)
           + counters_sum Audit.line_rules (Audit.stats st'))
  ∧ (∀ root, let st' := Audit.scan_project tree (Audit.init root) in
             counters_sum Audit.line_rules (Audit.stats st')
             = Audit.total_violations (Audit.violations st')).
Proof.
  assert (∀ st, let st' := Audit.scan_project tree st in
         Audit.total_violations (Audit.violations st')
         + counters_sum Audit.line_rules (Audit.stats st)
         = Audit.total_violations (Audit.violations st)
           + counters_sum Audit.line_rules (Audit.stats st')) as Hstep.
  { intros st. cbv zeta. unfold Audit.scan_project.
    match goal with
    | |- context [foldl Audit.scan_rust_file ?s1 ?l] =>
        assert (Audit.total_violations (Audit.violations (foldl Audit.scan_rust_file s1 l))
                + counters_sum Audit.line_rules (Audit.stats s1)
                = Audit.total_violations (Audit.violations s1)
                  + counters_sum Audit.line_rules
                      (Audit.stats (foldl Audit.scan_rust_file s1 l))) as Hfold
    end.
    { apply (foldl_rel (fun s s' =>
        Audit.total_violations (Audit.violations s')
        + counters_sum Audit.line_rules (Audit.stats s)
        = Audit.total_violations (Audit.violations s)
          + counters_sum Audit.line_rules (Audit.stats s'))).
      - done.
      - intros a b c. apply in_step_trans.
      - intros s e _. apply scan_rust_file_in_step. }
    cbn [Audit.stats Audit.violations Audit.set_stats] in Hfold.
    rewrite counters_sum_insert_other in Hfold by apply total_files_no_counter.
    exact Hfold. }
  split; [exact Hstep|].
  intros root. specialize (Hstep (Audit.init root)). cbv zeta in *.
  assert (counters_sum Audit.line_rules (Audit.stats (Audit.init root)) = 0) as Hz
    by reflexivity.
  assert (Audit.total_violations (Audit.violations (Audit.init root)) = 0) as Hv
    by reflexivity.
  lia.
Qed.

Lemma startswith_app (a b : string) : PyStr.startswith a (a +:+ b) = true.
Proof.
  induction a as [|c a IH]; [done|].
  rewrite app_cons_string. cbn. by rewrite Ascii.eqb_refl.
Qed.

Lemma contains_app_l (sub a b : string) :
  PyStr.contains sub a = true → PyStr.contains sub (a +:+ b) = true.
Proof. intros H. apply (contains_of_prefix sub a); [done | apply startswith_app]. Qed.

Lemma kept_under_target (root : string) e :
  PyStr.contains "target" root = true → kept root e = false.
Proof.
  intros Hroot. unfold kept, Audit.abs_path.
  rewrite (contains_app_l "target" root _ Hroot). cbn [negb].
  by rewrite andb_false_r.
Qed.

(** The exclusion test looks at the whole path, project root included: for
    a project whose own path holds [target], [scan_project] scans no file at
    all whatever the sources are, and [check_dependencies] checks no
    manifest; no violation is recorded and [files_scanned] stays 0 while
    [total_files] still counts the [.rs] paths. *)
Theorem project_under_target_is_not_scanned (cargo_outdated : string → option string)
    tree (root : string) :
  PyStr.contains "target" root = true →
  let st := Audit.check_dependencies cargo_outdated tree
              (Audit.scan_project tree (Audit.init root)) in
  Audit.violations st = Audit.mkViolations [] [] [] []
  ∧ Audit.console st = []
  ∧ Audit.stats st !!! "files_scanned" = 0
  ∧ Audit.stats st !!! "total_files" = length (List.filter Audit.is_rs tree).
Proof.
  intros Hroot. cbv zeta.
  assert (Audit.scan_project tree (Audit.init root)
          = Audit.set_stats (<["total_files" := length (List.filter Audit.is_rs tree)]>
                               (Audit.stats (Audit.init root))) (Audit.init root)) as ->.
  { unfold Audit.scan_project. cbn [Audit.project_root Audit.init].
    rewrite kept_filter.
    assert (List.filter (kept root) tree = []) as ->; [|done].
    induction tree as [|e tree IH]; [done|]. cbn [List.filter].
    by rewrite kept_under_target. }
  unfold Audit.check_dependencies.
  match goal with
  | |- context [foldl ?step ?s1 ?l] =>
      assert (foldl step s1 l = s1) as ->
  end.
  { apply (foldl_rel (fun s s' =>
       Audit.project_root s = root → s' = s ∧ Audit.project_root s' = root)); try done.
    - intros a b c H1 H2 Ha. destruct (H1 Ha) as [-> Hb]. by apply H2.
    - intros s e _ Hs. unfold Audit.check_cargo. rewrite Hs.
      unfold Audit.abs_path. by rewrite (contains_app_l "target" root _ Hroot). }
  cbn [Audit.violations Audit.console Audit.stats Audit.set_stats Audit.init].
  split; [done|]. split; [done|]. split.
  - rewrite lookup_total_insert_ne by done. reflexivity.
  - apply lookup_total_insert_eq.
Qed.

Lemma project_under_target_is_not_scanned_witness :
  Audit.violations
    (Audit.check_dependencies Samples.no_cargo Samples.traversal_tree
       (Audit.scan_project Samples.traversal_tree (Audit.init "/srv/build/target/web3")))
  = Audit.mkViolations [] [] [] [].
Proof.
  apply (project_under_target_is_not_scanned Samples.no_cargo Samples.traversal_tree
           "/srv/build/target/web3").
  reflexivity.
Defined.

End AuditFiles.

(** ** Every violation of the line loop has its reason *)
Section AuditSoundness.
Import Outcome.
Implicit Types (st : Audit.Auditor) (r : Audit.LineRule) (e : DirEntry)
  (tree : list DirEntry) (v : Audit.Violation).

Lemma apply_rules_sound rel content nl (rules : list Audit.LineRule) st v :
  v ∈ Audit.all_violations
        (Audit.violations (foldl (Audit.apply_rule rel content nl) st rules)) →
  v ∈ Audit.all_violations (Audit.violations st)
  ∨ ∃ r, r ∈ rules
         ∧ Audit.applies r (Audit.abs_path (Audit.project_root st) rel) content nl.2 = true
         ∧ v = line_violation r rel nl.1 nl.2.
Proof.
  revert st. induction rules as [|r rules IH]; intros st Hin; [by left|].
  cbn [foldl] in Hin. apply IH in Hin as [Hin|(r' & Hr' & Happ & ->)].
  - unfold Audit.apply_rule in Hin.
    destruct (Audit.applies r _ _ _) eqn:Happ; [|by left].
    cbn in Hin. apply all_violations_append in Hin as [Hin| ->]; [by left|].
    right. exists r. split; [left | done].
  - right. exists r'. rewrite apply_rule_root in Happ. split; [by right | done].
Qed.

Lemma scan_line_root rel content st nl :
  Audit.project_root (Audit.scan_line rel content st nl) = Audit.project_root st.
Proof.
  unfold Audit.scan_line.
  apply (foldl_rel (fun s s' => Audit.project_root s' = Audit.project_root s)).
  - done.
  - intros a b c H1 H2. by rewrite H2.
  - intros s r _. apply apply_rule_root.
Qed.

Lemma scan_lines_sound rel content st (k : nat) (lines : list string) v :
  v ∈ Audit.all_violations
        (Audit.violations (foldl (Audit.scan_line rel content) st
                                 (enumerate_from k lines))) →
  v ∈ Audit.all_violations (Audit.violations st)
  ∨ ∃ i line r,
      lines !! i = Some line ∧ r ∈ Audit.line_rules
      ∧ Audit.applies r (Audit.abs_path (Audit.project_root st) rel) content line = true
      ∧ v = line_violation r rel (k + i) line.
Proof.
  revert st k. induction lines as [|l lines IH]; intros st k Hin; [by left|].
  cbn [enumerate_from foldl] in Hin.
  apply IH in Hin as [Hin|(i & line & r & Hi & Hr & Happ & ->)].
  - unfold Audit.scan_line in Hin.
    apply apply_rules_sound in Hin as [Hin|(r & Hr & Happ & ->)]; [by left|].
    right. exists 0, l, r. rewrite Nat.add_0_r. done.
  - right. exists (S i), line, r. rewrite scan_line_root in Happ.
    replace (k + S i) with (S k + i) by lia. done.
Qed.

Lemma scan_rust_file_sound st e v :
  v ∈ Audit.all_violations (Audit.violations (Audit.scan_rust_file st e)) →
  v ∈ Audit.all_violations (Audit.violations st)
  ∨ ∃ content i line r,
      read_entry e = ReadOk content
      ∧ PyStr.split_nl content !! i = Some line ∧ r ∈ Audit.line_rules
      ∧ Audit.applies r (Audit.abs_path (Audit.project_root st) (rel_path e))
                      content line = true
      ∧ v = line_violation r (rel_path e) (S i) line.
Proof.
  unfold Audit.scan_rust_file. destruct (read_entry e) as [content|err]; [|by left].
  intros Hin. unfold enumerate1 in Hin.
  apply scan_lines_sound in Hin as [Hin|(i & line & r & Hi & Hr & Happ & ->)];
    [by left|].
  right. exists content, i, line, r. done.
Qed.

(** No violation of the line loop without its reason: every violation
    [scan_project] records comes from a kept file of the project (name ending
    in [.rs], no [target] or [.security_backup] in the path, no [test] in
    the name) that could be read, names a line of that file on which the test
    of one of the ten rules holds, and carries the type, severity,
    description and code text of that rule. *)
Theorem line_violations_have_a_reason tree st v :
  v ∈ Audit.all_violations (Audit.violations (Audit.scan_project tree st)) →
  v ∈ Audit.all_violations (Audit.violations st)
  ∨ ∃ e content i line r,
      e ∈ tree ∧ kept (Audit.project_root st) e = true
      ∧ read_entry e = ReadOk content
      ∧ PyStr.split_nl content !! i = Some line
      ∧ r ∈ Audit.line_rules
      ∧ Audit.applies r (Audit.abs_path (Audit.project_root st) (rel_path e))
                      content line = true
      ∧ Audit.v_file v = rel_path e ∧ Audit.v_line v = S i
      ∧ Audit.v_type v = Audit.rule_type r
      ∧ Audit.v_code v = Audit.code_of r line
      ∧ Audit.v_severity v = Audit.rule_severity r
      ∧ Audit.v_description v = Audit.rule_description r.
Proof.
  unfold Audit.scan_project. rewrite kept_filter.
  assert (∀ f, f ∈ List.filter (kept (Audit.project_root st)) tree →
               f ∈ tree ∧ kept (Audit.project_root st) f = true) as Hkept.
  { intros f Hf. apply list_elem_of_In, List.filter_In in Hf as [Hf Hk].
    split; [by apply list_elem_of_In | done]. }
  revert Hkept. generalize (List.filter (kept (Audit.project_root st)) tree).
  intros files Hkept.
  match goal with
  | |- context [foldl Audit.scan_rust_file ?s1 files] => set (st1 := s1)
  end.
  assert (Audit.project_root st1 = Audit.project_root st) as Hroot by done.
  assert (Audit.violations st1 = Audit.violations st) as Hviol by done.
  rewrite <- Hviol, <- Hroot. rewrite <- Hroot in Hkept. clearbody st1. clear Hroot Hviol.
  revert st1 Hkept. induction files as [|e files IH]; intros st1 Hkept Hin; [by left|].
  cbn [foldl] in Hin. apply IH in Hin.
  - destruct Hin as [Hin|(e' & content & i & line & r & He' & Hk & Hrest)].
    + apply scan_rust_file_sound in Hin as [Hin|(content & i & line & r & Hr & Hi & Hin & Happ & ->)];
        [by left|].
      right. exists e, content, i, line, r.
      destruct (Hkept e) as [He Hk]; [left|]. done.
    + right. exists e', content, i, line, r. rewrite scan_rust_file_root in Hk, Hrest.
      done.
  - intros f Hf. rewrite scan_rust_file_root. apply Hkept. by right.
Qed.

Lemma line_violations_have_a_reason_witness :
  let v := line_violation
             (Audit.mkLineRule
                (fun _ _ line => PyStr.contains "../" line || PyStr.contains "..\" line)
                Audit.BHigh "PATH_TRAVERSAL" PyStr.strip "HIGH"
                "Potential path traversal vulnerability" "path_traversal")
             "src/loader.rs" 1 "fn load() { read(../data) }" in
  let st := Audit.init "/home/persist/repos/projects/web3" in
  v ∈ Audit.all_violations (Audit.violations st)
  ∨ ∃ e content i line r,
      e ∈ Samples.traversal_tree ∧ kept (Audit.project_root st) e = true
      ∧ read_entry e = ReadOk content
      ∧ PyStr.split_nl content !! i = Some line
      ∧ r ∈ Audit.line_rules
      ∧ Audit.applies r (Audit.abs_path (Audit.project_root st) (rel_path e))
                      content line = true
      ∧ Audit.v_file v = rel_path e ∧ Audit.v_line v = S i
      ∧ Audit.v_type v = Audit.rule_type r
      ∧ Audit.v_code v = Audit.code_of r line
      ∧ Audit.v_severity v = Audit.rule_severity r
      ∧ Audit.v_description v = Audit.rule_description r.
Proof.
  apply (line_violations_have_a_reason Samples.traversal_tree
           (Audit.init "/home/persist/repos/projects/web3")).
  vm_compute. apply list_elem_of_singleton. reflexivity.
Defined.

End AuditSoundness.

(** ** The run on a project that can be examined *)
Section ExaminableRun.
Import Quantum QuantumIO Outcome.
Implicit Types (st : Auditor) (f : SecurityFinding) (tree : list DirEntry)
  (walk : list Visit) (v : Visit).

Lemma entry_of_visit_of (e : DirEntry) : entry_of (visit_of e) = e.
Proof. destruct e as [rel [|r]]; reflexivity. Qed.

Lemma entries_of_tree tree : entry_of <$> (visit_of <$> tree) = tree.
Proof.
  induction tree as [|e tree IH]; [done|].
  cbn [fmap list_fmap]. rewrite entry_of_visit_of. f_equal. exact IH.
Qed.

Lemma scan_visit_entry (p : Pattern) cat sev descr st v :
  is_raise v = false →
  scan_visit p cat sev descr st v
  = Returns (Quantum.scan_entry p cat sev descr st (entry_of v)).
Proof.
  intros Hv. destruct v as [rel r|rel|exn]; [| |done].
  - unfold Quantum.scan_entry, scannable. cbn.
    match goal with |- (if ?b then _ else _) = _ => destruct b end; [|done].
    by destruct r.
  - reflexivity.
Qed.

Lemma io_scan (p : Pattern) cat sev descr st walk :
  forallb (fun v => negb (is_raise v)) walk = true →
  QuantumIO._scan_for_pattern walk p cat sev descr st
  = Returns (Quantum._scan_for_pattern (entry_of <$> walk) p cat sev descr st).
Proof.
  unfold QuantumIO._scan_for_pattern, Quantum._scan_for_pattern.
  revert st. induction walk as [|v walk IH]; intros st Hwalk; [done|].
  cbn [forallb] in Hwalk. apply andb_true_iff in Hwalk as [Hv Hwalk].
  apply negb_true_iff in Hv.
  cbn [for_each fmap list_fmap foldl]. rewrite scan_visit_entry by done.
  rewrite bind_returns. by apply IH.
Qed.

Lemma io_scan_rules (rules : list Rule) st walk :
  forallb (fun v => negb (is_raise v)) walk = true →
  QuantumIO.scan_rules walk rules st
  = Returns (Quantum.scan_rules (entry_of <$> walk) rules st).
Proof.
  intros Hwalk. unfold QuantumIO.scan_rules, Quantum.scan_rules.
  revert st. induction rules as [|r rules IH]; intros st; [done|].
  cbn [for_each foldl]. rewrite io_scan by done. rewrite bind_returns. apply IH.
Qed.

Lemma io_audit_file (file_exists : string → Exists) (p : string) (check : Check) st :
  exists_raises (file_exists p) = false →
  QuantumIO._audit_file file_exists p check st
  = Returns (Quantum._audit_file (tree_of p (file_exists p)) p check st).
Proof.
  intros Hp. unfold QuantumIO._audit_file, Quantum._audit_file, lookup_entry.
  destruct (file_exists p) as [r| |exn]; [| |done].
  - cbn. rewrite String.eqb_refl. by destruct r.
  - reflexivity.
Qed.

Lemma returns_step_bind st (m : result Auditor) (k : Auditor → result Auditor) :
  returns_step st m → (∀ s, returns_step s (k s)) → returns_step st (m ≫= k).
Proof.
  intros (s1 & -> & Hs1) Hk. rewrite bind_returns.
  destruct (Hk s1) as (s2 & Heq & Hs2). exists s2.
  split; [done|]. by apply (run_step_trans st s1 s2).
Qed.

Lemma io_audit_files_step (file_exists : string → Exists) (files : list string)
    (check : Check) st :
  (∀ p, p ∈ files → exists_raises (file_exists p) = false) →
  check ∈ file_checks →
  returns_step st (QuantumIO.audit_files file_exists files check st).
Proof.
  intros Hfiles Hcheck.
  destruct (for_each_returns
              (fun st p => QuantumIO._audit_file file_exists p check st)
              (run_step st) st files) as (st' & Heq & Hstep).
  - intros s p Hp Hs. rewrite io_audit_file by by apply Hfiles.
    eexists. split; [reflexivity|].
    apply (run_step_trans st s); [done|].
    apply (audit_files_run_step (tree_of p (file_exists p)) [p] check s Hcheck).
  - apply run_step_refl.
  - by exists st'.
Qed.

Lemma io_scan_rules_step (rules : list Rule) st walk :
  forallb (fun v => negb (is_raise v)) walk = true →
  returns_step st (QuantumIO.scan_rules walk rules st).
Proof.
  intros Hwalk. rewrite io_scan_rules by done.
  eexists. split; [reflexivity|]. apply scan_rules_run_step.
Qed.

Lemma falcon_file_step st (file : string * read_result) :
  run_step st (falcon_file st file).
Proof.
  unfold falcon_file. destruct (file.2); [|apply run_step_refl].
  destruct (PyStr.contains _ _); [|apply run_step_refl].
  eexists [_]. split; [reflexivity|]. cbn. lia.
Qed.

Lemma falcon_files_step st (files : list (string * read_result)) :
  run_step st (foldl falcon_file st files).
Proof. apply foldl_run_step. intros s file. apply falcon_file_step. Qed.

(** The five audits after [audit_quantum_cryptography] return on a project
    that can be examined, and only append findings. *)
Lemma later_audits_step (fs : FileSystem) st :
  examinable fs →
  returns_step st
    (st2 ← QuantumIO.audit_certificate_management fs st;
     st3 ← QuantumIO.audit_consensus_proof_validation fs st2;
     st4 ← QuantumIO.audit_api_security fs st3;
     st5 ← QuantumIO.audit_configuration_security fs st4;
     QuantumIO.audit_production_readiness fs st5).
Proof.
  intros (Hnamed & Hwalk & _).
  assert (∀ (files : list string) (check : Check) s,
            (∀ p, p ∈ files → p ∈ audited_files) → check ∈ file_checks →
            returns_step s (QuantumIO.audit_files (fs_exists fs) files check s))
    as Haudit.
  { intros files check s Hsub Hcheck. apply io_audit_files_step; [|done].
    intros p Hp. by apply Hnamed, Hsub. }
  assert (∀ (rules : list Rule) s,
            returns_step s (QuantumIO.scan_rules (fs_walk fs) rules s)) as Hscan.
  { intros rules s. by apply io_scan_rules_step. }
  unfold QuantumIO.audit_certificate_management,
    QuantumIO.audit_consensus_proof_validation, QuantumIO.audit_api_security,
    QuantumIO.audit_configuration_security, QuantumIO.audit_production_readiness,
    QuantumIO._check_hardcoded_secrets, QuantumIO._check_debug_code,
    QuantumIO._check_test_certificates, QuantumIO._check_mock_implementations.
  repeat first
    [ apply Hscan
    | apply Haudit;
        [ intros p Hp; unfold audited_files; rewrite !elem_of_app; tauto
        | unfold file_checks; rewrite !elem_of_cons; tauto ]
    | apply returns_step_bind; [|intros ?] ].
Qed.

Lemma falcon_files_of_tree tree st :
  foldl falcon_file st
    ((fun e => (rel_path e, read_entry e))
     <$> List.filter (fun e => String.eqb (path_name (rel_path e))
                                          "quantum_security.rs") tree)
  = foldl falcon_entry st tree.
Proof.
  revert st. induction tree as [|e tree IH]; intros st; [done|].
  cbn [List.filter foldl]. unfold falcon_entry at 2.
  destruct (String.eqb _ _); [|apply IH].
  cbn [fmap list_fmap foldl]. by rewrite <- IH.
Qed.

(** [Quantum] is the run of the script on a project that can be examined
    and is seen the same way by the three views: on the file system of a
    list of entries the script returns the report of [Quantum]. *)
Lemma quantum_is_the_examinable_run tree :
  QuantumIO.run_complete_audit (fs_of_tree tree)
  = Returns (Quantum.run_complete_audit tree).
Proof.
  assert (∀ (files : list string) (check : Check) st,
            QuantumIO.audit_files (fs_exists (fs_of_tree tree)) files check st
            = Returns (Quantum.audit_files tree files check st)) as Haudit.
  { intros files check. unfold QuantumIO.audit_files, Quantum.audit_files.
    induction files as [|p files IH]; intros st; [done|].
    cbn [for_each foldl]. rewrite <- IH.
    unfold QuantumIO._audit_file, Quantum._audit_file. cbn [fs_exists fs_of_tree].
    destruct (lookup_entry tree p) as [e|]; [|done].
    by destruct (read_entry e). }
  assert (∀ (rules : list Rule) st,
            QuantumIO.scan_rules (fs_walk (fs_of_tree tree)) rules st
            = Returns (Quantum.scan_rules tree rules st)) as Hscan.
  { intros rules st. rewrite io_scan_rules.
    - cbn [fs_walk fs_of_tree]. by rewrite entries_of_tree.
    - cbn [fs_walk fs_of_tree]. apply forallb_forall. intros v Hv.
      apply list_elem_of_In, list_elem_of_fmap in Hv as (e & -> & _).
      unfold visit_of. by destruct (entry_node e). }
  assert (∀ st, QuantumIO._check_falcon_1024_implementation
                  (fs_falcon_files (fs_of_tree tree)) st
                = Returns (Quantum._check_falcon_1024_implementation tree st))
    as Hfalcon.
  { intros st. unfold QuantumIO._check_falcon_1024_implementation,
      Quantum._check_falcon_1024_implementation.
    cbn [fs_falcon_files fs_of_tree]. rewrite bind_returns. f_equal.
    apply falcon_files_of_tree. }
  unfold QuantumIO.run_complete_audit, Quantum.run_complete_audit,
    QuantumIO.run_audits, Quantum.run_audits,
    QuantumIO.audit_quantum_cryptography, Quantum.audit_quantum_cryptography,
    QuantumIO.audit_certificate_management, Quantum.audit_certificate_management,
    QuantumIO.audit_consensus_proof_validation,
    Quantum.audit_consensus_proof_validation,
    QuantumIO.audit_api_security, Quantum.audit_api_security,
    QuantumIO.audit_configuration_security, Quantum.audit_configuration_security,
    QuantumIO.audit_production_readiness, Quantum.audit_production_readiness,
    QuantumIO._check_hardcoded_secrets, Quantum._check_hardcoded_secrets,
    QuantumIO._check_debug_code, Quantum._check_debug_code,
    QuantumIO._check_test_certificates, Quantum._check_test_certificates,
    QuantumIO._check_mock_implementations, Quantum._check_mock_implementations.
  repeat (first [ rewrite bind_returns | rewrite Haudit
                | rewrite Hfalcon | rewrite Hscan ]; cbn beta).
  reflexivity.
Qed.

End ExaminableRun.

(** ** The simulated FALCON signature is reported twice *)
Section FalconTwice.
Import Quantum QuantumIO Outcome.
Implicit Types (st : Auditor) (f : SecurityFinding).

Lemma run_step_elem st st' f : run_step st st' → f ∈ findings st → f ∈ findings st'.
Proof. intros (new & -> & _) Hf. apply elem_of_app. by left. Qed.

Lemma count_severity_app s (fs gs : list SecurityFinding) :
  count_severity s (fs ++ gs) = count_severity s fs + count_severity s gs.
Proof. unfold count_severity. by rewrite List.filter_app, length_app. Qed.

Lemma run_step_count s st st' :
  run_step st st' → count_severity s (findings st) ≤ count_severity s (findings st').
Proof. intros (new & -> & _). rewrite count_severity_app. lia. Qed.

Lemma quantum_check_reports path content (lines : list string) st :
  PyStr.contains "simulate_falcon_validation" content = true →
  ∃ f, f ∈ findings (_check_quantum_security path content lines st)
       ∧ severity f = CRITICAL ∧ file_path f = path
       ∧ title f = "FALCON-1024 signature simulation in production".
Proof.
  intros Hc. unfold _check_quantum_security. cbv zeta. rewrite Hc.
  eexists. split.
  - cbn [findings add_finding]. apply elem_of_app. right. apply elem_of_cons. by left.
  - done.
Qed.

Lemma audit_files_cons (file_exists : string → Exists) (p : string)
    (files : list string) (check : Check) st :
  QuantumIO.audit_files file_exists (p :: files) check st
  = QuantumIO._audit_file file_exists p check st
    ≫= QuantumIO.audit_files file_exists files check.
Proof. reflexivity. Qed.

Lemma audit_file_found (file_exists : string → Exists) (p : string)
    (check : Check) st (content : string) :
  file_exists p = Found (ReadOk content) →
  QuantumIO._audit_file file_exists p check st
  = Returns (check p content (PyStr.split_nl content)
               (add_stat "lines_scanned" (length (PyStr.split_nl content))
                  (incr_stat "files_scanned" st))).
Proof. intros Hp. unfold QuantumIO._audit_file. by rewrite Hp. Qed.

Lemma falcon_files_report st (files : list (string * read_result))
    (path content : string) :
  (path, ReadOk content) ∈ files →
  PyStr.contains "simulate_falcon_validation" content = true →
  (∃ f, f ∈ findings (foldl falcon_file st files)
        ∧ severity f = CRITICAL ∧ file_path f = path
        ∧ title f = "FALCON-1024 signature simulation instead of real implementation")
  ∧ count_severity CRITICAL (findings st) + 1
    ≤ count_severity CRITICAL (findings (foldl falcon_file st files)).
Proof.
  intros Hin Hc. revert st.
  induction files as [|file files IH]; intros st; [by apply elem_of_nil in Hin|].
  cbn [foldl]. apply elem_of_cons in Hin as [<-|Hin].
  - assert (∃ f, falcon_file st (path, ReadOk content) = add_finding f st
                 ∧ severity f = CRITICAL ∧ file_path f = path
                 ∧ title f = "FALCON-1024 signature simulation instead of real implementation")
      as (f & -> & Hf).
    { unfold falcon_file. cbn [snd fst]. rewrite Hc.
      eexists. split; [reflexivity|done]. }
    pose proof (falcon_files_step (add_finding f st) files) as Hrest.
    split.
    + exists f. split; [|exact Hf].
      apply (run_step_elem _ _ _ Hrest).
      cbn [findings add_finding]. apply elem_of_app. right. apply elem_of_cons.
      by left.
    + etrans; [|apply (run_step_count _ _ _ Hrest)].
      cbn [findings add_finding]. rewrite count_severity_app.
      apply Nat.add_le_mono_l. unfold count_severity, has_severity.
      cbn [List.filter]. destruct Hf as (-> & _). by rewrite bool_decide_eq_true_2.
  - destruct (IH Hin (falcon_file st file)) as [Hex Hcount]. split; [done|].
    etrans; [|exact Hcount]. apply Nat.add_le_mono_r, run_step_count.
    apply falcon_file_step.
Qed.

(** When the quantum security module of the project is seen by both
    lookups, as a named file that reads as UTF-8 and among the files
    [rglob] collects, read in the encoding of the locale, and both reads
    hold [simulate_falcon_validation], the audit of a project that can be
    examined returns a report that holds the module twice as CRITICAL: once
    from the file check and once more from the FALCON check.  The two
    findings differ and name the one path, [critical_findings] is at least
    2, and the run exits with 1. *)
Theorem simulated_falcon_is_reported_twice (fs : FileSystem)
    (files : list (string * read_result)) (content content' : string) :
  examinable fs →
  fs_exists fs falcon_path = Found (ReadOk content) →
  PyStr.contains "simulate_falcon_validation" content = true →
  fs_falcon_files fs = Returns files →
  (falcon_path, ReadOk content') ∈ files →
  PyStr.contains "simulate_falcon_validation" content' = true →
  ∃ r, QuantumIO.run_complete_audit fs = Returns r
       ∧ (∃ f1 f2, f1 ∈ detailed_findings r ∧ f2 ∈ detailed_findings r ∧ f1 ≠ f2
                   ∧ file_path f1 = falcon_path ∧ file_path f2 = falcon_path
                   ∧ severity f1 = CRITICAL ∧ severity f2 = CRITICAL)
       ∧ 2 ≤ critical_findings (executive_summary r)
       ∧ exit_status r = 1.
Proof.
  intros Hfs Hex Hc Hfiles Hin Hc'.
  pose proof Hfs as (Hnamed & _ & _).
  assert (∃ s0 f1, QuantumIO.audit_files (fs_exists fs) quantum_files
                     _check_quantum_security init = Returns s0
                   ∧ f1 ∈ findings s0
                   ∧ severity f1 = CRITICAL ∧ file_path f1 = falcon_path
                   ∧ title f1 = "FALCON-1024 signature simulation in production")
    as (s0 & f1 & Hs0 & Hf1 & Hs1 & Hp1 & Ht1).
  { unfold quantum_files. fold falcon_path.
    rewrite audit_files_cons, (audit_file_found _ _ _ _ content Hex), bind_returns.
    match goal with
    | |- context [_check_quantum_security falcon_path content ?ls ?s2] =>
        destruct (quantum_check_reports falcon_path content ls s2 Hc)
          as (f1 & Hf1 & Hrest);
        set (s1 := _check_quantum_security falcon_path content ls s2) in *
    end.
    match goal with
    | |- context [QuantumIO.audit_files _ ?rest _ s1] =>
        destruct (io_audit_files_step (fs_exists fs) rest
                    _check_quantum_security s1) as (s0 & Heq & Hstep)
    end.
    - intros p Hp. apply Hnamed. unfold audited_files, quantum_files.
      apply elem_of_app. left. by right.
    - apply elem_of_cons. by left.
    - exists s0, f1. split; [exact Heq|]. split; [|exact Hrest].
      by apply (run_step_elem s1). }
  destruct (falcon_files_report s0 files falcon_path content' Hin Hc')
    as [(f2 & Hf2 & Hs2 & Hp2 & Ht2) Hcount].
  set (s := foldl falcon_file s0 files) in *.
  destruct (later_audits_step fs s Hfs) as (final & Hfinal & Hstep).
  exists (generate_security_report final).
  assert (2 ≤ count_severity CRITICAL (findings final)) as Htwo.
  { etrans; [|apply (run_step_count _ _ _ Hstep)]. etrans; [|exact Hcount].
    assert (0 < count_severity CRITICAL (findings s0)); [|lia].
    apply count_severity_pos. by exists f1. }
  split; [|split; [|split]].
  - unfold QuantumIO.run_complete_audit, QuantumIO.run_audits,
      QuantumIO.audit_quantum_cryptography,
      QuantumIO._check_falcon_1024_implementation.
    rewrite Hs0, bind_returns, Hfiles, !bind_returns. fold s.
    by rewrite Hfinal, bind_returns.
  - exists f1, f2. unfold generate_security_report. cbn [detailed_findings].
    split; [|split; [|split; [|done]]].
    + apply (run_step_elem _ _ _ Hstep).
      apply (run_step_elem s0); [apply falcon_files_step | exact Hf1].
    + apply (run_step_elem _ _ _ Hstep), Hf2.
    + intros Heq. rewrite Heq, Ht2 in Ht1. discriminate Ht1.
  - unfold generate_security_report.
    cbn [executive_summary summarize critical_findings].
    unfold critical_count_of. by rewrite severity_counts_lookup.
  - apply quantum_exit_one_iff.
    destruct (summary_of_counts final) as (_ & Hready & _).
    cbv zeta in Hready. rewrite Hready. unfold production_ready_of.
    destruct (count_severity CRITICAL (findings final)); [lia|done].
Qed.

Lemma simulated_falcon_is_reported_twice_witness :
  ∃ r, QuantumIO.run_complete_audit Samples.falcon_fs = Returns r
       ∧ (∃ f1 f2, f1 ∈ detailed_findings r ∧ f2 ∈ detailed_findings r ∧ f1 ≠ f2
                   ∧ file_path f1 = falcon_path ∧ file_path f2 = falcon_path
                   ∧ severity f1 = CRITICAL ∧ severity f2 = CRITICAL)
       ∧ 2 ≤ critical_findings (executive_summary r)
       ∧ exit_status r = 1.
Proof.
  apply (simulated_falcon_is_reported_twice Samples.falcon_fs
           [(falcon_path, ReadOk Samples.falcon_text)]
           Samples.falcon_text Samples.falcon_text).
  - split; [|split].
    + intros p _. cbn. unfold Samples.falcon_exists.
      by destruct (String.eqb p falcon_path).
    + reflexivity.
    + by eexists.
  - reflexivity.
  - reflexivity.
  - reflexivity.
  - apply elem_of_cons. by left.
  - reflexivity.
Defined.

End FalconTwice.

(** ** The recommendations of [security_audit.py] *)
Section AuditRecommendations.
Import Outcome AuditReport.
Implicit Types (st : Audit.Auditor) (r : Audit.LineRule) (k t : string).

Lemma count_type_append t (b : Audit.Bucket) (v : Audit.Violation)
    (vs : Audit.Violations) :
  count_type t (Audit.append_to b v vs)
  = count_type t vs + (if String.eqb (Audit.v_type v) t then 1 else 0).
Proof.
  unfold count_type, Audit.all_violations.
  destruct b; cbn [Audit.append_to Audit.critical Audit.high Audit.medium Audit.low];
    rewrite !List.filter_app, !length_app; cbn [List.filter];
    destruct (String.eqb (Audit.v_type v) t); cbn [length]; lia.
Qed.

Lemma line_rules_keys_types r r0 :
  r ∈ Audit.line_rules → r0 ∈ Audit.line_rules →
  (Audit.counter r = Audit.counter r0 ↔ Audit.rule_type r = Audit.rule_type r0).
Proof.
  assert (forallb (fun a => forallb (fun b =>
            Bool.eqb (String.eqb (Audit.counter a) (Audit.counter b))
                     (String.eqb (Audit.rule_type a) (Audit.rule_type b)))
            Audit.line_rules) Audit.line_rules = true) as Hall by (by vm_compute).
  intros Hr Hr0. apply list_elem_of_In in Hr, Hr0.
  rewrite forallb_forall in Hall. specialize (Hall r Hr).
  rewrite forallb_forall in Hall. specialize (Hall r0 Hr0).
  apply Bool.eqb_prop in Hall. rewrite <- !String.eqb_eq, Hall. done.
Qed.

Lemma later_types_no_rule :
  ("OUTDATED_DEPENDENCIES" ∉ Audit.rule_type <$> Audit.line_rules)
  ∧ ("NO_CRYPTO_LIBRARY" ∉ Audit.rule_type <$> Audit.line_rules).
Proof. split; apply (bool_decide_unpack _); by vm_compute. Qed.

Lemma apply_rule_counts rel content nl st r r0 :
  r ∈ Audit.line_rules → r0 ∈ Audit.line_rules →
  counts_type (Audit.counter r) (Audit.rule_type r) st →
  counts_type (Audit.counter r) (Audit.rule_type r)
              (Audit.apply_rule rel content nl st r0).
Proof.
  intros Hr Hr0 Hinv. unfold Audit.apply_rule.
  destruct (Audit.applies r0 _ _ _); [|done].
  unfold counts_type in *.
  cbn [Audit.incr_stat Audit.set_stats Audit.add_violation Audit.stats Audit.violations].
  rewrite count_type_append. cbn [Audit.v_type].
  pose proof (line_rules_keys_types r r0 Hr Hr0) as Hiff.
  destruct (decide (Audit.counter r = Audit.counter r0)) as [Heq|Hne].
  - rewrite <- Heq, dict_incr_lookup_eq, Hinv.
    rewrite (proj2 (String.eqb_eq _ _)) by (symmetry; by apply Hiff). lia.
  - rewrite dict_incr_lookup_ne by done. rewrite Hinv.
    rewrite (proj2 (String.eqb_neq _ _)); [lia|].
    intros Heq. apply Hne, Hiff. done.
Qed.

Lemma scan_rust_file_counts st e r :
  r ∈ Audit.line_rules →
  counts_type (Audit.counter r) (Audit.rule_type r) st →
  counts_type (Audit.counter r) (Audit.rule_type r) (Audit.scan_rust_file st e).
Proof.
  intros Hr Hinv. unfold Audit.scan_rust_file. destruct (read_entry e); [|done].
  cbv zeta. apply foldl_invariant.
  - intros s nl _ Hs. unfold Audit.scan_line. apply foldl_invariant; [|done].
    intros s' r0 Hr0 Hs'. by apply apply_rule_counts.
  - unfold counts_type in *.
    cbn [Audit.incr_stat Audit.set_stats Audit.stats Audit.violations].
    rewrite lookup_total_insert_ne, dict_incr_lookup_ne; [done| |].
    + intros Heq. apply files_scanned_no_counter. rewrite Heq.
      apply list_elem_of_fmap. by exists r.
    + intros Heq. apply total_lines_no_counter. rewrite Heq.
      apply list_elem_of_fmap. by exists r.
Qed.

Lemma scan_project_counts tree st r :
  r ∈ Audit.line_rules →
  counts_type (Audit.counter r) (Audit.rule_type r) st →
  counts_type (Audit.counter r) (Audit.rule_type r) (Audit.scan_project tree st).
Proof.
  intros Hr Hinv. unfold Audit.scan_project. cbv zeta. apply foldl_invariant.
  - intros s e _ Hs. by apply scan_rust_file_counts.
  - unfold counts_type in *. cbn [Audit.set_stats Audit.stats Audit.violations].
    rewrite lookup_total_insert_ne; [done|].
    intros Heq. apply total_files_no_counter. rewrite Heq.
    apply list_elem_of_fmap. by exists r.
Qed.

Lemma deep_scan_crypto_types st e r :
  r ∈ Audit.line_rules →
  count_type (Audit.rule_type r) (Audit.violations (Audit.deep_scan_crypto st e))
  = count_type (Audit.rule_type r) (Audit.violations st).
Proof.
  intros Hr. unfold Audit.deep_scan_crypto. destruct (read_entry e); [|done].
  destruct (_ || _); [done|]. destruct (_ || _); [|done].
  cbn [Audit.add_violation Audit.violations]. rewrite count_type_append.
  cbn [Audit.v_type]. rewrite (proj2 (String.eqb_neq _ _)); [lia|].
  intros Heq. apply (proj2 later_types_no_rule). rewrite Heq.
  apply list_elem_of_fmap. by exists r.
Qed.

Lemma later_phases_types (cargo_outdated : string → option string) tree st r :
  r ∈ Audit.line_rules →
  count_type (Audit.rule_type r)
    (Audit.violations (Audit.analyze_crypto_implementations tree
                         (Audit.check_dependencies cargo_outdated tree st)))
  = count_type (Audit.rule_type r) (Audit.violations st).
Proof.
  intros Hr. unfold Audit.analyze_crypto_implementations, Audit.check_dependencies.
  set (I := fun s => count_type (Audit.rule_type r) (Audit.violations s)
                     = count_type (Audit.rule_type r) (Audit.violations st)).
  assert (∀ s e, I s → I (Audit.deep_scan_crypto s e)) as Hdeep.
  { intros s e Hs. unfold I. by rewrite deep_scan_crypto_types. }
  apply (foldl_invariant I).
  - intros s p _ Hs. unfold Audit.analyze_path.
    destruct (List.find _ tree) as [e|]; [|done].
    destruct (entry_node e); [|by apply Hdeep].
    apply foldl_invariant; [|done]. intros s' f _ Hs'. by apply Hdeep.
  - apply (foldl_invariant I); [|done].
    intros s e _ Hs. unfold Audit.check_cargo. cbv zeta.
    destruct (PyStr.contains "target" _); [done|].
    destruct (cargo_outdated _) as [stdout|]; [|done].
    destruct (PyStr.contains "outdated" _); [|done].
    unfold I in *. cbn [Audit.add_violation Audit.violations].
    rewrite count_type_append. cbn [Audit.v_type].
    rewrite (proj2 (String.eqb_neq _ _)); [lia|].
    intros Heq. apply (proj1 later_types_no_rule). rewrite Heq.
    apply list_elem_of_fmap. by exists r.
Qed.

Lemma run_counts (cargo_outdated : string → option string) tree (root : string) r :
  r ∈ Audit.line_rules →
  counts_type (Audit.counter r) (Audit.rule_type r)
              (Audit.run cargo_outdated tree root).
Proof.
  intros Hr. unfold Audit.run, counts_type.
  rewrite later_phases_keep_stats, later_phases_types by done.
  apply scan_project_counts; [done|].
  unfold counts_type, Audit.line_rules in *.
  repeat (apply elem_of_cons in Hr as [->|Hr]; [by vm_compute|]).
  by apply elem_of_nil in Hr.
Qed.

Lemma elem_of_when (s text : string) (cond : bool) :
  s ∈ when cond text ↔ cond = true ∧ s = text.
Proof.
  unfold when. destruct cond.
  - rewrite list_elem_of_singleton. split; [by intros -> | by intros [_ ->]].
  - rewrite elem_of_nil. split; [done | by intros [? _]].
Qed.

Lemma elem_of_existsb (s : string) (l : list string) :
  s ∈ l ↔ existsb (String.eqb s) l = true.
Proof.
  rewrite existsb_exists. split.
  - intros Hs. exists s. split; [by apply list_elem_of_In | apply String.eqb_refl].
  - intros (x & Hx & Heq). apply String.eqb_eq in Heq as ->. by apply list_elem_of_In.
Qed.

Lemma length_when (cond : bool) (text : string) : length (when cond text) ≤ 1.
Proof. destruct cond; cbn; lia. Qed.

(** The recommendations of a report follow the violations it lists: each of
    the ten counters is the number of violations of its type in the report;
    five of the six conditional recommendations are given exactly when a
    violation of their type was recorded, the one on [unwrap()] only when
    more than 100 were; the ten fixed recommendations always close the list,
    which so has between 10 and 16 entries. *)
Theorem recommendations_follow_violations (cargo_outdated : string → option string)
    tree (root : string) :
  let st := Audit.run cargo_outdated tree root in
  let vs := Audit.violations st in
  let recs := generate_recommendations st in
  (∀ r, r ∈ Audit.line_rules →
        Audit.stats st !!! Audit.counter r = count_type (Audit.rule_type r) vs)
  ∧ ("CRITICAL: Replace all mock cryptographic implementations with real libraries (pqcrypto-falcon, ring, rustls)"
       ∈ recs ↔ 0 < count_type "MOCK_CRYPTOGRAPHY" vs)
  ∧ ("CRITICAL: Remove all default_for_testing() methods from production code paths"
       ∈ recs ↔ 0 < count_type "TEST_BYPASS" vs)
  ∧ ("HIGH: Replace unwrap() calls with proper error handling using Result<T, E> and ?"
       ∈ recs ↔ 100 < count_type "UNWRAP_PANIC" vs)
  ∧ ("CRITICAL: Complete all TODO/FIXME security implementations before production"
       ∈ recs ↔ 0 < count_type "PLACEHOLDER_SECURITY" vs)
  ∧ ("CRITICAL: Move all secrets to environment variables or secure key management"
       ∈ recs ↔ 0 < count_type "HARDCODED_SECRET" vs)
  ∧ ("HIGH: Add input validation for all external data sources"
       ∈ recs ↔ 0 < count_type "MISSING_VALIDATION" vs)
  ∧ fixed_recommendations `suffix_of` recs
  ∧ 10 ≤ length recs ≤ 16.
Proof.
  cbv zeta. set (st := Audit.run cargo_outdated tree root).
  assert (∀ r, r ∈ Audit.line_rules →
               Audit.stats st !!! Audit.counter r
               = count_type (Audit.rule_type r) (Audit.violations st)) as Hcount.
  { intros r Hr. by apply run_counts. }
  split; [exact Hcount|].
  assert (∀ i r, Audit.line_rules !! i = Some r →
                 Audit.stats st !!! Audit.counter r
                 = count_type (Audit.rule_type r) (Audit.violations st)) as Hat.
  { intros i r Hi. apply Hcount. by apply list_elem_of_lookup_2 in Hi. }
  pose proof (Hat 0 _ eq_refl) as Hmock. pose proof (Hat 1 _ eq_refl) as Htest.
  pose proof (Hat 2 _ eq_refl) as Hunwrap. pose proof (Hat 3 _ eq_refl) as Hplace.
  pose proof (Hat 4 _ eq_refl) as Hvalid. pose proof (Hat 5 _ eq_refl) as Hsecret.
  cbn [Audit.counter Audit.rule_type] in Hmock, Htest, Hunwrap, Hplace, Hvalid, Hsecret.
  unfold generate_recommendations. cbv zeta.
  rewrite Hmock, Htest, Hunwrap, Hplace, Hvalid, Hsecret.
  rewrite <- !Nat.ltb_lt.
  generalize (0 <? count_type "MOCK_CRYPTOGRAPHY" (Audit.violations st)),
    (0 <? count_type "TEST_BYPASS" (Audit.violations st)),
    (100 <? count_type "UNWRAP_PANIC" (Audit.violations st)),
    (0 <? count_type "PLACEHOLDER_SECURITY" (Audit.violations st)),
    (0 <? count_type "HARDCODED_SECRET" (Audit.violations st)),
    (0 <? count_type "MISSING_VALIDATION" (Audit.violations st)).
  intros c1 c2 c3 c4 c5 c6.
  repeat match goal with |- _ ∧ _ => split end.
  all: try (rewrite elem_of_existsb;
            destruct c1, c2, c3, c4, c5, c6; vm_compute; tauto).
  - unfold fixed_recommendations.
    repeat (rewrite app_assoc). eexists. reflexivity.
  - rewrite !length_app. cbn [fixed_recommendations length]. lia.
  - rewrite !length_app.
    repeat match goal with
           | |- context [length (when ?c ?t)] =>
               let H := fresh in
               pose proof (length_when c t) as H;
               generalize dependent (length (when c t)); intros
           end.
    cbn [fixed_recommendations length]. lia.
Qed.

End AuditRecommendations.
